(** * X-Ray: decision observability — SDK client and funnel reconstruction

    A shallow embedding of [sdk/client.py] (context tracker, candidate
    summarizer, event batcher) and of [backend/app/routes.py] (ingest and
    funnel reconstruction), with the properties of the specification stated
    over it.

    Python values are embedded as the inductive [pyval]; a Python [float]
    is a binary64 number and is embedded as Rocq's primitive [float]. *)

From Stdlib Require Import ZArith List Bool Ascii String DecimalString Lia.
From Stdlib Require Import PrimFloat SpecFloat FloatOps.
From stdpp Require Import gmap strings list.

Set Warnings "-register-all,-inexact-float".
Local Open Scope string_scope.

(** ** Python values *)

Module Py.

(** A raised exception: its class name, [str(e)], and whether it is an
    instance of [Exception] (KeyboardInterrupt and SystemExit derive from
    [BaseException] only, and [except Exception] lets them pass). *)
Record exn := mk_exn {
  exn_class : string;
  exn_str : string;
  is_Exception : bool
}.

Inductive result (A : Type) : Type :=
| Ok (a : A)
| Raise (e : exn).
Arguments Ok {A} a.
Arguments Raise {A} e.

Definition bind {A B} (r : result A) (k : A -> result B) : result B :=
  match r with
  | Ok a => k a
  | Raise e => Raise e
  end.

Declare Scope py_scope.
Notation "x <- c1 ;; c2" := (bind c1 (fun x => c2))
  (at level 100, c1 at next level, right associativity) : py_scope.
Delimit Scope py_scope with py.

(** *** Text of a value: [str] and [repr]

    A [str] is taken as a sequence of code points below 256, one [ascii]
    each. *)

Definition int_str (z : Z) : string := NilZero.string_of_int (Z.to_int z).

Definition hex_digit (n : nat) : ascii :=
  ascii_of_nat (if (n <? 10)%nat then 48 + n else 87 + n).

(** [str.isprintable] on one code point. *)
Definition printable (c : ascii) : bool :=
  let n := nat_of_ascii c in
  (((32 <=? n) && (n <? 127)) || ((161 <=? n) && negb (n =? 173)))%nat.

Fixpoint contains (c : ascii) (s : string) : bool :=
  match s with
  | EmptyString => false
  | String c' s' => Ascii.eqb c c' || contains c s'
  end.

Definition backslash : ascii := "092"%char.
Definition double_quote : ascii := "034"%char.

Definition escape_char (quote c : ascii) : string :=
  let one := String c EmptyString in
  if Ascii.eqb c quote || Ascii.eqb c backslash then String backslash one
  else if Ascii.eqb c "009" then String backslash "t"
  else if Ascii.eqb c "010" then String backslash "n"
  else if Ascii.eqb c "013" then String backslash "r"
  else if printable c then one
  else let n := nat_of_ascii c in
       String backslash
         (String "x" (String (hex_digit (n / 16))
                        (String (hex_digit (n mod 16)) EmptyString))).

Fixpoint escape (quote : ascii) (s : string) : string :=
  match s with
  | EmptyString => EmptyString
  | String c s' => escape_char quote c ++ escape quote s'
  end.

(** [repr(s)] for a [str]: single quotes, unless the text has a single
    quote and no double quote. *)
Definition repr_str (s : string) : string :=
  let quote := if contains "'" s && negb (contains double_quote s)
               then double_quote else "'"%char in
  String quote (escape quote s ++ String quote EmptyString).

(** *** [repr] of a [float]: the shortest digit string that reads back as
    the same binary64, nearest to it when there are several. *)

Section Shortest.

(** The positive number [m * 2 ^ e] and the half-way points to its two
    neighbours, over the common denominator [Dd]. *)
Variables (m e : Z).

Definition boundary : bool := ((m =? 2 ^ 52) && (-1074 <? e))%Z.
Definition up : Z := Z.max 0 (e - 2).
Definition Dd : Z := (2 ^ Z.max 0 (2 - e))%Z.
Definition V : Z := (4 * m * 2 ^ up)%Z.
Definition HI : Z := ((4 * m + 2) * 2 ^ up)%Z.
Definition LO : Z := ((4 * m - (if boundary then 1 else 2)) * 2 ^ up)%Z.

(** The integer part of [m * 2 ^ e / 10 ^ q]. *)
Definition floor_at (q : Z) : Z :=
  ((V * 10 ^ Z.max (- q) 0) / (Dd * 10 ^ Z.max q 0))%Z.

(** [k * 10 ^ q] against [X / Dd]. *)
Definition cmp_at (k q X : Z) : comparison :=
  (k * 10 ^ Z.max q 0 * Dd ?= X * 10 ^ Z.max (- q) 0)%Z.

(** Does [k * 10 ^ q] read back as [m * 2 ^ e] (ties to even)? *)
Definition reads_back (k q : Z) : bool :=
  if Z.even m
  then match cmp_at k q LO, cmp_at k q HI with
       | Lt, _ | _, Gt => false
       | _, _ => true
       end
  else match cmp_at k q LO, cmp_at k q HI with
       | Gt, Lt => true
       | _, _ => false
       end.

(** The largest [j] among [hi], [hi - 1], ... with [10 ^ j <= m * 2 ^ e]. *)
Fixpoint magnitude (fuel : nat) (j : Z) : Z :=
  match fuel with
  | O => j
  | S fuel' => if (1 <=? floor_at j)%Z then j else magnitude fuel' (j - 1)%Z
  end.

Definition e10 : Z :=
  magnitude 5 (((Z.log2 m + e) * 30103) / 100000 + 2)%Z.

(** The digits with [n] places, for [n] from [18 - fuel] on: the pair
    [(k, q)] stands for [k * 10 ^ q]. *)
Fixpoint shortest_from (fuel : nat) (n : Z) : Z * Z :=
  let q := (e10 - n + 1)%Z in
  let lo := floor_at q in
  let hi := (lo + 1)%Z in
  match fuel with
  | O => (lo, q)
  | S fuel' =>
      match reads_back lo q, reads_back hi q with
      | true, true =>
          match cmp_at (lo + hi) q (2 * V) with
          | Gt => (lo, q)
          | Lt => (hi, q)
          | Eq => (if Z.even lo then lo else hi, q)
          end
      | true, false => (lo, q)
      | false, true => (hi, q)
      | false, false => shortest_from fuel' (n + 1)%Z
      end
  end.

Definition shortest : Z * Z := shortest_from 17 1.

End Shortest.

(** [s.lstrip(chars)] and [s.rstrip(chars)], the characters to drop given
    as a predicate. *)
Fixpoint lstrip (p : ascii -> bool) (s : string) : string :=
  match s with
  | EmptyString => EmptyString
  | String c s' => if p c then lstrip p s' else s
  end.

Fixpoint rstrip (p : ascii -> bool) (s : string) : string :=
  match s with
  | EmptyString => EmptyString
  | String c s' =>
      match rstrip p s' with
      | EmptyString => if p c then EmptyString else String c EmptyString
      | r => String c r
      end
  end.

Definition rstrip_zeros (s : string) : string := rstrip (Ascii.eqb "0") s.

Fixpoint zeros (n : nat) : string :=
  match n with
  | O => EmptyString
  | S n' => String "0" (zeros n')
  end.

(** [float_repr_style] 'short': the digits [ds] with the decimal point
    after [decpt] of them; an exponent from 1e16 on and below 1e-4. *)
Definition format_short (ds : string) (decpt : Z) : string :=
  let n := Z.of_nat (String.length ds) in
  if ((decpt <=? -4) || (16 <? decpt))%Z
  then
    let ex := (decpt - 1)%Z in
    let mant := match ds with
                | String c EmptyString => ds
                | String c rest => String c (String "." rest)
                | EmptyString => ds
                end in
    let exs := int_str (Z.abs ex) in
    mant ++ "e" ++ (if (ex <? 0)%Z then "-" else "+")
         ++ (if (String.length exs <? 2)%nat then String "0" exs else exs)
  else if (decpt <=? 0)%Z
  then "0." ++ zeros (Z.to_nat (- decpt)) ++ ds
  else if (decpt <? n)%Z
  then substring 0 (Z.to_nat decpt) ds ++ "."
         ++ substring (Z.to_nat decpt) (String.length ds - Z.to_nat decpt) ds
  else ds ++ zeros (Z.to_nat (decpt - n)) ++ ".0".

Definition repr_float (f : float) : string :=
  match Prim2SF f with
  | S754_nan => "nan"
  | S754_infinity s => if s then "-inf" else "inf"
  | S754_zero s => if s then "-0.0" else "0.0"
  | S754_finite s m e =>
      let kq := shortest (Zpos m) e in
      let all := int_str (fst kq) in
      (if s then "-" else EmptyString)
        ++ format_short (rstrip_zeros all)
             (snd kq + Z.of_nat (String.length all))
  end.

Definition KeyError (k : string) : exn := mk_exn "KeyError" (repr_str k) true.
Definition ValueError (m : string) : exn := mk_exn "ValueError" m true.
Definition TypeError (m : string) : exn := mk_exn "TypeError" m true.
Definition AttributeError (m : string) : exn := mk_exn "AttributeError" m true.
Definition OverflowError (m : string) : exn := mk_exn "OverflowError" m true.
Definition ZeroDivisionError (m : string) : exn := mk_exn "ZeroDivisionError" m true.

(** JSON-shaped Python values.  A [dict] keeps insertion order, so it is an
    association list with at most one binding per key. *)
Inductive pyval : Type :=
| PNone
| PBool (b : bool)
| PInt (z : Z)
| PFloat (f : float)
| PStr (s : string)
| PList (l : list pyval)
| PDict (d : list (string * pyval)).

Abbreviation dict := (list (string * pyval)).

(** [type(v).__name__] *)
Definition type_name (v : pyval) : string :=
  match v with
  | PNone => "NoneType"
  | PBool _ => "bool"
  | PInt _ => "int"
  | PFloat _ => "float"
  | PStr _ => "str"
  | PList _ => "list"
  | PDict _ => "dict"
  end.

(** [repr(v)] *)
Fixpoint py_repr (v : pyval) : string :=
  match v with
  | PNone => "None"
  | PBool b => if b then "True" else "False"
  | PInt z => int_str z
  | PFloat f => repr_float f
  | PStr s => repr_str s
  | PList l =>
      "[" ++ (fix items (l : list pyval) : string :=
                match l with
                | [] => EmptyString
                | [x] => py_repr x
                | x :: l' => py_repr x ++ ", " ++ items l'
                end) l ++ "]"
  | PDict d =>
      "{" ++ (fix items (d : list (string * pyval)) : string :=
                match d with
                | [] => EmptyString
                | [(k, x)] => repr_str k ++ ": " ++ py_repr x
                | (k, x) :: d' => repr_str k ++ ": " ++ py_repr x ++ ", " ++ items d'
                end) d ++ "}"
  end.

Definition quoted (s : string) : string := "'" ++ s ++ "'".

(** [s.replace(old, '')] for a non-empty [old]: the occurrences of [old]
    are dropped from left to right; [skip] counts the characters of an
    occurrence still to drop. *)
Fixpoint remove_from (old : string) (skip : nat) (s : string) : string :=
  match s with
  | EmptyString => EmptyString
  | String c s' =>
      match skip with
      | S n => remove_from old n s'
      | O => if String.prefix old s
             then remove_from old (String.length old - 1) s'
             else String c (remove_from old 0 s')
      end
  end.

Definition remove (old s : string) : string := remove_from old 0 s.

(** [int(s, 16)] (CPython 3.11): blanks around the literal, a sign, a
    [0x] prefix, and single underscores between digits are accepted. *)
Definition is_space (c : ascii) : bool :=
  let n := nat_of_ascii c in
  (((9 <=? n) && (n <=? 13)) || (n =? 32) || (n =? 133) || (n =? 160))%nat.

Definition digit_value (c : ascii) : option Z :=
  let n := nat_of_ascii c in
  if ((48 <=? n) && (n <=? 57))%nat then Some (Z.of_nat n - 48)%Z
  else if ((97 <=? n) && (n <=? 102))%nat then Some (Z.of_nat n - 87)%Z
  else if ((65 <=? n) && (n <=? 70))%nat then Some (Z.of_nat n - 55)%Z
  else None.

(** The digits of the literal: the value read and the text left over;
    [after_underscore] tells that the last character read was one. *)
Fixpoint digits16 (s : string) (acc : Z) (after_underscore : bool)
  : option (Z * string) :=
  match s with
  | EmptyString => if after_underscore then None else Some (acc, s)
  | String c s' =>
      if Ascii.eqb c "_"
      then (if after_underscore then None else digits16 s' acc true)
      else match digit_value c with
           | Some d => digits16 s' (16 * acc + d)%Z false
           | None => if after_underscore then None else Some (acc, s)
           end
  end.

(** The sign in front of the literal: whether it is a minus, and the
    text after it. *)
Definition split_sign (s : string) : bool * string :=
  match s with
  | String c r =>
      if Ascii.eqb c "+" then (false, r)
      else if Ascii.eqb c "-" then (true, r)
      else (false, s)
  | EmptyString => (false, s)
  end.

(** A [0x] or [0X] in front of the digits is skipped, and one underscore
    after it. *)
Definition skip_prefix16 (s : string) : string :=
  match s with
  | String z (String x r) =>
      if Ascii.eqb z "0" && (Ascii.eqb x "x" || Ascii.eqb x "X")
      then match r with
           | String u r' => if Ascii.eqb u "_" then r' else r
           | EmptyString => r
           end
      else s
  | _ => s
  end.

Definition int16 (s : string) : option Z :=
  let signed := split_sign (lstrip is_space s) in
  let body := skip_prefix16 (snd signed) in
  match body with
  | EmptyString => None
  | String c _ =>
      match digit_value c with
      | None => None
      | Some _ =>
          match digits16 body 0 false with
          | Some (z, rest) =>
              match lstrip is_space rest with
              | EmptyString => Some (if fst signed then (- z)%Z else z)
              | _ => None
              end
          | None => None
          end
      end
  end.

(** The AttributeError of [v.attr] for an attribute the type lacks. *)
Definition no_attribute (v : pyval) (attr : string) : exn :=
  AttributeError (quoted (type_name v) ++ " object has no attribute " ++ quoted attr).

(** [bool(v)]: Python truthiness. *)
Definition truthy (v : pyval) : bool :=
  match v with
  | PNone => false
  | PBool b => b
  | PInt z => negb (z =? 0)%Z
  | PFloat f => negb (PrimFloat.eqb f PrimFloat.zero)
  | PStr s => negb (String.eqb s EmptyString)
  | PList l => match l with [] => false | _ => true end
  | PDict d => match d with [] => false | _ => true end
  end.

(** [a or b] (both operands already evaluated). *)
Definition py_or (a b : pyval) : pyval := if truthy a then a else b.

(** [a or b] where [b] is only evaluated when [a] is falsy. *)
Definition py_or_lazy (a : pyval) (b : result pyval) : result pyval :=
  if truthy a then Ok a else b.

Definition is_none (v : pyval) : bool :=
  match v with PNone => true | _ => false end.

Definition isinstance_list (v : pyval) : bool :=
  match v with PList _ => true | _ => false end.

Definition isinstance_dict (v : pyval) : bool :=
  match v with PDict _ => true | _ => false end.

(** *** Dictionaries *)

Fixpoint dict_find (d : dict) (k : string) : option pyval :=
  match d with
  | [] => None
  | (k', v) :: d' => if String.eqb k k' then Some v else dict_find d' k
  end.

(** [d.get(k, default)] *)
Definition dict_get_default (d : dict) (k : string) (dflt : pyval) : pyval :=
  match dict_find d k with
  | Some v => v
  | None => dflt
  end.

(** [d.get(k)] *)
Definition dict_get (d : dict) (k : string) : pyval := dict_get_default d k PNone.

(** [d[k]] *)
Definition dict_item (d : dict) (k : string) : result pyval :=
  match dict_find d k with
  | Some v => Ok v
  | None => Raise (KeyError k)
  end.

(** [d[k] = v]: overwrite in place, or append a new binding. *)
Fixpoint dict_set (d : dict) (k : string) (v : pyval) : dict :=
  match d with
  | [] => [(k, v)]
  | (k', v') :: d' =>
      if String.eqb k k' then (k', v) :: d' else (k', v') :: dict_set d' k v
  end.

(** [v.get(k, default)] on an arbitrary value: only a dict has [get]. *)
Definition py_get_default (v : pyval) (k : string) (dflt : pyval) : result pyval :=
  match v with
  | PDict d => Ok (dict_get_default d k dflt)
  | _ => Raise (no_attribute v "get")
  end.

Definition py_get (v : pyval) (k : string) : result pyval := py_get_default v k PNone.

(** [len(v)] *)
Definition py_len (v : pyval) : result pyval :=
  match v with
  | PList l => Ok (PInt (Z.of_nat (length l)))
  | PDict d => Ok (PInt (Z.of_nat (length d)))
  | PStr s => Ok (PInt (Z.of_nat (String.length s)))
  | _ => Raise (TypeError ("object of type " ++ quoted (type_name v) ++ " has no len()"))
  end.

(** *** Numbers *)

Definition sf_of_int (z : Z) : spec_float :=
  match z with
  | Z0 => S754_zero false
  | Zpos p => S754_finite false p 0
  | Zneg p => S754_finite true p 0
  end.

(** Half-way between the largest binary64 and the next power of two: a
    magnitude from here on rounds out of the binary64 range. *)
Definition overflow_threshold : Z := (2 ^ 1024 - 2 ^ 970)%Z.

(** [float(z)]: the nearest binary64 (ties to even); an int that rounds
    out of the binary64 range raises OverflowError. *)
Definition float_of_int (z : Z) : result float :=
  if (overflow_threshold <=? Z.abs z)%Z
  then Raise (OverflowError "int too large to convert to float")
  else Ok (SF2Prim (binary_normalize prec emax z 0 false)).

(** [a / b] on ints: the correctly rounded quotient; OverflowError when it
    rounds out of the binary64 range. *)
Definition int_truediv (a b : Z) : result float :=
  if (b =? 0)%Z then Raise (ZeroDivisionError "division by zero")
  else if (overflow_threshold * Z.abs b <=? Z.abs a)%Z
  then Raise (OverflowError "integer division result too large for a float")
  else Ok (SF2Prim (SFdiv prec emax (sf_of_int a) (sf_of_int b))).

(** The numeric tower of the values met here: bool is an int; int and float
    mix by converting the int. *)
Inductive num : Type :=
| NInt (z : Z)
| NFloat (f : float).

Definition as_num (v : pyval) : option num :=
  match v with
  | PBool b => Some (NInt (Z.b2z b))
  | PInt z => Some (NInt z)
  | PFloat f => Some (NFloat f)
  | _ => None
  end.

Definition num_float (n : num) : result float :=
  match n with
  | NInt z => float_of_int z
  | NFloat f => Ok f
  end.

Definition unsupported (op : string) (a b : pyval) : exn :=
  TypeError ("unsupported operand type(s) for " ++ op ++ ": "
             ++ quoted (type_name a) ++ " and " ++ quoted (type_name b)).

(** The TypeError of [a + b] where [a] is a [str] or a [list] and [b] is
    of another type. *)
Definition cannot_concatenate (a b : pyval) : exn :=
  TypeError ("can only concatenate " ++ type_name a ++ " (not "
             ++ String double_quote (type_name b ++ String double_quote EmptyString)
             ++ ") to " ++ type_name a).

(** [a - b] *)
Definition py_sub (a b : pyval) : result pyval :=
  match as_num a, as_num b with
  | Some (NInt x), Some (NInt y) => Ok (PInt (x - y))
  | Some x, Some y =>
      (fx <- num_float x ;; fy <- num_float y ;; Ok (PFloat (PrimFloat.sub fx fy)))%py
  | _, _ => Raise (unsupported "-" a b)
  end.

(** [a + b]; sequences of the same kind concatenate. *)
Definition py_add (a b : pyval) : result pyval :=
  match as_num a, as_num b with
  | Some (NInt x), Some (NInt y) => Ok (PInt (x + y))
  | Some x, Some y =>
      (fx <- num_float x ;; fy <- num_float y ;; Ok (PFloat (PrimFloat.add fx fy)))%py
  | _, _ =>
      match a, b with
      | PStr s, PStr t => Ok (PStr (s ++ t))
      | PList l, PList m => Ok (PList (l ++ m))
      | PStr _, _ | PList _, _ => Raise (cannot_concatenate a b)
      | _, _ => Raise (unsupported "+" a b)
      end
  end.

(** [a / b], which is a float whenever it is defined. *)
Definition py_truediv_float (a b : pyval) : result float :=
  match as_num a, as_num b with
  | Some (NInt x), Some (NInt y) => int_truediv x y
  | Some x, Some y =>
      (fx <- num_float x ;; fy <- num_float y ;;
       if PrimFloat.eqb fy PrimFloat.zero
       then Raise (ZeroDivisionError "float division by zero")
       else Ok (PrimFloat.div fx fy))%py
  | _, _ => Raise (unsupported "/" a b)
  end.

Definition py_truediv (a b : pyval) : result pyval :=
  (f <- py_truediv_float a b ;; Ok (PFloat f))%py.

(** [a > 0] *)
Definition py_gt0 (a : pyval) : result bool :=
  match as_num a with
  | Some (NInt x) => Ok (0 <? x)%Z
  | Some (NFloat f) => Ok (PrimFloat.ltb PrimFloat.zero f)
  | None =>
      Raise (TypeError ("'>' not supported between instances of "
                        ++ quoted (type_name a) ++ " and 'int'"))
  end.

End Py.

(** ** Backend: records of the store ([models.py]) *)

Module Backend.
Import Py.
Local Open Scope py_scope.

Inductive RunStatus := RUNNING | COMPLETED | FAILED.

Inductive StepType := LLM | RETRIEVAL | FILTER | LOGIC.

Abbreviation uuid := string (only parsing).

Record Run := mkRun {
  run_id : uuid;
  run_name : pyval;
  run_status : RunStatus;
  total_cost : pyval;
  run_tags : pyval;
  run_started_at : pyval;
  run_completed_at : pyval;
  run_error : pyval
}.

Record Step := mkStep {
  step_id : uuid;
  step_run_id : uuid;
  step_name : pyval;
  step_type : StepType;
  inputs : pyval;
  outputs : pyval;
  step_metadata : pyval;
  reasoning : pyval;
  cost : pyval;
  started_at : pyval;
  completed_at : pyval;
  error : pyval
}.

(** A validated [DecisionFunnelStep] ([schemas.py]): the fields hold the
    values the schema's validation has produced. *)
Record DecisionFunnelStep := mkFunnelStep {
  fs_step_id : uuid;
  fs_step_name : pyval;
  fs_step_type : StepType;
  input_count : pyval;
  output_count : pyval;
  drop_rate : pyval;
  rejection_histogram : pyval;
  fs_reasoning : pyval;
  fs_cost : pyval
}.

Record AnalyzeResponse := mkAnalyze {
  ar_run_id : uuid;
  ar_run_name : pyval;
  ar_status : RunStatus;
  ar_total_cost : pyval;
  funnel : list DecisionFunnelStep;
  final_output : pyval
}.

(** *** Schema validation ([schemas.py])

    The schemas are pydantic models, validated in lax mode.  What a field
    accepts is written out below; the readings that depend on the version
    of the library (a [str] read as a number, a [bool] read as a float)
    and the text of a validation error are parameters of the model. *)

(** One entry of a validation error: the location and the input. *)
Abbreviation issue := (list string * pyval)%type.

Record pydantic := mkPydantic {
  str_as_int : string -> option Z;
  str_as_float : string -> option float;
  bool_as_float : bool -> option float;
  error_text : string -> list issue -> string
}.

(** [pydantic_core.ValidationError], a subclass of [ValueError]: [title]
    is the name of the model. *)
Definition ValidationError (P : pydantic) (title : string) (errs : list issue) : exn :=
  mk_exn "ValidationError" (error_text P title errs) true.

Inductive checked : Type :=
| Valid (v : pyval)
| Invalid (errs : list issue).

Definition from_option (v : pyval) (o : option pyval) : checked :=
  match o with
  | Some x => Valid x
  | None => Invalid [([], v)]
  end.

(** A float read as an int: it must be finite, without a fractional part,
    and strictly between [-2^63] and [2^63]. *)
Definition float_as_int (f : float) : option Z :=
  match Prim2SF f with
  | S754_zero _ => Some 0%Z
  | S754_finite sign m e =>
      let magnitude :=
        if (0 <=? e)%Z then Some (Zpos m * 2 ^ e)%Z
        else if (Zpos m mod 2 ^ (- e) =? 0)%Z then Some (Zpos m / 2 ^ (- e))%Z
        else None in
      match magnitude with
      | Some z => if (z <? 2 ^ 63)%Z then Some (if sign then (- z)%Z else z) else None
      | None => None
      end
  | _ => None
  end.

(** A field of type [int]. *)
Definition validate_int (P : pydantic) (v : pyval) : checked :=
  from_option v
    match v with
    | PInt z => Some (PInt z)
    | PBool b => Some (PInt (Z.b2z b))
    | PFloat f => option_map PInt (float_as_int f)
    | PStr t => option_map PInt (str_as_int P t)
    | _ => None
    end.

(** A field of type [float]; an int too large for a float is refused. *)
Definition validate_float (P : pydantic) (v : pyval) : checked :=
  from_option v
    match v with
    | PFloat f => Some (PFloat f)
    | PInt z => match float_of_int z with
                | Ok f => Some (PFloat f)
                | Raise _ => None
                end
    | PBool b => option_map PFloat (bool_as_float P b)
    | PStr t => option_map PFloat (str_as_float P t)
    | _ => None
    end.

(** A field of type [str]. *)
Definition validate_str (v : pyval) : checked :=
  from_option v match v with PStr _ => Some v | _ => None end.

(** A field of type [Dict[str, Any]]. *)
Definition validate_dict_any (v : pyval) : checked :=
  from_option v match v with PDict _ => Some v | _ => None end.

Definition under (k : string) (e : issue) : issue := (k :: fst e, snd e).

(** The items of a [Dict[str, int]]: the validated items and the entries
    for the values that are refused. *)
Fixpoint validate_items (P : pydantic) (d : dict) : dict * list issue :=
  match d with
  | [] => ([], [])
  | (k, x) :: d' =>
      let r := validate_items P d' in
      match validate_int P x with
      | Valid y => ((k, y) :: fst r, snd r)
      | Invalid errs => (fst r, (map (under k) errs ++ snd r)%list)
      end
  end.

(** A field of type [Dict[str, int]]. *)
Definition validate_dict_str_int (P : pydantic) (v : pyval) : checked :=
  match v with
  | PDict d =>
      match validate_items P d with
      | (d', []) => Valid (PDict d')
      | (_, errs) => Invalid errs
      end
  | _ => Invalid [([], v)]
  end.

(** [Optional[...]] *)
Definition optional (f : pyval -> checked) (v : pyval) : checked :=
  match v with
  | PNone => Valid PNone
  | _ => f v
  end.

(** The entries of a field, under the name of the field. *)
Definition errors_at (name : string) (c : checked) : list issue :=
  match c with
  | Valid _ => []
  | Invalid errs => map (under name) errs
  end.

(** [DecisionFunnelStep(...)] as [analyze_run] calls it, every field
    given: [step_id] is a [uuid.UUID] and [step_type] an enum member, the
    other fields are validated; all the entries are reported together. *)
Definition DecisionFunnelStep_of (P : pydantic) (sid : uuid) (name : pyval)
  (ty : StepType) (ic oc dr hist rs c : pyval) : result DecisionFunnelStep :=
  let name' := validate_str name in
  let ic' := optional (validate_int P) ic in
  let oc' := optional (validate_int P) oc in
  let dr' := optional (validate_float P) dr in
  let hist' := optional (validate_dict_str_int P) hist in
  let rs' := optional validate_str rs in
  let c' := validate_float P c in
  match name', ic', oc', dr', hist', rs', c' with
  | Valid n, Valid i, Valid o, Valid r, Valid h, Valid t, Valid x =>
      Ok (mkFunnelStep sid n ty i o r h t x)
  | _, _, _, _, _, _, _ =>
      Raise (ValidationError P "DecisionFunnelStep"
               (errors_at "step_name" name' ++ errors_at "input_count" ic'
                ++ errors_at "output_count" oc' ++ errors_at "drop_rate" dr'
                ++ errors_at "rejection_histogram" hist'
                ++ errors_at "reasoning" rs' ++ errors_at "cost" c')%list)
  end.

(** [AnalyzeResponseSchema(...)]: [run_id] is a [uuid.UUID], [status] an
    enum member and [funnel] a list of validated entries. *)
Definition AnalyzeResponseSchema_of (P : pydantic) (rid : uuid) (name : pyval)
  (st : RunStatus) (total : pyval) (fn : list DecisionFunnelStep)
  (final : pyval) : result AnalyzeResponse :=
  let name' := validate_str name in
  let total' := validate_float P total in
  let final' := optional validate_dict_any final in
  match name', total', final' with
  | Valid n, Valid t, Valid f => Ok (mkAnalyze rid n st t fn f)
  | _, _, _ =>
      Raise (ValidationError P "AnalyzeResponseSchema"
               (errors_at "run_name" name' ++ errors_at "total_cost" total'
                ++ errors_at "final_output" final')%list)
  end.

(** *** Funnel reconstruction ([routes.py], [analyze_run]) *)

(** [len(d.get(key, [])) if isinstance(d.get(key), list) else None] *)
Definition len_if_list (d : pyval) (key : string) : result pyval :=
  probe <- py_get d key ;;
  if isinstance_list probe
  then (l <- py_get_default d key (PList []) ;; py_len l)
  else Ok PNone.

(** Lines 167-183: the pair [(input_count, output_count)] by step type. *)
Definition derive_counts (ty : StepType) (metadata inputs outputs : pyval)
  : result (pyval * pyval) :=
  match ty with
  | FILTER =>
      tc <- py_get metadata "total_count" ;;
      ic <- py_or_lazy tc (py_get inputs "candidate_count") ;;
      sc <- py_get metadata "survivor_count" ;;
      oc <- py_or_lazy sc (len_if_list outputs "survivors") ;;
      Ok (ic, oc)
  | RETRIEVAL =>
      if isinstance_dict outputs
      then
        c <- py_get outputs "count" ;;
        oc <- py_or_lazy c (len_if_list outputs "items") ;;
        Ok (PNone, oc)
      else Ok (PNone, PNone)
  | LOGIC | LLM => Ok (PNone, PNone)
  end.

(** Lines 189-193. *)
Definition derive_drop_rate (metadata ic oc : pyval) : result pyval :=
  dr <- py_get metadata "drop_rate" ;;
  if is_none dr && negb (is_none ic) && negb (is_none oc)
  then
    pos <- py_gt0 ic ;;
    if pos
    then (diff <- py_sub ic oc ;; py_truediv diff ic)
    else Ok dr
  else Ok dr.

(** One iteration of the loop body (lines 160-206): the funnel entry of
    [step] and the updated [final_output]. *)
Definition funnel_step (P : pydantic) (step : Step) (final : pyval)
  : result (DecisionFunnelStep * pyval) :=
  let metadata := py_or (step_metadata step) (PDict []) in
  let inputs_ := py_or (inputs step) (PDict []) in
  let outputs_ := py_or (outputs step) (PDict []) in
  counts <- derive_counts (step_type step) metadata inputs_ outputs_ ;;
  let final' := match step_type step with LOGIC => outputs_ | _ => final end in
  dr <- derive_drop_rate metadata (fst counts) (snd counts) ;;
  hist <- py_get metadata "rejection_histogram" ;;
  entry <- DecisionFunnelStep_of P (step_id step) (step_name step)
             (step_type step) (fst counts) (snd counts) dr hist
             (reasoning step) (cost step) ;;
  Ok (entry, final').

(** The [for step in steps] loop, with [funnel] and [final_output] as the
    loop state. *)
Fixpoint funnel_loop (P : pydantic) (steps : list Step)
  (acc : list DecisionFunnelStep) (final : pyval)
  : result (list DecisionFunnelStep * pyval) :=
  match steps with
  | [] => Ok (acc, final)
  | step :: rest =>
      r <- funnel_step P step final ;;
      funnel_loop P rest (acc ++ [fst r]) (snd r)
  end.

(** [str(e)] of an [HTTPException] is its status and its detail. *)
Definition HTTPException (status : Z) (detail : string) : exn :=
  mk_exn "HTTPException" (int_str status ++ ": " ++ detail) true.

(** [analyze_run]: [run] is the result of [db.get(Run, run_id)] and [steps]
    the result of the query ordered by [started_at]; the result is the
    value the function returns, before the reply is serialised. *)
Definition analyze_run (P : pydantic) (run : option Run) (steps : list Step)
  : result AnalyzeResponse :=
  match run with
  | None => Raise (HTTPException 404 "Run not found")
  | Some r =>
      fl <- funnel_loop P steps [] PNone ;;
      AnalyzeResponseSchema_of P (run_id r) (run_name r) (run_status r)
        (total_cost r) (fst fl) (snd fl)
  end.

(** *** Ingest ([routes.py], [ingest_events]) *)

Record event := mkEvent { ev_type : string; ev_data : dict }.

(** The session of one request.  [database.py] builds it with
    [autoflush=False]: [db.get] reads the persistent rows ([runs], [steps],
    which include the changes made to them during the request), while rows
    handed to [db.add] stay pending ([new_runs], [new_steps]) until
    [db.commit]. *)
Record session := mkSession {
  runs : gmap uuid Run;
  steps : gmap uuid Step;
  new_runs : list Run;
  new_steps : list Step
}.

(** The [n] hexadecimal digits of [z], most significant first. *)
Fixpoint hex_of (n : nat) (z : Z) : string :=
  match n with
  | O => EmptyString
  | S n' =>
      String (hex_digit (Z.to_nat ((z / 16 ^ Z.of_nat n') mod 16)))
        (hex_of n' (z mod 16 ^ Z.of_nat n'))
  end.

Definition is_brace (c : ascii) : bool := Ascii.eqb c "{" || Ascii.eqb c "}".

(** [UUID(v)] ([uuid.py], the [hex] argument): the urn prefixes, the braces
    around the text and the hyphens are dropped, 32 characters must remain,
    and [int(hex, 16)] reads them.  A [uuid.UUID] is identified by its 128
    bit value, kept here as its 32 lower-case hexadecimal digits. *)
Definition UUID (v : pyval) : result uuid :=
  match v with
  | PNone =>
      Raise (TypeError "one of the hex, bytes, bytes_le, fields, or int arguments must be given")
  | PStr s =>
      let hex := remove "-" (rstrip is_brace (lstrip is_brace
                   (remove "uuid:" (remove "urn:" s)))) in
      if (String.length hex =? 32)%nat
      then match int16 hex with
           | Some z =>
               if ((0 <=? z) && (z <? 2 ^ 128))%Z then Ok (hex_of 32 z)
               else Raise (ValueError "int is out of range (need a 128-bit value)")
           | None =>
               Raise (ValueError ("invalid literal for int() with base 16: "
                                  ++ repr_str hex))
           end
      else Raise (ValueError "badly formed hexadecimal UUID string")
  | _ => Raise (no_attribute v "replace")
  end.

(** [StepType(v)]: lookup of an enum member by value. *)
Definition StepType_of (v : pyval) : result StepType :=
  match v with
  | PStr s =>
      if String.eqb s "llm" then Ok LLM
      else if String.eqb s "retrieval" then Ok RETRIEVAL
      else if String.eqb s "filter" then Ok FILTER
      else if String.eqb s "logic" then Ok LOGIC
      else Raise (ValueError (py_repr v ++ " is not a valid StepType"))
  | _ => Raise (ValueError (py_repr v ++ " is not a valid StepType"))
  end.

Definition set_run (r : Run) (db : session) : session :=
  mkSession (<[run_id r := r]> (runs db)) (steps db) (new_runs db) (new_steps db).

Definition set_step (st : Step) (db : session) : session :=
  mkSession (runs db) (<[step_id st := st]> (steps db)) (new_runs db) (new_steps db).

Definition add_run (r : Run) (db : session) : session :=
  mkSession (runs db) (steps db) (new_runs db ++ [r]) (new_steps db).

Definition add_step (st : Step) (db : session) : session :=
  mkSession (runs db) (steps db) (new_runs db) (new_steps db ++ [st]).

(** Lines 36-74: the two run events differ in the status they set and in
    the fields they overwrite on an existing row. *)
Definition ingest_run_complete (d : dict) (db : session) : result session :=
  idv <- dict_item d "id" ;;
  rid <- UUID idv ;;
  match runs db !! rid with
  | Some run =>
      Ok (set_run (mkRun (run_id run) (run_name run) COMPLETED
                     (dict_get_default d "total_cost" (PFloat 0))
                     (run_tags run) (run_started_at run)
                     (dict_get d "completed_at") (run_error run)) db)
  | None =>
      name <- dict_item d "name" ;;
      Ok (add_run (mkRun rid name COMPLETED
                     (dict_get_default d "total_cost" (PFloat 0))
                     (dict_get_default d "tags" (PDict []))
                     (dict_get d "started_at") (dict_get d "completed_at")
                     PNone) db)
  end.

Definition ingest_run_failed (d : dict) (db : session) : result session :=
  idv <- dict_item d "id" ;;
  rid <- UUID idv ;;
  match runs db !! rid with
  | Some run =>
      Ok (set_run (mkRun (run_id run) (run_name run) FAILED (total_cost run)
                     (run_tags run) (run_started_at run)
                     (dict_get d "completed_at") (dict_get d "error")) db)
  | None =>
      name <- dict_item d "name" ;;
      Ok (add_run (mkRun rid name FAILED
                     (dict_get_default d "total_cost" (PFloat 0))
                     (dict_get_default d "tags" (PDict []))
                     (dict_get d "started_at") (dict_get d "completed_at")
                     (dict_get d "error")) db)
  end.

(** [Step(...)] as both step branches build it; [err] is the error column. *)
Definition new_step (sid rid : uuid) (d : dict) (err : pyval) : result Step :=
  name <- dict_item d "name" ;;
  tyv <- dict_item d "type" ;;
  ty <- StepType_of tyv ;;
  Ok (mkStep sid rid name ty
        (dict_get_default d "inputs" (PDict []))
        (dict_get_default d "outputs" (PDict []))
        (dict_get_default d "metadata" (PDict []))
        (dict_get d "reasoning")
        (dict_get_default d "cost" (PFloat 0))
        (dict_get d "started_at") (dict_get d "completed_at") err).

(** Lines 76-105. *)
Definition ingest_step_complete (d : dict) (db : session) : result session :=
  idv <- dict_item d "id" ;;
  sid <- UUID idv ;;
  ridv <- dict_item d "run_id" ;;
  rid <- UUID ridv ;;
  match steps db !! sid with
  | Some step =>
      Ok (set_step (mkStep (step_id step) (step_run_id step) (step_name step)
                      (step_type step) (inputs step)
                      (dict_get_default d "outputs" (PDict []))
                      (dict_get_default d "metadata" (PDict []))
                      (reasoning step)
                      (dict_get_default d "cost" (PFloat 0))
                      (started_at step) (dict_get d "completed_at")
                      (error step)) db)
  | None =>
      step <- new_step sid rid d PNone ;;
      let db1 := add_step step db in
      match runs db1 !! rid with
      | Some run =>
          total <- py_add (py_or (total_cost run) (PFloat 0)) (cost step) ;;
          Ok (set_run (mkRun (run_id run) (run_name run) (run_status run) total
                         (run_tags run) (run_started_at run)
                         (run_completed_at run) (run_error run)) db1)
      | None => Ok db1
      end
  end.

(** Lines 107-129. *)
Definition ingest_step_failed (d : dict) (db : session) : result session :=
  idv <- dict_item d "id" ;;
  sid <- UUID idv ;;
  ridv <- dict_item d "run_id" ;;
  rid <- UUID ridv ;;
  match steps db !! sid with
  | Some step =>
      Ok (set_step (mkStep (step_id step) (step_run_id step) (step_name step)
                      (step_type step) (inputs step) (outputs step)
                      (step_metadata step) (reasoning step) (cost step)
                      (started_at step) (dict_get d "completed_at")
                      (dict_get d "error")) db)
  | None =>
      step <- new_step sid rid d (dict_get d "error") ;;
      Ok (add_step step db)
  end.

(** The body of the [for event in request.events] loop; an event of any
    other type matches no branch and is skipped. *)
Definition ingest_event (ev : event) (db : session) : result session :=
  if String.eqb (ev_type ev) "run_complete" then ingest_run_complete (ev_data ev) db
  else if String.eqb (ev_type ev) "run_failed" then ingest_run_failed (ev_data ev) db
  else if String.eqb (ev_type ev) "step_complete" then ingest_step_complete (ev_data ev) db
  else if String.eqb (ev_type ev) "step_failed" then ingest_step_failed (ev_data ev) db
  else Ok db.

Fixpoint ingest_loop (events : list event) (db : session) : result session :=
  match events with
  | [] => Ok db
  | ev :: rest => db' <- ingest_event ev db ;; ingest_loop rest db'
  end.

(** [sqlalchemy.exc.IntegrityError]: the database refuses a row.  The
    text is the server's message for the constraint; the statement and the
    parameters that SQLAlchemy adds to it are left out. *)
Definition IntegrityError (message : string) : exn :=
  mk_exn "IntegrityError" message true.

Definition not_null_violation (column table : string) : exn :=
  IntegrityError ("null value in column " ++ String double_quote column
                  ++ String double_quote " of relation "
                  ++ String double_quote table
                  ++ String double_quote " violates not-null constraint").

Definition unique_violation (table : string) : exn :=
  IntegrityError ("duplicate key value violates unique constraint "
                  ++ String double_quote table ++ "_pkey"
                  ++ String double_quote EmptyString).

Definition foreign_key_violation : exn :=
  IntegrityError ("insert or update on table " ++ String double_quote "steps"
                  ++ String double_quote " violates foreign key constraint "
                  ++ String double_quote "steps_run_id_fkey"
                  ++ String double_quote EmptyString).

(** [db.commit()]: the pending rows are inserted, the runs before the
    steps.  The constraints of [models.py] are checked on each row: the
    columns declared [nullable=False] that an event can leave empty ([name]
    and [started_at]), the primary key [id], and for a step the foreign key
    [run_id], which must name a stored run.  What the database does to the
    values of a column of a given type is not modelled: a row is read back
    as it was written. *)
Fixpoint insert_runs (new : list Run) (m : gmap uuid Run) : result (gmap uuid Run) :=
  match new with
  | [] => Ok m
  | r :: rest =>
      if is_none (run_name r) then Raise (not_null_violation "name" "runs")
      else if is_none (run_started_at r)
      then Raise (not_null_violation "started_at" "runs")
      else match m !! run_id r with
           | Some _ => Raise (unique_violation "runs")
           | None => insert_runs rest (<[run_id r := r]> m)
           end
  end.

Fixpoint insert_steps (rs : gmap uuid Run) (new : list Step) (m : gmap uuid Step)
  : result (gmap uuid Step) :=
  match new with
  | [] => Ok m
  | st :: rest =>
      if is_none (step_name st) then Raise (not_null_violation "name" "steps")
      else if is_none (started_at st)
      then Raise (not_null_violation "started_at" "steps")
      else match m !! step_id st with
           | Some _ => Raise (unique_violation "steps")
           | None =>
               match rs !! step_run_id st with
               | None => Raise foreign_key_violation
               | Some _ => insert_steps rs rest (<[step_id st := st]> m)
               end
           end
  end.

Definition commit (db : session) : result session :=
  rs <- insert_runs (new_runs db) (runs db) ;;
  ss <- insert_steps rs (new_steps db) (steps db) ;;
  Ok (mkSession rs ss [] []).

(** One request to [/ingest] on the store [db] (no pending rows): the store
    after the commit and the [processed] count of the reply.  A raised
    exception leaves the store as it was. *)
Definition ingest_events (events : list event) (db : session)
  : result (session * Z) :=
  db1 <- ingest_loop events db ;;
  db2 <- commit db1 ;;
  Ok (db2, Z.of_nat (length events)).

(** A sequence of requests, each on the store the previous one left; a
    failed request is answered with an error and changes nothing. *)
Fixpoint ingest_requests (batches : list (list event)) (db : session) : session :=
  match batches with
  | [] => db
  | b :: rest =>
      match ingest_events b db with
      | Ok (db', _) => ingest_requests rest db'
      | Raise _ => ingest_requests rest db
      end
  end.

Definition empty_store : session := mkSession ∅ ∅ [] [].

(** *** Notions used to state the properties *)

(** A step record that follows the data model: inputs, outputs and
    metadata are mappings (or missing), the count fields are counts, the
    drop rate is a float, and the lists are of a length a count can hold. *)
Definition field (v : pyval) (k : string) : pyval :=
  match v with
  | PDict d => dict_get d k
  | _ => PNone
  end.

Definition mapping_or_none (v : pyval) : bool :=
  match v with
  | PNone | PDict _ => true
  | _ => false
  end.

Definition count_bound : Z := (2 ^ 63)%Z.

Definition count_or_none (v : pyval) : bool :=
  match v with
  | PNone => true
  | PInt z => ((0 <=? z) && (z <? count_bound))%Z
  | _ => false
  end.

Definition float_or_none (v : pyval) : bool :=
  match v with
  | PNone | PFloat _ => true
  | _ => false
  end.

Definition short_if_list (v : pyval) : bool :=
  match v with
  | PList l => (Z.of_nat (length l) <? count_bound)%Z
  | _ => true
  end.

Definition str_or_none (v : pyval) : bool :=
  match v with
  | PNone | PStr _ => true
  | _ => false
  end.

Definition is_str (v : pyval) : bool :=
  match v with PStr _ => true | _ => false end.

Definition is_float (v : pyval) : bool :=
  match v with PFloat _ => true | _ => false end.

Definition is_int (v : pyval) : bool :=
  match v with PInt _ => true | _ => false end.

(** A histogram: a mapping from reasons to ints, or missing. *)
Definition histogram_or_none (v : pyval) : bool :=
  match v with
  | PNone => true
  | PDict d => forallb (fun kv => is_int (snd kv)) d
  | _ => false
  end.

Definition well_formed (step : Step) : bool :=
  mapping_or_none (step_metadata step)
  && mapping_or_none (inputs step)
  && mapping_or_none (outputs step)
  && count_or_none (field (step_metadata step) "total_count")
  && count_or_none (field (step_metadata step) "survivor_count")
  && float_or_none (field (step_metadata step) "drop_rate")
  && count_or_none (field (inputs step) "candidate_count")
  && count_or_none (field (outputs step) "count")
  && short_if_list (field (outputs step) "survivors")
  && short_if_list (field (outputs step) "items")
  && histogram_or_none (field (step_metadata step) "rejection_histogram")
  && is_str (step_name step)
  && str_or_none (reasoning step)
  && is_float (cost step).

(** A run record that follows the data model: the name is a text and the
    total cost a float. *)
Definition well_formed_run (run : Run) : bool :=
  is_str (run_name run) && is_float (total_cost run).

(** How one step changes the running [final_output]. *)
Definition next_final (step : Step) (final : pyval) : pyval :=
  match step_type step with
  | LOGIC => py_or (outputs step) (PDict [])
  | _ => final
  end.

Definition step_reconstructs (P : pydantic) (step : Step) : bool :=
  match funnel_step P step PNone with
  | Ok _ => true
  | Raise _ => false
  end.

(** The costs of the stored steps of a run. *)
Definition step_costs (db : session) (rid : uuid) : list pyval :=
  map (fun kv => cost (snd kv))
    (List.filter (fun kv => String.eqb (step_run_id (snd kv)) rid)
       (map_to_list (steps db))).

Definition stored_total (db : session) (rid : uuid) : option pyval :=
  option_map total_cost (runs db !! rid).

(** *** Rows as dictionaries ([models.py], [to_dict]) *)

(** [str(u)] for a [uuid.UUID]: its 32 digits in groups of 8, 4, 4, 4 and
    12, separated by hyphens. *)
Fixpoint hyphenate (i : nat) (h : string) : string :=
  match h with
  | EmptyString => EmptyString
  | String c h' =>
      let rest := String c (hyphenate (S i) h') in
      if ((i =? 8) || (i =? 12) || (i =? 16) || (i =? 20))%nat
      then String "-" rest
      else rest
  end.

Definition uuid_str (u : uuid) : string := hyphenate 0 u.

Definition StepType_value (t : StepType) : string :=
  match t with
  | LLM => "llm"
  | RETRIEVAL => "retrieval"
  | FILTER => "filter"
  | LOGIC => "logic"
  end.

Definition RunStatus_value (st : RunStatus) : string :=
  match st with
  | RUNNING => "RUNNING"
  | COMPLETED => "COMPLETED"
  | FAILED => "FAILED"
  end.

(** [Run.to_dict] and [Step.to_dict]. *)
Definition Run_to_dict (r : Run) : dict :=
  [("id", PStr (uuid_str (run_id r)));
   ("name", run_name r);
   ("status", PStr (RunStatus_value (run_status r)));
   ("total_cost", total_cost r);
   ("tags", run_tags r);
   ("started_at", run_started_at r);
   ("completed_at", run_completed_at r);
   ("error", run_error r)].

Definition Step_to_dict (s : Step) : dict :=
  [("id", PStr (uuid_str (step_id s)));
   ("run_id", PStr (uuid_str (step_run_id s)));
   ("name", step_name s);
   ("type", PStr (StepType_value (step_type s)));
   ("inputs", inputs s);
   ("outputs", outputs s);
   ("metadata", step_metadata s);
   ("reasoning", reasoning s);
   ("cost", cost s);
   ("started_at", started_at s);
   ("completed_at", completed_at s);
   ("error", error s)].

(** The form in which a [uuid.UUID] is kept: 32 lower-case hexadecimal
    digits. *)
Definition is_digit16 (c : ascii) : bool :=
  let n := nat_of_ascii c in
  (((48 <=? n) && (n <=? 57)) || ((97 <=? n) && (n <=? 102)))%nat.

Fixpoint all_digit16 (s : string) : bool :=
  match s with
  | EmptyString => true
  | String c s' => is_digit16 c && all_digit16 s'
  end.

Definition is_uuid (u : uuid) : bool :=
  (String.length u =? 32)%nat && all_digit16 u.

Fixpoint all_chars (p : ascii -> bool) (s : string) : bool :=
  match s with
  | EmptyString => true
  | String c s' => p c && all_chars p s'
  end.

(** The characters of the text of a [uuid.UUID]. *)
Definition is_plain (c : ascii) : bool := is_digit16 c || Ascii.eqb c "-".

(** The number a string of hexadecimal digits stands for. *)
Fixpoint value16 (s : string) : Z :=
  match s with
  | EmptyString => 0%Z
  | String c s' =>
      (default 0 (digit_value c) * 16 ^ Z.of_nat (String.length s') + value16 s')%Z
  end.

(** *** More notions used to state the properties *)

(** The event types [ingest_events] has a branch for. *)
Definition handled (ev : event) : bool :=
  String.eqb (ev_type ev) "run_complete"
  || String.eqb (ev_type ev) "run_failed"
  || String.eqb (ev_type ev) "step_complete"
  || String.eqb (ev_type ev) "step_failed".

(** The identifiers an event names. *)
Definition event_id (ev : event) : result uuid :=
  idv <- dict_item (ev_data ev) "id" ;; UUID idv.

Definition event_run_id (ev : event) : result uuid :=
  idv <- dict_item (ev_data ev) "run_id" ;; UUID idv.

(** The event is about a row that [db.get] finds. *)
Definition targets_stored_row (ev : event) (db : session) : bool :=
  if String.eqb (ev_type ev) "run_complete" || String.eqb (ev_type ev) "run_failed"
  then match event_id ev with
       | Ok rid => bool_decide (is_Some (runs db !! rid))
       | Raise _ => false
       end
  else if String.eqb (ev_type ev) "step_complete"
          || String.eqb (ev_type ev) "step_failed"
  then match event_id ev with
       | Ok sid => bool_decide (is_Some (steps db !! sid))
       | Raise _ => false
       end
  else true.

(** Every stored row is filed under its own identifier. *)
Definition consistent (db : session) : Prop :=
  (forall k r, runs db !! k = Some r -> run_id r = k)
  /\ (forall k s, steps db !! k = Some s -> step_id s = k).

(** [total or 0.0] on a float, and one update of line 105 on floats. *)
Definition or_zero (f : float) : float :=
  if PrimFloat.eqb f PrimFloat.zero then PrimFloat.zero else f.

Definition add_cost (total c : float) : float := PrimFloat.add (or_zero total) c.

(** The columns of a stored row that no event rewrites, and a store that
    still holds every row of another with those columns unchanged. *)
Definition run_fixed (r : Run) : uuid * pyval * pyval * pyval :=
  (run_id r, run_name r, run_tags r, run_started_at r).

Definition step_fixed (s : Step)
  : uuid * uuid * pyval * StepType * pyval * pyval * pyval :=
  (step_id s, step_run_id s, step_name s, step_type s, inputs s, reasoning s,
   started_at s).

Definition keeps_rows (db db' : session) : Prop :=
  (forall k r, runs db !! k = Some r ->
               exists r', runs db' !! k = Some r' /\ run_fixed r' = run_fixed r)
  /\ (forall k s, steps db !! k = Some s ->
                  exists s', steps db' !! k = Some s' /\ step_fixed s' = step_fixed s).

(** The two failure events, and a store in which every run of another
    still has the total it had there. *)
Definition failure_event (ev : event) : bool :=
  String.eqb (ev_type ev) "run_failed" || String.eqb (ev_type ev) "step_failed".

Definition keeps_totals (db db' : session) : Prop :=
  forall k r, runs db !! k = Some r ->
              exists r', runs db' !! k = Some r' /\ total_cost r' = total_cost r.

Definition with_total (r : Run) (t : pyval) : Run :=
  mkRun (run_id r) (run_name r) (run_status r) t (run_tags r)
    (run_started_at r) (run_completed_at r) (run_error r).

(** A [step_complete] event of cost [c] for the run [rid], about a step
    that is not stored yet. *)
Definition fresh_step_event (db : session) (rid : uuid) (c : float) (ev : event)
  : Prop :=
  ev_type ev = "step_complete"
  /\ exists sid st,
      event_id ev = Ok sid
      /\ steps db !! sid = None
      /\ event_run_id ev = Ok rid
      /\ new_step sid rid (ev_data ev) PNone = Ok st
      /\ cost st = PFloat c.

(** The rows a list of such events adds to the session. *)
Fixpoint steps_of (evs : list event) : list Step :=
  match evs with
  | [] => []
  | ev :: rest =>
      match event_id ev, event_run_id ev with
      | Ok sid, Ok rid =>
          match new_step sid rid (ev_data ev) PNone with
          | Ok st => st :: steps_of rest
          | Raise _ => steps_of rest
          end
      | _, _ => steps_of rest
      end
  end.

(** What a funnel entry copies from its step unchanged. *)
Definition step_identity (s : Step) : uuid * pyval * StepType * pyval * pyval :=
  (step_id s, step_name s, step_type s, reasoning s, cost s).

Definition entry_identity (e : DecisionFunnelStep)
  : uuid * pyval * StepType * pyval * pyval :=
  (fs_step_id e, fs_step_name e, fs_step_type e, fs_reasoning e, fs_cost e).

End Backend.

(** ** SDK client ([sdk/client.py]) *)

Module Sdk.
Import Py.
Local Open Scope py_scope.

(** The integer nearest to [num / den], ties to even ([0 <= num], [0 < den]). *)
Definition round_half_even (num den : Z) : Z :=
  let q := (num / den)%Z in
  let r := (num mod den)%Z in
  match (2 * r ?= den)%Z with
  | Lt => q
  | Gt => (q + 1)%Z
  | Eq => if Z.even q then q else (q + 1)%Z
  end.

(** [round(x, 6)]: the decimal with six places nearest to the exact value
    of [x] (ties to even), read back as the nearest binary64; infinities
    and NaN are returned as they are. *)
Definition round6 (x : float) : float :=
  match Prim2SF x with
  | S754_finite s m e =>
      let scaled := (Z.pos m * 1000000)%Z in
      let n := if (0 <=? e)%Z then (scaled * 2 ^ e)%Z
               else round_half_even scaled (2 ^ (- e)) in
      match n with
      | Z.pos p => SF2Prim (SFdiv prec emax (S754_finite s p 0) (sf_of_int 1000000))
      | _ => SF2Prim (S754_zero s)
      end
  | _ => x
  end.

(** The pricing table of [_calculate_llm_cost]: dollars per 1K prompt and
    completion tokens. *)
Definition pricing : list (string * (float * float)) :=
  [("gpt-4", (0.03, 0.06)%float);
   ("gpt-4-turbo", (0.01, 0.03)%float);
   ("gpt-3.5-turbo", (0.0015, 0.002)%float);
   ("gpt-4o", (0.005, 0.015)%float)].

Fixpoint pricing_find (t : list (string * (float * float))) (k : string)
  : option (float * float) :=
  match t with
  | [] => None
  | (k', p) :: t' => if String.eqb k k' then Some p else pricing_find t' k
  end.

Definition gpt4_price : float * float := (0.03, 0.06)%float.

(** [pricing.get(model, pricing["gpt-4"])]: a key that is not a string is
    in no entry; a list or a dict cannot be hashed. *)
Definition pricing_get (model : pyval) : result (float * float) :=
  match model with
  | PStr s => Ok (default gpt4_price (pricing_find pricing s))
  | PList _ | PDict _ =>
      Raise (TypeError ("unhashable type: " ++ quoted (type_name model)))
  | _ => Ok gpt4_price
  end.

Definition _calculate_llm_cost (token_usage : pyval) : result float :=
  prompt_tokens <- py_get_default token_usage "prompt" (PInt 0) ;;
  completion_tokens <- py_get_default token_usage "completion" (PInt 0) ;;
  model <- py_get_default token_usage "model" (PStr "gpt-4") ;;
  price <- pricing_get model ;;
  p <- py_truediv_float prompt_tokens (PFloat 1000) ;;
  c <- py_truediv_float completion_tokens (PFloat 1000) ;;
  Ok (round6 (PrimFloat.add (PrimFloat.mul p (fst price))
                            (PrimFloat.mul c (snd price)))).

(** *** The client's world

    [run_data] and [step_data] are dict objects shared between the context
    variables, the yielded value and the queued events, so they live in a
    heap and are passed by reference. *)

Abbreviation ref := nat (only parsing).

(** [{"type": kind, "data": <the record>}] as put on [self._queue]. *)
Abbreviation queued := (string * ref)%type (only parsing).

Record world := mkWorld {
  heap : gmap ref dict;
  next_ref : ref;
  current_run : option ref;     (* _current_run *)
  current_step : option ref;    (* _current_step *)
  queue : list queued;          (* self._queue, oldest first *)
  uuid_calls : nat;             (* calls of uuid.uuid4() so far *)
  clock_calls : nat;            (* readings of the clock so far *)
  requests : list (list queued) (* POSTs to /ingest attempted so far *)
}.

(** Code with effects on the world that returns or raises. *)
Definition M (A : Type) : Type := world -> result A * world.

Definition set_heap (h : gmap ref dict) (w : world) : world :=
  mkWorld h (next_ref w) (current_run w) (current_step w) (queue w)
    (uuid_calls w) (clock_calls w) (requests w).

Definition set_current_run (r : option ref) (w : world) : world :=
  mkWorld (heap w) (next_ref w) r (current_step w) (queue w)
    (uuid_calls w) (clock_calls w) (requests w).

Definition set_current_step (r : option ref) (w : world) : world :=
  mkWorld (heap w) (next_ref w) (current_run w) r (queue w)
    (uuid_calls w) (clock_calls w) (requests w).

(** [self._queue.put(ev)]: the queue is unbounded, so [put] never blocks
    and never raises. *)
Definition queue_put (ev : queued) (w : world) : world :=
  mkWorld (heap w) (next_ref w) (current_run w) (current_step w)
    (queue w ++ [ev]) (uuid_calls w) (clock_calls w) (requests w).

Definition set_queue (q : list queued) (w : world) : world :=
  mkWorld (heap w) (next_ref w) (current_run w) (current_step w) q
    (uuid_calls w) (clock_calls w) (requests w).

Definition log_request (b : list queued) (w : world) : world :=
  mkWorld (heap w) (next_ref w) (current_run w) (current_step w) (queue w)
    (uuid_calls w) (clock_calls w) (requests w ++ [b]).

(** A dict display: a new object. *)
Definition alloc (d : dict) (w : world) : ref * world :=
  (next_ref w,
   mkWorld (<[next_ref w := d]> (heap w)) (S (next_ref w)) (current_run w)
     (current_step w) (queue w) (uuid_calls w) (clock_calls w) (requests w)).

(** [obj[k] = v] on the dict at [l]. *)
Definition setitem (l : ref) (k : string) (v : pyval) (w : world) : world :=
  set_heap (alter (fun d => dict_set d k v) l (heap w)) w.

Section Client.

(** What the client draws from its environment: the identifiers
    [uuid.uuid4()] returns, the readings of the clock, and the fate of each
    POST (the status of the response, or the exception the transport
    raises). *)
Variable uuid4 : nat -> string.
Variable isoformat_now : nat -> string.
Variable time_time : nat -> float.
Variable http_post : nat -> list queued -> result Z.

(** Application objects: [json_of x] is [x] as JSON when [json.dumps(x)]
    succeeds, [str_of x] is [str(x)]. *)
Variable T : Type.
Variable json_of : T -> option pyval.
Variable str_of : T -> string.
Variable str_of_list : list T -> string.
Variable repr_of_dict : list (string * Z) -> string.

Definition fresh_uuid (w : world) : string * world :=
  (uuid4 (uuid_calls w),
   mkWorld (heap w) (next_ref w) (current_run w) (current_step w) (queue w)
     (S (uuid_calls w)) (clock_calls w) (requests w)).

Definition tick (w : world) : world :=
  mkWorld (heap w) (next_ref w) (current_run w) (current_step w) (queue w)
    (uuid_calls w) (S (clock_calls w)) (requests w).

(** [datetime.now(timezone.utc).isoformat()] *)
Definition utcnow (w : world) : string * world :=
  (isoformat_now (clock_calls w), tick w).

(** [_serialize(obj)] on an optional application object. *)
Definition _serialize (obj : option T) : pyval :=
  match obj with
  | None => PNone
  | Some x =>
      match json_of x with
      | Some v => v
      | None => PStr (str_of x)
      end
  end.

Fixpoint json_of_list (l : list T) : option (list pyval) :=
  match l with
  | [] => Some []
  | x :: l' =>
      match json_of x, json_of_list l' with
      | Some v, Some vs => Some (v :: vs)
      | _, _ => None
      end
  end.

(** [_serialize(l)] on a list of application objects. *)
Definition _serialize_list (l : list T) : pyval :=
  match json_of_list l with
  | Some vs => PList vs
  | None => PStr (str_of_list l)
  end.

(** *** Context tracker *)

(** Lines 155-162: the record of a new run. *)
Definition run_record (run_id name : string) (tags : pyval) (t0 : string) : dict :=
  [("id", PStr run_id); ("name", PStr name); ("tags", py_or tags (PDict []));
   ("status", PStr "RUNNING"); ("started_at", PStr t0); ("steps", PList [])].

(** [start_run(name, tags)] around [body], the block of the [with]
    statement, which receives the yielded [run_data]. *)
Definition start_run {A} (name : string) (tags : pyval) (body : ref -> M A) : M A :=
  fun w =>
    let '(run_id, w) := fresh_uuid w in
    let '(t0, w) := utcnow w in
    let '(run_data, w) := alloc (run_record run_id name tags t0) w in
    let token := current_run w in
    let w := set_current_run (Some run_data) w in
    match body run_data w with
    | (Ok a, w) =>
        let w := setitem run_data "status" (PStr "COMPLETED") w in
        let '(t1, w) := utcnow w in
        let w := setitem run_data "completed_at" (PStr t1) w in
        let w := queue_put ("run_complete", run_data) w in
        (Ok a, set_current_run token w)
    | (Raise e, w) =>
        if is_Exception e
        then
          let w := setitem run_data "status" (PStr "FAILED") w in
          let w := setitem run_data "error" (PStr (exn_str e)) w in
          let '(t1, w) := utcnow w in
          let w := setitem run_data "completed_at" (PStr t1) w in
          let w := queue_put ("run_failed", run_data) w in
          (Raise e, set_current_run token w)
        else (Raise e, set_current_run token w)
    end.

(** Lines 233-237: the [cost] entry of a new step record, if any. *)
Definition step_cost (cost token_usage : pyval) : result (option pyval) :=
  if truthy token_usage && is_none cost
  then (c <- _calculate_llm_cost token_usage ;; Ok (Some (PFloat c)))
  else if negb (is_none cost) then Ok (Some cost)
  else Ok None.

(** Lines 223-237: the record of a new step; [c] is its cost, if any. *)
Definition step_record (step_id : string) (run_id : pyval) (name step_type : string)
  (reasoning : pyval) (inputs : option T) (t0 : string) (c : option pyval) : dict :=
  let step_data := [("id", PStr step_id); ("run_id", run_id);
                    ("name", PStr name); ("type", PStr step_type);
                    ("reasoning", reasoning);
                    ("inputs", _serialize inputs);
                    ("started_at", PStr t0)] in
  match c with
  | Some v => dict_set step_data "cost" v
  | None => step_data
  end.

(** [step(name, step_type, reasoning, inputs, cost, token_usage)] around
    [body]. *)
Definition step {A} (name step_type : string) (reasoning : pyval)
  (inputs : option T) (cost token_usage : pyval) (body : ref -> M A) : M A :=
  fun w =>
    match current_run w with
    | None =>
        let '(inert, w) := alloc [] w in
        body inert w
    | Some run_ref =>
        let '(step_id, w) := fresh_uuid w in
        match dict_item (default [] (heap w !! run_ref)) "id" with
        | Raise e => (Raise e, w)
        | Ok run_id =>
            let '(t0, w) := utcnow w in
            match step_cost cost token_usage with
            | Raise e => (Raise e, w)
            | Ok c =>
                let '(step_data, w) :=
                  alloc (step_record step_id run_id name step_type reasoning
                           inputs t0 c) w in
                let token := current_step w in
                let w := set_current_step (Some step_data) w in
                match body step_data w with
                | (Ok a, w) =>
                    let '(t1, w) := utcnow w in
                    let w := setitem step_data "completed_at" (PStr t1) w in
                    let w := queue_put ("step_complete", step_data) w in
                    (Ok a, set_current_step token w)
                | (Raise e, w) =>
                    if is_Exception e
                    then
                      let w := setitem step_data "error" (PStr (exn_str e)) w in
                      let '(t1, w) := utcnow w in
                      let w := setitem step_data "completed_at" (PStr t1) w in
                      let w := queue_put ("step_failed", step_data) w in
                      (Raise e, set_current_step token w)
                    else (Raise e, set_current_step token w)
                end
            end
        end
    end.

(** *** Candidate summarizer *)

(** [reason or "unknown"] *)
Definition reason_key (reason : option string) : string :=
  match reason with
  | Some r => if String.eqb r EmptyString then "unknown" else r
  | None => "unknown"
  end.

(** The histogram is a [Dict[str, int]]. *)
Fixpoint hist_get (h : list (string * Z)) (k : string) (dflt : Z) : Z :=
  match h with
  | [] => dflt
  | (k', n) :: h' => if String.eqb k k' then n else hist_get h' k dflt
  end.

Fixpoint hist_set (h : list (string * Z)) (k : string) (n : Z) : list (string * Z) :=
  match h with
  | [] => [(k, n)]
  | (k', n') :: h' =>
      if String.eqb k k' then (k', n) :: h' else (k', n') :: hist_set h' k n
  end.

Definition hist_to_py (h : list (string * Z)) : pyval :=
  PDict (map (fun kn => (fst kn, PInt (snd kn))) h).

Section Summarizer.

Variable filter_fn : T -> bool * option string.

(** Line 290: [[c for c in candidates if filter_fn(c)[0]]] *)
Fixpoint pure_filter (candidates : list T) : list T :=
  match candidates with
  | [] => []
  | c :: rest =>
      if fst (filter_fn c) then c :: pure_filter rest else pure_filter rest
  end.

(** Lines 298-305: the loop, with [survivors] and [rejection_histogram] as
    its state. *)
Fixpoint classify_loop (candidates survivors : list T) (hist : list (string * Z))
  : list T * list (string * Z) :=
  match candidates with
  | [] => (survivors, hist)
  | candidate :: rest =>
      let '(accepted, reason) := filter_fn candidate in
      if accepted
      then classify_loop rest (survivors ++ [candidate]) hist
      else
        let k := reason_key reason in
        classify_loop rest survivors (hist_set hist k (hist_get hist k 0 + 1))
  end.

Definition decimal (z : Z) : string := NilZero.string_of_int (Z.to_int z).

(** Lines 308-330: the step record of one summarization. *)
Definition summary_record (step_id : string) (run_id : pyval) (step_name : string)
  (candidates survivors : list T) (hist : list (string * Z))
  (dr : float) (t0 t1 : string) : dict :=
  let total_count := Z.of_nat (length candidates) in
  [("id", PStr step_id);
   ("run_id", run_id);
   ("name", PStr step_name);
   ("type", PStr "filter");
   ("inputs", PDict [("candidate_count", PInt total_count);
                     ("sample_input", _serialize (head candidates))]);
   ("outputs", PDict [("survivor_count", PInt (Z.of_nat (length survivors)));
                      ("survivors", _serialize_list survivors)]);
   ("metadata", PDict [("rejection_histogram", hist_to_py hist);
                       ("drop_rate", PFloat dr);
                       ("total_count", PInt total_count)]);
   ("reasoning", PStr ("Filtered " ++ decimal total_count ++ " candidates, "
                       ++ decimal (Z.of_nat (length survivors))
                       ++ " survived. Rejection reasons: " ++ repr_of_dict hist));
   ("started_at", PStr t0);
   ("completed_at", PStr t1)].

(** [(total_count - len(survivors)) / total_count if total_count > 0 else 0.0] *)
Definition summary_drop_rate (total_count survivor_count : Z) : result float :=
  if (0 <? total_count)%Z
  then int_truediv (total_count - survivor_count) total_count
  else Ok 0%float.

Definition process_candidates (candidates : list T) (step_name : option string)
  : M (list T) :=
  fun w =>
    match current_run w with
    | None => (Ok (pure_filter candidates), w)
    | Some run_ref =>
        let step_name :=
          match step_name with
          | Some n => if String.eqb n EmptyString then "filter_candidates" else n
          | None => "filter_candidates"
          end in
        let '(survivors, hist) := classify_loop candidates [] [] in
        let total_count := Z.of_nat (length candidates) in
        let '(step_id, w) := fresh_uuid w in
        match dict_item (default [] (heap w !! run_ref)) "id" with
        | Raise e => (Raise e, w)
        | Ok run_id =>
            match summary_drop_rate total_count (Z.of_nat (length survivors)) with
            | Raise e => (Raise e, w)
            | Ok dr =>
                let '(t0, w) := utcnow w in
                let '(t1, w) := utcnow w in
                let '(step_data, w) :=
                  alloc (summary_record step_id run_id step_name candidates
                           survivors hist dr t0 t1) w in
                let w := queue_put ("step_complete", step_data) w in
                (Ok survivors, w)
            end
        end
    end.

End Summarizer.

(** *** Event batcher *)

(** [response.raise_for_status()] *)
Definition raise_for_status (status : Z) : result unit :=
  if ((200 <=? status) && (status <=? 299))%Z then Ok tt
  else Raise (mk_exn "HTTPStatusError" "error response" true).

(** [_flush_batch(batch)]: one POST of the whole batch; an [Exception]
    raised in the [try] block is dropped by [except Exception: pass]. *)
Definition _flush_batch (batch : list queued) : M unit :=
  fun w =>
    match batch with
    | [] => (Ok tt, w)
    | _ =>
        let attempt :=
          (status <- http_post (length (requests w)) batch ;;
           raise_for_status status) in
        let w := log_request batch w in
        match attempt with
        | Ok _ => (Ok tt, w)
        | Raise e => if is_Exception e then (Ok tt, w) else (Raise e, w)
        end
    end.

(** The worker's local variables. *)
Record worker := mkWorker { batch : list queued; last_flush : float }.

(** One turn of the [while] loop of [_worker_loop].  [queue.get] hands
    over the oldest queued event, or gives up ([queue.Empty]) when none
    arrived within its timeout. *)
Definition worker_turn (batch_size : nat) (flush_interval : float) (st : worker)
  : M worker :=
  fun w =>
    let '(event, batch, w) :=
      match queue w with
      | ev :: q => (Some ev, (batch st ++ [ev])%list, set_queue q w)
      | [] => (None, batch st, w)
      end in
    let now := time_time (clock_calls w) in
    let w := tick w in
    let should_flush :=
      (batch_size <=? length batch)%nat
      || (match event with None => true | Some _ => false end
          && (0 <? length batch)%nat
          && PrimFloat.leb flush_interval (PrimFloat.sub now (last_flush st))) in
    if should_flush && (0 <? length batch)%nat
    then
      match _flush_batch batch w with
      | (Ok _, w) => (Ok (mkWorker [] now), w)
      | (Raise e, w) =>
          if is_Exception e
          then (Ok (mkWorker batch (last_flush st)), w)
          else (Raise e, w)
      end
    else (Ok (mkWorker batch (last_flush st)), w).

(** [_worker_loop], for the [turns] turns of its [while] loop that start
    before [_shutdown] is set. *)
Fixpoint worker_turns (turns : nat) (batch_size : nat) (flush_interval : float)
  (st : worker) : M worker :=
  match turns with
  | O => fun w => (Ok st, w)
  | S n =>
      fun w =>
        match worker_turn batch_size flush_interval st w with
        | (Ok st', w') => worker_turns n batch_size flush_interval st' w'
        | (Raise e, w') => (Raise e, w')
        end
  end.

Definition _worker_loop (turns : nat) (batch_size : nat) (flush_interval : float)
  : M worker :=
  fun w =>
    let last_flush := time_time (clock_calls w) in
    worker_turns turns batch_size flush_interval (mkWorker [] last_flush) (tick w).

(** [shutdown()], once the worker thread has been joined: what is still on
    the queue is drained and flushed in one batch.  [alive] is
    [self._worker_thread.is_alive()] at the call. *)
Definition shutdown (alive : bool) : M unit :=
  fun w =>
    if alive
    then
      let remaining := queue w in
      let w := set_queue [] w in
      match remaining with
      | [] => (Ok tt, w)
      | _ => _flush_batch remaining w
      end
    else (Ok tt, w).

End Client.

(** [s.rstrip("/")] *)
Fixpoint rstrip_slash (s : string) : string :=
  match s with
  | EmptyString => EmptyString
  | String c s' =>
      match rstrip_slash s' with
      | EmptyString => if Ascii.eqb c "/" then EmptyString else String c EmptyString
      | r => String c r
      end
  end.

(** What [__init__] keeps of its arguments. *)
Record config := mkConfig {
  api_url : string;
  cfg_batch_size : nat;
  cfg_flush_interval : float;
  cfg_timeout : float
}.

Definition XRayClient (url : string) (batch_size : nat) (flush_interval timeout : float)
  : config :=
  mkConfig (rstrip_slash url) batch_size flush_interval timeout.

(** [f"{self.api_url}/ingest"], the address [_flush_batch] posts to. *)
Definition ingest_url (c : config) : string := api_url c ++ "/ingest".

(** The body of the POST: [json={"events": batch}] writes every queued
    event with the contents its record has at that moment. *)
Definition payload (w : world) (batch : list queued) : list Backend.event :=
  map (fun ev => Backend.mkEvent (fst ev) (default [] (heap w !! snd ev))) batch.

(** *** Notions used to state the properties *)

(** What the [except] clause of [start_run] writes into the run record. *)
Definition failed_run (e : exn) (t : string) (d : dict) : dict :=
  dict_set (dict_set (dict_set d "status" (PStr "FAILED"))
              "error" (PStr (exn_str e)))
    "completed_at" (PStr t).

(** What the [except] clause of [step] writes into the step record. *)
Definition failed_step (e : exn) (t : string) (d : dict) : dict :=
  dict_set (dict_set d "error" (PStr (exn_str e))) "completed_at" (PStr t).

(** The event a run scope enqueues for the outcome [r] of its body, and
    the one a step scope enqueues. *)
Definition run_exit_events {A} (l : ref) (r : result A) : list queued :=
  match r with
  | Ok _ => [("run_complete", l)]
  | Raise e => if is_Exception e then [("run_failed", l)] else []
  end.

Definition step_exit_events {A} (l : ref) (r : result A) : list queued :=
  match r with
  | Ok _ => [("step_complete", l)]
  | Raise e => if is_Exception e then [("step_failed", l)] else []
  end.

(** What a scope writes into its record for the outcome [r] of its body. *)
Definition run_exit_record {A} (r : result A) (t : string) (d : dict) : dict :=
  match r with
  | Ok _ => dict_set (dict_set d "status" (PStr "COMPLETED")) "completed_at" (PStr t)
  | Raise e => if is_Exception e then failed_run e t d else d
  end.

Definition step_exit_record {A} (r : result A) (t : string) (d : dict) : dict :=
  match r with
  | Ok _ => dict_set d "completed_at" (PStr t)
  | Raise e => if is_Exception e then failed_step e t d else d
  end.

(** A value that cannot be the key of a dict. *)
Definition unhashable (v : pyval) : bool := isinstance_list v || isinstance_dict v.

Definition is_text (v : pyval) : bool :=
  match v with PStr _ => true | _ => false end.

(** The price of a token-usage mapping as the specification words it: the
    table entry of its model, and the gpt-4 entry when the model is missing
    or not in the table, be it a text or any other value that can be
    looked up. *)
Inductive priced_as (d : dict) : float * float -> Prop :=
| priced_missing :
    dict_find d "model" = None -> priced_as d gpt4_price
| priced_known (m : string) (price : float * float) :
    dict_find d "model" = Some (PStr m) ->
    pricing_find pricing m = Some price -> priced_as d price
| priced_unknown (m : string) :
    dict_find d "model" = Some (PStr m) ->
    pricing_find pricing m = None -> priced_as d gpt4_price
| priced_other (m : pyval) :
    dict_find d "model" = Some m ->
    is_text m = false -> unhashable m = false -> priced_as d gpt4_price.

(** [sum(rejection_histogram.values())] *)
Definition hist_total (h : list (string * Z)) : Z :=
  fold_right (fun kn acc => (snd kn + acc)%Z) 0%Z h.

Definition accepted {T} (filter_fn : T -> bool * option string) (c : T) : bool :=
  fst (filter_fn c).

(** The number of rejected candidates whose reason maps to the key [k]
    under [key_of]. *)
Definition rejects_keyed {T} (key_of : option string -> string)
  (filter_fn : T -> bool * option string) (k : string) (candidates : list T) : Z :=
  Z.of_nat (length (List.filter
                      (fun c => negb (accepted filter_fn c)
                                && String.eqb (key_of (snd (filter_fn c))) k)
                      candidates)).

(** What the loop of [process_candidates] keeps true of its histogram:
    no key twice, no count below 1, no empty key. *)
Definition tidy (h : list (string * Z)) : Prop :=
  List.NoDup (map fst h)
  /\ List.Forall (fun kn => (1 <= snd kn)%Z /\ fst kn <> EmptyString) h.

(** Strings of slashes, and strings that end in one. *)
Fixpoint slashes (n : nat) : string :=
  match n with
  | O => EmptyString
  | S n' => String "/" (slashes n')
  end.

Fixpoint ends_with_slash (s : string) : bool :=
  match s with
  | EmptyString => false
  | String c EmptyString => Ascii.eqb c "/"
  | String _ s' => ends_with_slash s'
  end.

(** The key as the specification words it: the reason, or "unknown" when
    the reason is absent. *)
Definition stated_key (reason : option string) : string :=
  match reason with
  | Some r => r
  | None => "unknown"
  end.

End Sdk.

(** ** The simulation ([simulation.py]) *)

Module Simulation.
Import Py.

Record Product := mkProduct {
  product_id : string;
  title : string;
  price : float;
  category : string;
  rating : float
}.

(** [float(z)] as the arithmetic of an int with a float takes it; the ints
    met here are remainders below 100, far from the binary64 range. *)
Definition small_float (z : Z) : float :=
  SF2Prim (binary_normalize prec emax z 0 false).

(** [range(n)] *)
Definition range (n : Z) : list Z := map Z.of_nat (seq 0 (Z.to_nat n)).

(** [f"{i:06d}"] for [0 <= i]: the decimal digits, filled up with zeros
    on the left to six places. *)
Fixpoint zeros (k : nat) (s : string) : string :=
  match k with
  | O => s
  | S k' => String "0" (zeros k' s)
  end.

Definition zfill6 (i : Z) : string :=
  let d := Sdk.decimal i in
  zeros (6 - String.length d) d.

(** The product the loop of [retrieve_candidates] builds for [i]. *)
Definition product_at (i : Z) : Product :=
  mkProduct ("prod_" ++ zfill6 i) ("Competitor Product " ++ Sdk.decimal i)
    (if (i <? 4950)%Z
     then PrimFloat.add 150 (PrimFloat.mul (small_float (i mod 100)) 10)
     else PrimFloat.add 20 (PrimFloat.mul (small_float (i mod 50)) 2))
    "Electronics"
    (PrimFloat.add 4 (PrimFloat.mul (small_float (i mod 10)) 0.1)).

(** [retrieve_candidates(keywords, max_results)]; the keywords are not
    used, and the simulated delay changes nothing. *)
Definition retrieve_candidates (keywords : list string) (max_results : Z)
  : list Product :=
  map product_at (range max_results).

Definition filter_by_price (product : Product) : bool * option string :=
  let max_price := 100%float in
  if PrimFloat.ltb max_price (price product)
  then (false, Some "price_too_high")
  else (true, None).

Definition filter_by_rating (product : Product) : bool * option string :=
  let min_rating := 4.5%float in
  if PrimFloat.ltb (rating product) min_rating
  then (false, Some "rating_too_low")
  else (true, None).

(** The indices whose product passes the price filter, and the rating
    filter. *)
Definition cheap (i : Z) : bool := ((4950 <=? i) && (i mod 50 <=? 40))%Z.

Definition well_rated (i : Z) : bool := (5 <=? i mod 10)%Z.

End Simulation.

(** ** Scenarios

    Concrete records and events on which the properties are exercised. *)

Module Scenarios.
Import Py Backend.

(** A FILTER record as a client following the data model writes it for an
    empty input: both counts in the metadata, both zero. *)
Definition zero_counts_step : Step :=
  mkStep "5f0c2a9e7b3d4c1e8a6f0b1d2c3e4f50" "0a1b2c3d4e5f40718293a4b5c6d7e8f9"
    (PStr "filter_by_price") FILTER (PDict []) (PDict [])
    (PDict [("total_count", PInt 0); ("survivor_count", PInt 0)])
    PNone (PFloat 0) (PStr "2024-01-01T00:00:00+00:00") PNone PNone.

(** The same metadata next to inputs and outputs that disagree with it. *)
Definition zero_counts_step' : Step :=
  mkStep "5f0c2a9e7b3d4c1e8a6f0b1d2c3e4f50" "0a1b2c3d4e5f40718293a4b5c6d7e8f9"
    (PStr "filter_by_price") FILTER
    (PDict [("candidate_count", PInt 7)])
    (PDict [("survivors", PList [PStr "a"; PStr "b"])])
    (PDict [("total_count", PInt 0); ("survivor_count", PInt 0)])
    PNone (PFloat 0) (PStr "2024-01-01T00:00:00+00:00") PNone PNone.


(** The scenario of the specification: 5000 candidates, 50 survivors. *)
Definition spec_filter_step : Step :=
  mkStep "5f0c2a9e7b3d4c1e8a6f0b1d2c3e4f50" "0a1b2c3d4e5f40718293a4b5c6d7e8f9"
    (PStr "filter_by_price") FILTER (PDict []) (PDict [])
    (PDict [("total_count", PInt 5000); ("survivor_count", PInt 50)])
    PNone (PFloat 0) (PStr "2024-01-01T00:00:01+00:00") PNone PNone.


Definition demo_run : Run :=
  mkRun "0a1b2c3d4e5f40718293a4b5c6d7e8f9" (PStr "competitor_selection") COMPLETED
    (PFloat 0) (PDict []) (PStr "2024-01-01T00:00:00+00:00")
    (PStr "2024-01-01T00:00:09+00:00") PNone.

Definition logic_step_at (sid : uuid) (start : string) (out : pyval) : Step :=
  mkStep sid "0a1b2c3d4e5f40718293a4b5c6d7e8f9" (PStr "rank_and_select") LOGIC
    (PDict []) out (PDict []) PNone (PFloat 0) (PStr start) PNone PNone.

Definition logic_step (sid : uuid) (out : pyval) : Step :=
  logic_step_at sid "2024-01-01T00:00:02+00:00" out.

(** Validation parameters for the examples: no text is read as a number,
    [True] and [False] are read as the floats 1.0 and 0.0, and the text of
    an error is the name of the model. *)
Definition demo_pydantic : pydantic :=
  mkPydantic (fun _ => None) (fun _ => None)
    (fun b => Some (if b then 1%float else 0%float))
    (fun title _ => title).


(** The environment of the examples: identifiers and clock readings in
    the order in which they are drawn. *)
Definition demo_uuid4 (n : nat) : string :=
  nth n ["0a1b2c3d-4e5f-4071-8293-a4b5c6d7e8f9";
         "5f0c2a9e-7b3d-4c1e-8a6f-0b1d2c3e4f50";
         "9d8c7b6a-5f4e-4d3c-a2b1-0f9e8d7c6b5a"]
        "00000000-0000-4000-8000-000000000000".

Definition demo_now (n : nat) : string :=
  nth n ["2024-01-01T00:00:00+00:00"; "2024-01-01T00:00:01+00:00";
         "2024-01-01T00:00:02+00:00"; "2024-01-01T00:00:03+00:00"]
        "2024-01-01T00:00:09+00:00".

(** Candidates are ints, which are JSON values. *)
Definition demo_json (n : Z) : option pyval := Some (PInt n).
Definition demo_str (n : Z) : string := EmptyString.
Definition demo_str_list (l : list Z) : string := EmptyString.
Definition demo_repr (h : list (string * Z)) : string := "{...}".

(** The classifier of [example_sdk_usage.py]. *)
Definition demo_filter (item : Z) : bool * option string :=
  if (2 <? item)%Z then (true, None) else (false, Some "value_too_low").

(** A classifier that rejects with an empty reason. *)
Definition blank_reason_filter (item : Z) : bool * option string := (false, Some EmptyString).

(** A fresh client, and a client inside a run scope. *)
Definition idle_world : Sdk.world := Sdk.mkWorld ∅ 0 None None [] 0 0 [].

Definition running_world : Sdk.world :=
  Sdk.mkWorld
    {[ 0%nat := [("id", PStr "0a1b2c3d-4e5f-4071-8293-a4b5c6d7e8f9");
                 ("name", PStr "backend_data_processing");
                 ("tags", PDict [("source", PStr "backend")]);
                 ("status", PStr "RUNNING");
                 ("started_at", PStr "2024-01-01T00:00:00+00:00");
                 ("steps", PList [])] ]}
    1 (Some 0%nat) None [] 1 1 [].

(** A transport that is permanently down, and one that answers 503. *)
Definition refused (n : nat) (b : list (string * nat)) : result Z :=
  Raise (mk_exn "ConnectError" "All connection attempts failed" true).

Definition unavailable (n : nat) (b : list (string * nat)) : result Z := Ok 503%Z.

Definition demo_clock (n : nat) : float := 10%float.

(** A body that fails at once. *)
Definition failing_body (l : nat) : Sdk.M unit :=
  fun w => (Raise (ValueError "no candidates left"), w).

Definition quiet_body (l : nat) : Sdk.M unit := fun w => (Ok tt, w).

(** A body interrupted from the keyboard: [KeyboardInterrupt] is not an
    [Exception]. *)
Definition interrupted_body (l : nat) : Sdk.M unit :=
  fun w => (Raise (mk_exn "KeyboardInterrupt" EmptyString false), w).

(** A run with one LLM step of cost 0.5, as an application writes it
    against the client, and the events the client has queued when the run
    scope is left: the step closes first, the run after it. *)
Definition demo_session : result unit * Sdk.world :=
  Sdk.start_run demo_uuid4 demo_now "competitor_selection" PNone
    (fun _ =>
       Sdk.step demo_uuid4 demo_now Z demo_json demo_str "generate_keywords" "llm"
         PNone None (PFloat 0.5) PNone quiet_body)
    idle_world.

Definition demo_batch : list event :=
  Sdk.payload (snd demo_session) (Sdk.queue (snd demo_session)).

Definition step_event : event := nth 0 demo_batch (mkEvent EmptyString []).
Definition run_event : event := nth 1 demo_batch (mkEvent EmptyString []).

(** The identity of the run of [demo_session] in the store. *)
Definition rid1 : uuid := "0a1b2c3d4e5f40718293a4b5c6d7e8f9".

(** A store that holds [demo_run], billed 0.5 so far, and one of its
    steps. *)
Definition stored_demo : session :=
  mkSession {[ rid1 := with_total demo_run (PFloat 0.5) ]}
    {[ "5f0c2a9e7b3d4c1e8a6f0b1d2c3e4f50" := spec_filter_step ]} [] [].

(** Events about that run: two new steps, the stored step once more, a
    step of a type the backend does not know, an event without an id, the
    two failure events, and two events of unknown type. *)
Definition step_data (sid name ty : string) (c : float) : dict :=
  [("id", PStr sid); ("run_id", PStr "0a1b2c3d-4e5f-4071-8293-a4b5c6d7e8f9");
   ("name", PStr name); ("type", PStr ty); ("reasoning", PNone);
   ("inputs", PNone); ("started_at", PStr "2024-01-01T00:00:03+00:00");
   ("cost", PFloat c); ("completed_at", PStr "2024-01-01T00:00:04+00:00")].

Definition keywords_event : event :=
  mkEvent "step_complete"
    (step_data "9d8c7b6a-5f4e-4d3c-a2b1-0f9e8d7c6b5a" "generate_keywords" "llm" 0.5).

Definition ranking_event : event :=
  mkEvent "step_complete"
    (step_data "11111111-1111-4111-8111-111111111111" "rank_and_select" "logic" 0.25).

Definition redelivered_event : event :=
  mkEvent "step_complete"
    (step_data "5f0c2a9e-7b3d-4c1e-8a6f-0b1d2c3e4f50" "filter_by_price" "filter" 0.125).

Definition custom_event : event :=
  mkEvent "step_complete"
    (step_data "22222222-2222-4222-8222-222222222222" "rerank" "custom" 0.5).

Definition anonymous_event : event :=
  mkEvent "step_complete" [("name", PStr "generate_keywords"); ("type", PStr "llm")].

Definition failed_step_event : event :=
  mkEvent "step_failed"
    (dict_set
       (step_data "33333333-3333-4333-8333-333333333333" "call_model" "llm" 3)
       "error" (PStr "rate limited")).

Definition failed_run_event : event :=
  mkEvent "run_failed"
    [("id", PStr "0a1b2c3d-4e5f-4071-8293-a4b5c6d7e8f9");
     ("name", PStr "competitor_selection"); ("status", PStr "FAILED");
     ("error", PStr "rate limited");
     ("completed_at", PStr "2024-01-01T00:00:05+00:00")].

Definition unknown_events : list event :=
  [mkEvent "run_started" [("id", PStr "0a1b2c3d-4e5f-4071-8293-a4b5c6d7e8f9")];
   mkEvent "heartbeat" []].

(** A FILTER step whose inputs reached the store as a string. *)
Definition opaque_filter_step : Step :=
  mkStep "44444444444444448444444444444444" "0a1b2c3d4e5f40718293a4b5c6d7e8f9"
    (PStr "filter_by_price") FILTER (PStr "<Product object>") (PDict []) (PDict [])
    PNone (PFloat 0) (PStr "2024-01-01T00:00:01+00:00") PNone PNone.

(** A FILTER step whose metadata carries a count that is not a whole
    number, and a drop rate that is a word. *)
Definition untyped_count_step : Step :=
  mkStep "55555555555555558555555555555555" "0a1b2c3d4e5f40718293a4b5c6d7e8f9"
    (PStr "filter_by_rating") FILTER (PDict []) (PDict [])
    (PDict [("total_count", PFloat 2.5); ("survivor_count", PInt 1);
            ("drop_rate", PStr "high")])
    PNone (PFloat 0) (PStr "2024-01-01T00:00:02+00:00") PNone PNone.

End Scenarios.

(** * Properties *)

(** ** Funnel reconstruction *)

Module FunnelProps.
Import Py Backend Scenarios.
Local Open Scope py_scope.

Lemma is_none_spec (v : pyval) : is_none v = true <-> v = PNone.
Proof. destruct v; simpl; split; congruence. Qed.

Lemma is_none_false (v : pyval) : v <> PNone -> is_none v = false.
Proof. destruct v; simpl; congruence. Qed.

Lemma py_get_dict (d : dict) (k : string) : py_get (PDict d) k = Ok (dict_get d k).
Proof. reflexivity. Qed.

(** *** Schema validation *)

Lemma DecisionFunnelStep_of_inv (P : pydantic) (sid : uuid) (name : pyval)
  (ty : StepType) (ic oc dr hist rs c : pyval) (e : DecisionFunnelStep) :
  DecisionFunnelStep_of P sid name ty ic oc dr hist rs c = Ok e ->
  fs_step_id e = sid /\ fs_step_type e = ty
  /\ validate_str name = Valid (fs_step_name e)
  /\ optional (validate_int P) ic = Valid (input_count e)
  /\ optional (validate_int P) oc = Valid (output_count e)
  /\ optional (validate_float P) dr = Valid (drop_rate e)
  /\ optional (validate_dict_str_int P) hist = Valid (rejection_histogram e)
  /\ optional validate_str rs = Valid (fs_reasoning e)
  /\ validate_float P c = Valid (fs_cost e).
Proof.
  unfold DecisionFunnelStep_of. cbv zeta.
  destruct (validate_str name) as [n |]; [| discriminate].
  destruct (optional (validate_int P) ic) as [i |]; [| discriminate].
  destruct (optional (validate_int P) oc) as [o |]; [| discriminate].
  destruct (optional (validate_float P) dr) as [r |]; [| discriminate].
  destruct (optional (validate_dict_str_int P) hist) as [h |]; [| discriminate].
  destruct (optional validate_str rs) as [t |]; [| discriminate].
  destruct (validate_float P c) as [x |]; [| discriminate].
  intros [= <-]. cbn. repeat split.
Qed.

Lemma DecisionFunnelStep_of_valid (P : pydantic) (sid : uuid) (name : pyval)
  (ty : StepType) (ic oc dr hist rs c n i o r h t x : pyval) :
  validate_str name = Valid n ->
  optional (validate_int P) ic = Valid i ->
  optional (validate_int P) oc = Valid o ->
  optional (validate_float P) dr = Valid r ->
  optional (validate_dict_str_int P) hist = Valid h ->
  optional validate_str rs = Valid t ->
  validate_float P c = Valid x ->
  DecisionFunnelStep_of P sid name ty ic oc dr hist rs c
  = Ok (mkFunnelStep sid n ty i o r h t x).
Proof.
  intros Hn Hi Ho Hr Hh Ht Hx. unfold DecisionFunnelStep_of. cbv zeta.
  rewrite Hn, Hi, Ho, Hr, Hh, Ht, Hx. reflexivity.
Qed.

Lemma DecisionFunnelStep_of_raises (P : pydantic) (sid : uuid) (name : pyval)
  (ty : StepType) (ic oc dr hist rs c : pyval) (x : exn) :
  DecisionFunnelStep_of P sid name ty ic oc dr hist rs c = Raise x ->
  exn_class x = "ValidationError".
Proof.
  unfold DecisionFunnelStep_of. cbv zeta.
  destruct (validate_str name); [| intros [= <-]; reflexivity].
  destruct (optional (validate_int P) ic); [| intros [= <-]; reflexivity].
  destruct (optional (validate_int P) oc); [| intros [= <-]; reflexivity].
  destruct (optional (validate_float P) dr); [| intros [= <-]; reflexivity].
  destruct (optional (validate_dict_str_int P) hist); [| intros [= <-]; reflexivity].
  destruct (optional validate_str rs); [| intros [= <-]; reflexivity].
  destruct (validate_float P c); [discriminate | intros [= <-]; reflexivity].
Qed.

Lemma AnalyzeResponseSchema_of_valid (P : pydantic) (rid : uuid) (name : pyval)
  (st : RunStatus) (total : pyval) (fn : list DecisionFunnelStep)
  (final n t f : pyval) :
  validate_str name = Valid n ->
  validate_float P total = Valid t ->
  optional validate_dict_any final = Valid f ->
  AnalyzeResponseSchema_of P rid name st total fn final
  = Ok (mkAnalyze rid n st t fn f).
Proof.
  intros Hn Ht Hf. unfold AnalyzeResponseSchema_of. cbv zeta.
  rewrite Hn, Ht, Hf. reflexivity.
Qed.



(** What the schema leaves as it is. *)
Lemma validate_count (P : pydantic) (v : pyval) :
  count_or_none v = true -> optional (validate_int P) v = Valid v.
Proof. destruct v; try discriminate; reflexivity. Qed.

Lemma validate_float_or_none (P : pydantic) (v : pyval) :
  float_or_none v = true -> optional (validate_float P) v = Valid v.
Proof. destruct v; try discriminate; reflexivity. Qed.

Lemma validate_is_float (P : pydantic) (v : pyval) :
  is_float v = true -> validate_float P v = Valid v.
Proof. destruct v; try discriminate; reflexivity. Qed.

Lemma validate_is_str (v : pyval) : is_str v = true -> validate_str v = Valid v.
Proof. destruct v; try discriminate; reflexivity. Qed.

Lemma validate_str_or_none (v : pyval) :
  str_or_none v = true -> optional validate_str v = Valid v.
Proof. destruct v; try discriminate; reflexivity. Qed.

Lemma validate_items_ints (P : pydantic) (d : dict) :
  forallb (fun kv => is_int (snd kv)) d = true -> validate_items P d = (d, []).
Proof.
  induction d as [| [k x] d IH]; [reflexivity |].
  cbn [forallb snd]. intros H. apply andb_true_iff in H as [Hx Hd].
  cbn [validate_items]. rewrite (IH Hd).
  destruct x; try discriminate. reflexivity.
Qed.

Lemma validate_histogram (P : pydantic) (v : pyval) :
  histogram_or_none v = true -> optional (validate_dict_str_int P) v = Valid v.
Proof.
  destruct v as [| | | | | | d]; try discriminate; [reflexivity |].
  cbn [histogram_or_none optional validate_dict_str_int]. intros H.
  rewrite (validate_items_ints P d H). reflexivity.
Qed.

Lemma validate_mapping_or_none (v : pyval) :
  mapping_or_none v = true -> optional validate_dict_any v = Valid v.
Proof. destruct v; try discriminate; reflexivity. Qed.

(** *** One step *)


(** The entry of a step is assembled from its counts and its drop rate,
    each passed through the schema. *)
Lemma funnel_step_entry (P : pydantic) (step : Step) (final : pyval) (d : dict)
  (ic oc dr : pyval) (e : DecisionFunnelStep) :
  py_or (step_metadata step) (PDict []) = PDict d ->
  derive_counts (step_type step) (PDict d)
    (py_or (inputs step) (PDict [])) (py_or (outputs step) (PDict [])) = Ok (ic, oc) ->
  derive_drop_rate (PDict d) ic oc = Ok dr ->
  DecisionFunnelStep_of P (step_id step) (step_name step) (step_type step) ic oc dr
    (dict_get d "rejection_histogram") (reasoning step) (cost step) = Ok e ->
  funnel_step P step final = Ok (e, next_final step final).
Proof.
  intros Hmd Hc Hdr He. unfold funnel_step, next_final. rewrite Hmd, Hc.
  cbn [bind fst snd]. rewrite Hdr. cbn [bind]. rewrite py_get_dict. cbn [bind].
  rewrite He. cbn [bind]. destruct (step_type step); reflexivity.
Qed.


(** The three cases of lines 189-193. *)
Lemma derive_drop_rate_given (d : dict) (ic oc : pyval) :
  dict_get d "drop_rate" <> PNone ->
  derive_drop_rate (PDict d) ic oc = Ok (dict_get d "drop_rate").
Proof.
  intros H. unfold derive_drop_rate. rewrite py_get_dict. simpl.
  rewrite (is_none_false _ H). reflexivity.
Qed.




(** The counts of a FILTER record whose inputs, outputs and metadata are
    mappings: each [or] takes its left operand unless that is falsy, and 0
    is falsy. *)
Lemma filter_counts (md di do : dict) :
  derive_counts FILTER (PDict md) (PDict di) (PDict do)
  = Ok (py_or (dict_get md "total_count") (dict_get di "candidate_count"),
        py_or (dict_get md "survivor_count")
          (match dict_get do "survivors" with
           | PList l => PInt (Z.of_nat (length l))
           | _ => PNone
           end)).
Proof.
  unfold derive_counts. rewrite !py_get_dict. cbn [bind].
  unfold py_or_lazy, py_or.
  destruct (truthy (dict_get md "total_count")); cbn [bind];
    (destruct (truthy (dict_get md "survivor_count")); [reflexivity |]);
    unfold len_if_list; rewrite py_get_dict; cbn [bind];
    unfold py_get_default, dict_get, dict_get_default;
    (destruct (dict_find do "survivors") as [v |]; [destruct v |]); reflexivity.
Qed.

Lemma retrieval_counts (md di do : dict) :
  derive_counts RETRIEVAL (PDict md) (PDict di) (PDict do)
  = Ok (PNone,
        py_or (dict_get do "count")
          (match dict_get do "items" with
           | PList l => PInt (Z.of_nat (length l))
           | _ => PNone
           end)).
Proof.
  unfold derive_counts. cbn [isinstance_dict]. rewrite py_get_dict. cbn [bind].
  unfold py_or_lazy, py_or.
  destruct (truthy (dict_get do "count")); [reflexivity |].
  unfold len_if_list; rewrite py_get_dict; cbn [bind];
    unfold py_get_default, dict_get, dict_get_default;
    (destruct (dict_find do "items") as [v |]; [destruct v |]); reflexivity.
Qed.

(** C2 (the code departs from the claim): a [total_count] of 0 that is
    present in the metadata is not used as [input_count].  The [or] of line
    173 treats it like an absent field and takes [inputs.candidate_count]
    instead, and a present [survivor_count] of 0 is skipped the same way on
    line 174: the counts come out absent, or are those of the fallback
    fields. *)
Theorem filter_zero_counts_skipped (P : pydantic) :
  (exists e f, funnel_step P zero_counts_step PNone = Ok (e, f)
               /\ input_count e = PNone /\ output_count e = PNone)
  /\ (exists e f, funnel_step P zero_counts_step' PNone = Ok (e, f)
                  /\ input_count e = PInt 7 /\ output_count e = PInt 2).
Proof.
  split; eexists; eexists; (split; [reflexivity | split; reflexivity]).
Qed.

(** *** Records that follow the data model always reconstruct *)

Lemma py_or_mapping (v : pyval) :
  mapping_or_none v = true ->
  exists d, py_or v (PDict []) = PDict d /\ forall k, dict_get d k = field v k.
Proof.
  destruct v as [| | | | | | d]; try discriminate; intros _.
  - exists []. split; reflexivity.
  - exists d. split; [destruct d; reflexivity | reflexivity].
Qed.

Lemma py_or_count (a b : pyval) :
  count_or_none a = true -> count_or_none b = true -> count_or_none (py_or a b) = true.
Proof. intros Ha Hb. unfold py_or. destruct (truthy a); assumption. Qed.

Lemma len_if_list_count (d : dict) (k : string) :
  short_if_list (dict_get d k) = true ->
  exists c, len_if_list (PDict d) k = Ok c /\ count_or_none c = true.
Proof.
  intros Hs. unfold len_if_list. rewrite py_get_dict. cbn [bind].
  destruct (isinstance_list (dict_get d k)) eqn:Hl.
  - unfold py_get_default, dict_get in *. unfold dict_get_default in *.
    destruct (dict_find d k) as [v |]; [| discriminate].
    destruct v; try discriminate. cbn.
    eexists. split; [reflexivity |]. cbn in *.
    apply andb_true_iff. split; [apply Z.leb_le; lia | exact Hs].
  - exists PNone. split; reflexivity.
Qed.

Lemma py_or_lazy_count (a : pyval) (b : result pyval) :
  count_or_none a = true ->
  (exists c, b = Ok c /\ count_or_none c = true) ->
  exists c, py_or_lazy a b = Ok c /\ count_or_none c = true.
Proof.
  intros Ha (c & -> & Hc). unfold py_or_lazy.
  destruct (truthy a); eexists; (split; [reflexivity | assumption]).
Qed.

Lemma derive_counts_total (ty : StepType) (md di do : dict) :
  count_or_none (dict_get md "total_count") = true ->
  count_or_none (dict_get md "survivor_count") = true ->
  count_or_none (dict_get di "candidate_count") = true ->
  count_or_none (dict_get do "count") = true ->
  short_if_list (dict_get do "survivors") = true ->
  short_if_list (dict_get do "items") = true ->
  exists ic oc,
    derive_counts ty (PDict md) (PDict di) (PDict do) = Ok (ic, oc)
    /\ count_or_none ic = true /\ count_or_none oc = true.
Proof.
  intros Htc Hsc Hcc Hc Hsv Hit. destruct ty; unfold derive_counts.
  - exists PNone, PNone. repeat split.
  - cbn [isinstance_dict]. rewrite py_get_dict. cbn [bind].
    destruct (py_or_lazy_count _ _ Hc (len_if_list_count do "items" Hit))
      as (oc & Hoc & Hcount).
    rewrite Hoc. exists PNone, oc. repeat split; assumption.
  - rewrite !py_get_dict. cbn [bind].
    assert (Hic : exists c, py_or_lazy (dict_get md "total_count")
                              (Ok (dict_get di "candidate_count")) = Ok c
                            /\ count_or_none c = true).
    { apply py_or_lazy_count; [exact Htc | eexists; split; [reflexivity | exact Hcc]]. }
    destruct Hic as (ic & Hic & Hicc). rewrite Hic. cbn [bind].
    destruct (py_or_lazy_count _ _ Hsc (len_if_list_count do "survivors" Hsv))
      as (oc & Hoc & Hcount).
    rewrite Hoc. exists ic, oc. repeat split; assumption.
  - exists PNone, PNone. repeat split.
Qed.

Lemma count_bound_below_threshold : (count_bound <= overflow_threshold)%Z.
Proof. apply Z.leb_le. reflexivity. Qed.

(** The quotient of two counts never leaves the binary64 range. *)
Lemma count_quotient (i o : Z) :
  (0 < i < count_bound)%Z -> (0 <= o < count_bound)%Z ->
  int_truediv (i - o) i
  = Ok (SF2Prim (SFdiv prec emax (sf_of_int (i - o)) (sf_of_int i))).
Proof.
  intros Hi Ho. unfold int_truediv.
  destruct (i =? 0)%Z eqn:Hz; [apply Z.eqb_eq in Hz; lia |].
  pose proof count_bound_below_threshold as Hth.
  generalize dependent overflow_threshold. intros th Hth.
  generalize dependent count_bound. intros cb Hi Ho Hth.
  destruct (th * Z.abs i <=? Z.abs (i - o))%Z eqn:Hov; [| reflexivity].
  apply Z.leb_le in Hov. nia.
Qed.

Lemma derive_drop_rate_total (md : dict) (ic oc : pyval) :
  float_or_none (dict_get md "drop_rate") = true ->
  count_or_none ic = true -> count_or_none oc = true ->
  exists dr, derive_drop_rate (PDict md) ic oc = Ok dr /\ float_or_none dr = true.
Proof.
  intros Hdr Hic Hoc. unfold derive_drop_rate. rewrite py_get_dict. cbn [bind].
  destruct (dict_get md "drop_rate"); try discriminate; cbn;
    [| eexists; split; reflexivity].
  destruct ic as [| | i | | | |]; try discriminate; cbn;
    [eexists; split; reflexivity |].
  destruct oc as [| | o | | | |]; try discriminate; cbn;
    [eexists; split; reflexivity |].
  destruct (0 <? i)%Z eqn:Hpos; [| eexists; split; reflexivity].
  cbn in Hic, Hoc. apply andb_true_iff in Hic as [Hi0 Hi1], Hoc as [Ho0 Ho1].
  apply Z.leb_le in Hi0, Ho0. apply Z.ltb_lt in Hi1, Ho1, Hpos.
  unfold py_truediv, py_truediv_float. cbn [as_num].
  rewrite (count_quotient i o) by lia. cbn [bind].
  eexists. split; reflexivity.
Qed.

(** The entry of a record that follows the data model: the schema changes
    none of its fields. *)
Lemma well_formed_entry (P : pydantic) (step : Step) (final : pyval) :
  well_formed step = true ->
  exists d ic oc dr,
    py_or (step_metadata step) (PDict []) = PDict d
    /\ derive_counts (step_type step) (PDict d)
         (py_or (inputs step) (PDict [])) (py_or (outputs step) (PDict []))
       = Ok (ic, oc)
    /\ count_or_none ic = true /\ count_or_none oc = true
    /\ derive_drop_rate (PDict d) ic oc = Ok dr
    /\ funnel_step P step final
       = Ok (mkFunnelStep (step_id step) (step_name step) (step_type step) ic oc dr
               (field (step_metadata step) "rejection_histogram")
               (reasoning step) (cost step),
             next_final step final).
Proof.
  unfold well_formed. rewrite !andb_true_iff.
  intros [[[[[[[[[[[[[Hm Hi] Ho] Htc] Hsc] Hdr] Hcc] Hc] Hsv] Hit] Hh] Hn] Hr] Hco].
  destruct (py_or_mapping _ Hm) as (md & Hmd & Hmf).
  destruct (py_or_mapping _ Hi) as (di & Hdi & Hif).
  destruct (py_or_mapping _ Ho) as (do & Hdo & Hof).
  rewrite <- Hmf in Htc, Hsc, Hdr, Hh. rewrite <- Hif in Hcc.
  rewrite <- Hof in Hc, Hsv, Hit.
  destruct (derive_counts_total (step_type step) md di do Htc Hsc Hcc Hc Hsv Hit)
    as (ic & oc & Hcounts & Hic & Hoc).
  destruct (derive_drop_rate_total md ic oc Hdr Hic Hoc) as (dr & Hrate & Hfl).
  rewrite <- Hdi, <- Hdo in Hcounts.
  exists md, ic, oc, dr. repeat split; try assumption.
  apply (funnel_step_entry P step final md ic oc dr _ Hmd Hcounts Hrate).
  rewrite <- Hmf.
  apply DecisionFunnelStep_of_valid.
  - apply validate_is_str, Hn.
  - apply validate_count, Hic.
  - apply validate_count, Hoc.
  - apply validate_float_or_none, Hfl.
  - apply validate_histogram, Hh.
  - apply validate_str_or_none, Hr.
  - apply validate_is_float, Hco.
Qed.

Lemma well_formed_reconstructs (P : pydantic) (step : Step) :
  well_formed step = true -> step_reconstructs P step = true.
Proof.
  intros Hw. destruct (well_formed_entry P step PNone Hw)
    as (d & ic & oc & dr & _ & _ & _ & _ & _ & He).
  unfold step_reconstructs. rewrite He. reflexivity.
Qed.




(** *** The loop *)

Lemma funnel_step_final (P : pydantic) (step : Step) (final : pyval) :
  funnel_step P step final =
    match funnel_step P step PNone with
    | Ok (e, _) => Ok (e, next_final step final)
    | Raise x => Raise x
    end.
Proof.
  unfold funnel_step, next_final.
  destruct (derive_counts _ _ _ _) as [c | x]; simpl; [| reflexivity].
  destruct (derive_drop_rate _ _ _) as [dr | x]; simpl; [| reflexivity].
  destruct (py_get _ _) as [h | x]; simpl; [| reflexivity].
  destruct (DecisionFunnelStep_of _ _ _ _ _ _ _ _ _ _) as [e | x]; simpl;
    [| reflexivity].
  destruct (step_type step); reflexivity.
Qed.

Lemma funnel_loop_total (P : pydantic) (steps : list Step) :
  forallb (step_reconstructs P) steps = true ->
  forall acc final,
  exists es, funnel_loop P steps acc final
             = Ok ((acc ++ es)%list, fold_left (fun f s => next_final s f) steps final)
             /\ length es = length steps.
Proof.
  induction steps as [| s steps IH]; intros Hok acc final.
  - exists []. rewrite app_nil_r. split; reflexivity.
  - simpl in Hok. apply andb_true_iff in Hok as [Hs Hrest].
    simpl. rewrite funnel_step_final. unfold step_reconstructs in Hs.
    destruct (funnel_step P s PNone) as [[e f0] | x]; [| discriminate]. simpl.
    destruct (IH Hrest (acc ++ [e])%list (next_final s final)) as (es & Heq & Hlen).
    exists (e :: es). rewrite Heq, <- app_assoc. simpl.
    split; [reflexivity | congruence].
Qed.

Lemma forallb_well_formed_reconstructs (P : pydantic) (steps : list Step) :
  forallb well_formed steps = true -> forallb (step_reconstructs P) steps = true.
Proof.
  induction steps as [| s steps IH]; [reflexivity |].
  cbn [forallb]. intros H. apply andb_true_iff in H as [Hs Hrest].
  rewrite (well_formed_reconstructs P s Hs), (IH Hrest). reflexivity.
Qed.



(** The running [final_output] over records that follow the data model is
    a mapping, or still absent. *)
Lemma fold_final_mapping (steps : list Step) (final : pyval) :
  forallb well_formed steps = true ->
  mapping_or_none final = true ->
  mapping_or_none (fold_left (fun f s => next_final s f) steps final) = true.
Proof.
  revert final. induction steps as [| s steps IH]; intros final Hw Hf; [exact Hf |].
  cbn [forallb] in Hw. apply andb_true_iff in Hw as [Hs Hrest].
  cbn [fold_left]. apply (IH _ Hrest).
  unfold next_final. destruct (step_type s); try exact Hf.
  unfold well_formed in Hs. rewrite !andb_true_iff in Hs.
  destruct Hs as [[[[[[[[[[[[[_ _] Ho] _] _] _] _] _] _] _] _] _] _] _].
  destruct (py_or_mapping _ Ho) as (d & -> & _). reflexivity.
Qed.

(** The reply for a run and steps that follow the data model. *)
Lemma analyze_run_well_formed (P : pydantic) (run : Run) (steps : list Step) :
  well_formed_run run = true ->
  forallb well_formed steps = true ->
  exists es,
    funnel_loop P steps [] PNone
    = Ok (es, fold_left (fun f s => next_final s f) steps PNone)
    /\ length es = length steps
    /\ analyze_run P (Some run) steps
       = Ok (mkAnalyze (run_id run) (run_name run) (run_status run) (total_cost run)
               es (fold_left (fun f s => next_final s f) steps PNone)).
Proof.
  intros Hrun Hsteps.
  destruct (funnel_loop_total P steps (forallb_well_formed_reconstructs P steps Hsteps)
              [] PNone) as (es & Heq & Hlen).
  cbn [app] in Heq. exists es. split; [exact Heq |]. split; [exact Hlen |].
  unfold analyze_run. rewrite Heq. cbn [bind fst snd].
  unfold well_formed_run in Hrun. apply andb_true_iff in Hrun as [Hn Ht].
  apply AnalyzeResponseSchema_of_valid.
  - apply validate_is_str, Hn.
  - apply validate_is_float, Ht.
  - apply validate_mapping_or_none, fold_final_mapping; [exact Hsteps | reflexivity].
Qed.

(** C5, as stated, fails: the candidate is [outputs or {}], so a last
    LOGIC step whose outputs are null is answered with the empty mapping,
    not with its outputs. *)
Lemma null_outputs_final_output_differs :
  ~ (forall P run steps pre s post resp,
        steps = (pre ++ s :: post)%list ->
        step_type s = LOGIC ->
        (forall t, In t post -> step_type t <> LOGIC) ->
        analyze_run P (Some run) steps = Ok resp ->
        final_output resp = outputs s).
Proof.
  intros H.
  specialize (H demo_pydantic demo_run
                [logic_step "11111111111141118111111111111111" PNone] []
                (logic_step "11111111111141118111111111111111" PNone) [] _
                eq_refl eq_refl (fun t (Hin : In t []) => match Hin with end)
                eq_refl).
  discriminate H.
Qed.




End FunnelProps.

(** ** Ingest *)

Module IngestProps.
Import Py Backend Scenarios.
Local Open Scope py_scope.

(** The two events of [demo_session], as they arrive. *)
Lemma demo_batch_events :
  demo_batch =
    [mkEvent "step_complete"
       [("id", PStr "5f0c2a9e-7b3d-4c1e-8a6f-0b1d2c3e4f50");
        ("run_id", PStr "0a1b2c3d-4e5f-4071-8293-a4b5c6d7e8f9");
        ("name", PStr "generate_keywords"); ("type", PStr "llm");
        ("reasoning", PNone); ("inputs", PNone);
        ("started_at", PStr "2024-01-01T00:00:01+00:00");
        ("cost", PFloat 0.5);
        ("completed_at", PStr "2024-01-01T00:00:02+00:00")];
     mkEvent "run_complete"
       [("id", PStr "0a1b2c3d-4e5f-4071-8293-a4b5c6d7e8f9");
        ("name", PStr "competitor_selection"); ("tags", PDict []);
        ("status", PStr "COMPLETED");
        ("started_at", PStr "2024-01-01T00:00:00+00:00");
        ("steps", PList []);
        ("completed_at", PStr "2024-01-01T00:00:03+00:00")]].
Proof. vm_compute. reflexivity. Qed.

(** A [run_complete] event for a stored run overwrites the stored total
    with the event's [total_cost], which is 0.0 when the event has none:
    whatever the steps had added before is gone. *)
Lemma run_complete_resets_total (d : dict) (db : session) (rid : uuid) (run : Run) :
  dict_item d "id" = Ok (PStr rid) ->
  forall h, UUID (PStr rid) = Ok h ->
  runs db !! h = Some run ->
  run_id run = h ->
  dict_find d "total_cost" = None ->
  exists db', ingest_run_complete d db = Ok db'
              /\ stored_total db' h = Some (PFloat 0).
Proof.
  intros Hid h Hh Hrun Hrid Hnone. unfold ingest_run_complete.
  rewrite Hid. cbn [bind]. rewrite Hh. cbn [bind]. rewrite Hrun.
  eexists. split; [reflexivity |].
  unfold stored_total, set_run. simpl. rewrite Hrid, lookup_insert_eq. simpl.
  unfold dict_get_default. rewrite Hnone. reflexivity.
Qed.

(** C1 (the code departs from the claim): the stored [total_cost] is not
    the sum of the costs of the run's stored steps.  Ingesting the batch
    the client sends for [demo_session] (step first, run last), the step
    finds no run to add its cost to, and the run is then created with a
    total of 0.0.  Where a step did add its cost to a stored run, a later
    [run_complete] for that run resets the total to 0.0. *)
Theorem total_cost_not_sum_of_step_costs :
  (let db := ingest_requests [demo_batch] empty_store in
   stored_total db rid1 = Some (PFloat 0)
   /\ step_costs db rid1 = [PFloat 0.5])
  /\ (let db := ingest_requests [[run_event]; [step_event]] empty_store in
      stored_total db rid1 = Some (PFloat 0.5)
      /\ step_costs db rid1 = [PFloat 0.5]
      /\ let db' := ingest_requests [[run_event]] db in
         stored_total db' rid1 = Some (PFloat 0)
         /\ step_costs db' rid1 = [PFloat 0.5]).
Proof.
  vm_compute. repeat split.
Qed.

End IngestProps.

(** ** SDK client *)

Module SdkProps.
Import Py Sdk.
Local Open Scope py_scope.

(** *** The rejection histogram *)

Lemma hist_get_set_eq (h : list (string * Z)) (k : string) (n dflt : Z) :
  hist_get (hist_set h k n) k dflt = n.
Proof.
  induction h as [| [k' n'] h IH]; simpl.
  - rewrite String.eqb_refl. reflexivity.
  - destruct (String.eqb k k') eqn:E; simpl; rewrite E; [reflexivity | exact IH].
Qed.

Lemma hist_get_set_ne (h : list (string * Z)) (k k' : string) (n dflt : Z) :
  k <> k' -> hist_get (hist_set h k n) k' dflt = hist_get h k' dflt.
Proof.
  intros Hne. induction h as [| [k0 n0] h IH]; simpl.
  - destruct (String.eqb_spec k' k); [congruence | reflexivity].
  - destruct (String.eqb_spec k k0) as [-> | Hk]; simpl.
    + destruct (String.eqb_spec k' k0); [congruence | reflexivity].
    + destruct (String.eqb k' k0); [reflexivity | exact IH].
Qed.

Lemma hist_total_incr (h : list (string * Z)) (k : string) :
  hist_total (hist_set h k (hist_get h k 0 + 1)) = (hist_total h + 1)%Z.
Proof.
  induction h as [| [k' n'] h IH]; simpl; [reflexivity |].
  destruct (String.eqb k k'); simpl; [lia | rewrite IH; lia].
Qed.

(** *** Dictionaries *)

Lemma dict_find_set_eq (d : dict) (k : string) (v : pyval) :
  dict_find (dict_set d k v) k = Some v.
Proof.
  induction d as [| [k' v'] d IH]; simpl.
  - rewrite String.eqb_refl. reflexivity.
  - destruct (String.eqb k k') eqn:E; simpl; rewrite E; [reflexivity | exact IH].
Qed.

Lemma dict_find_set_ne (d : dict) (k k' : string) (v : pyval) :
  k <> k' -> dict_find (dict_set d k v) k' = dict_find d k'.
Proof.
  intros Hne. induction d as [| [k0 v0] d IH]; simpl.
  - destruct (String.eqb_spec k' k); [congruence | reflexivity].
  - destruct (String.eqb_spec k k0) as [-> | Hk]; simpl.
    + destruct (String.eqb_spec k' k0); [congruence | reflexivity].
    + destruct (String.eqb k' k0); [reflexivity | exact IH].
Qed.

Lemma dict_get_set_eq (d : dict) (k : string) (v : pyval) :
  dict_get (dict_set d k v) k = v.
Proof. unfold dict_get, dict_get_default. rewrite dict_find_set_eq. reflexivity. Qed.

Lemma dict_get_set_ne (d : dict) (k k' : string) (v : pyval) :
  k <> k' -> dict_get (dict_set d k v) k' = dict_get d k'.
Proof.
  intros Hne. unfold dict_get, dict_get_default.
  rewrite dict_find_set_ne by exact Hne. reflexivity.
Qed.

Section Summarizer.

Context {T : Type} (filter_fn : T -> bool * option string).

Lemma classify_loop_survivors (cs surv : list T) (hist : list (string * Z)) :
  fst (classify_loop T filter_fn cs surv hist)
  = (surv ++ List.filter (accepted filter_fn) cs)%list.
Proof.
  revert surv hist. induction cs as [| c cs IH]; intros surv hist; simpl.
  - rewrite app_nil_r. reflexivity.
  - unfold accepted. destruct (filter_fn c) as [[|] reason]; simpl.
    + rewrite IH, <- app_assoc. reflexivity.
    + apply IH.
Qed.

Lemma classify_loop_total (cs surv : list T) (hist : list (string * Z)) :
  hist_total (snd (classify_loop T filter_fn cs surv hist))
  = (hist_total hist + Z.of_nat (length cs)
     - Z.of_nat (length (List.filter (accepted filter_fn) cs)))%Z.
Proof.
  revert surv hist. induction cs as [| c cs IH]; intros surv hist; simpl.
  - lia.
  - unfold accepted. destruct (filter_fn c) as [[|] reason]; simpl.
    + rewrite IH. unfold accepted. lia.
    + rewrite IH, hist_total_incr. unfold accepted. lia.
Qed.

Lemma classify_loop_key (cs surv : list T) (hist : list (string * Z)) (k : string) :
  hist_get (snd (classify_loop T filter_fn cs surv hist)) k 0
  = (hist_get hist k 0 + rejects_keyed reason_key filter_fn k cs)%Z.
Proof.
  revert surv hist. induction cs as [| c cs IH]; intros surv hist.
  - unfold rejects_keyed. simpl. lia.
  - unfold rejects_keyed in *. simpl. unfold accepted in *.
    destruct (filter_fn c) as [[|] reason] eqn:E; simpl.
    + apply IH.
    + rewrite IH. destruct (String.eqb_spec (reason_key reason) k) as [-> | Hne].
      * rewrite hist_get_set_eq. simpl. lia.
      * rewrite hist_get_set_ne by exact Hne. lia.
Qed.

Lemma pure_filter_is_filter (cs : list T) :
  pure_filter T filter_fn cs = List.filter (accepted filter_fn) cs.
Proof.
  induction cs as [| c cs IH]; simpl; [reflexivity |].
  unfold accepted. destruct (fst (filter_fn c)); rewrite IH; reflexivity.
Qed.

End Summarizer.

Lemma overflow_threshold_large : (1 < overflow_threshold)%Z.
Proof. reflexivity. Qed.

(** The drop rate of a summary is always defined: the quotient lies
    between 0 and 1. *)
Lemma summary_drop_rate_total (total survivors : Z) :
  (0 <= survivors <= total)%Z ->
  exists dr, summary_drop_rate total survivors = Ok dr
             /\ (total = 0%Z -> dr = 0%float)
             /\ ((0 < total)%Z -> int_truediv (total - survivors) total = Ok dr).
Proof.
  intros Hb. unfold summary_drop_rate.
  destruct (0 <? total)%Z eqn:Hpos.
  - apply Z.ltb_lt in Hpos. unfold int_truediv.
    destruct (total =? 0)%Z eqn:Hz; [apply Z.eqb_eq in Hz; lia |].
    pose proof overflow_threshold_large as Hth.
    generalize dependent overflow_threshold. intros th Hth.
    destruct (th * Z.abs total <=? Z.abs (total - survivors))%Z eqn:Hov.
    + apply Z.leb_le in Hov. nia.
    + eexists. split; [reflexivity |]. split; [lia | reflexivity].
  - apply Z.ltb_ge in Hpos. exists 0%float.
    split; [reflexivity |]. split; [reflexivity | lia].
Qed.

Section Client.

Variable uuid4 : nat -> string.
Variable isoformat_now : nat -> string.
Variable T : Type.
Variable json_of : T -> option pyval.
Variable str_of : T -> string.
Variable str_of_list : list T -> string.
Variable repr_of_dict : list (string * Z) -> string.
Variable filter_fn : T -> bool * option string.

Local Abbreviation process_candidates :=
  (Sdk.process_candidates uuid4 isoformat_now T json_of str_of str_of_list
     repr_of_dict filter_fn).
Local Abbreviation summary_record :=
  (Sdk.summary_record T json_of str_of str_of_list repr_of_dict).
Local Abbreviation survivors_of cs := (List.filter (accepted filter_fn) cs).
Local Abbreviation histogram_of cs := (snd (classify_loop T filter_fn cs [] [])).

Lemma survivors_le (cs : list T) :
  (0 <= Z.of_nat (length (survivors_of cs)) <= Z.of_nat (length cs))%Z.
Proof.
  split; [lia |]. apply inj_le. induction cs as [| c cs IH]; simpl; [lia |].
  destruct (accepted filter_fn c); simpl; lia.
Qed.

Lemma process_candidates_inactive (cs : list T) (step_name : option string) (w : world) :
  current_run w = None ->
  process_candidates cs step_name w = (Ok (survivors_of cs), w).
Proof.
  intros Hnone. unfold Sdk.process_candidates. rewrite Hnone.
  rewrite pure_filter_is_filter. reflexivity.
Qed.

(** What one tracked summarization does to the world. *)
Lemma process_candidates_tracked (cs : list T) (step_name : option string)
  (w : world) (run_ref : ref) (d : dict) (rid : pyval) :
  current_run w = Some run_ref ->
  heap w !! run_ref = Some d ->
  dict_find d "id" = Some rid ->
  exists dr name,
    summary_drop_rate (Z.of_nat (length cs)) (Z.of_nat (length (survivors_of cs))) = Ok dr
    /\ name = match step_name with
              | Some n => if String.eqb n EmptyString then "filter_candidates" else n
              | None => "filter_candidates"
              end
    /\ process_candidates cs step_name w
       = (Ok (survivors_of cs),
          mkWorld
            (<[next_ref w :=
                 summary_record (uuid4 (uuid_calls w)) rid name cs (survivors_of cs)
                   (histogram_of cs) dr
                   (isoformat_now (clock_calls w))
                   (isoformat_now (S (clock_calls w)))]> (heap w))
            (S (next_ref w)) (current_run w) (current_step w)
            (queue w ++ [("step_complete", next_ref w)])%list
            (S (uuid_calls w)) (S (S (clock_calls w))) (requests w)).
Proof.
  intros Hrun Hd Hid.
  destruct (summary_drop_rate_total _ _ (survivors_le cs)) as (dr & Hdr & _).
  exists dr. eexists. split; [exact Hdr |]. split; [reflexivity |].
  unfold Sdk.process_candidates. rewrite Hrun.
  pose proof (classify_loop_survivors filter_fn cs [] []) as Hs.
  destruct (classify_loop T filter_fn cs [] []) as [surv hist]. simpl in Hs. subst surv.
  cbn [fresh_uuid heap]. rewrite Hd. cbn [from_option id].
  unfold dict_item. rewrite Hid, Hdr. simpl. rewrite ?Hrun. reflexivity.
Qed.

(** C4 (amended): [process_candidates] returns exactly the candidates the
    classifier accepts, in their original order, with or without a current
    run; the values of the histogram it records sum to the number of
    candidates minus the number of survivors; and every rejected candidate
    is counted under its reason, or under "unknown" when the reason is
    absent or the empty string. *)
Theorem summarize_returns_accepted (cs : list T) (step_name : option string) (w : world) :
  (current_run w = None ->
   process_candidates cs step_name w = (Ok (survivors_of cs), w))
  /\ (forall run_ref d rid,
        current_run w = Some run_ref ->
        heap w !! run_ref = Some d ->
        dict_find d "id" = Some rid ->
        exists w' rec md,
          process_candidates cs step_name w = (Ok (survivors_of cs), w')
          /\ queue w' = (queue w ++ [("step_complete", next_ref w)])%list
          /\ heap w' !! next_ref w = Some rec
          /\ dict_get rec "metadata" = PDict md
          /\ dict_get md "rejection_histogram" = hist_to_py (histogram_of cs))
  /\ hist_total (histogram_of cs)
     = (Z.of_nat (length cs) - Z.of_nat (length (survivors_of cs)))%Z
  /\ (forall k, hist_get (histogram_of cs) k 0
                = rejects_keyed reason_key filter_fn k cs).
Proof.
  split; [apply process_candidates_inactive |].
  split.
  - intros run_ref d rid Hrun Hd Hid.
    destruct (process_candidates_tracked cs step_name w run_ref d rid Hrun Hd Hid)
      as (dr & name & _ & _ & Heq).
    eexists; eexists; eexists. split; [exact Heq |]. cbn [queue heap].
    split; [reflexivity |]. split; [apply lookup_insert_eq |].
    split; reflexivity.
  - split.
    + rewrite classify_loop_total. simpl. lia.
    + intros k. rewrite classify_loop_key. simpl. lia.
Qed.

(** C9 (the code departs from the claim in one field): with a run current
    and its record carrying an id, a summarization enqueues exactly one
    [step_complete] event whose record has type "filter", both timestamps,
    and a metadata mapping with [total_count], the histogram and
    [drop_rate] = (total - survivors) / total, or 0.0 for an empty input.
    The metadata has no [survivor_count]: the client writes that number
    into the outputs of the record only. *)
Theorem summary_record_fields (cs : list T) (step_name : option string) (w : world)
  (run_ref : ref) (d : dict) (rid : pyval) :
  current_run w = Some run_ref ->
  heap w !! run_ref = Some d ->
  dict_find d "id" = Some rid ->
  exists w' rec md dr,
    process_candidates cs step_name w = (Ok (survivors_of cs), w')
    /\ queue w' = (queue w ++ [("step_complete", next_ref w)])%list
    /\ heap w' !! next_ref w = Some rec
    /\ dict_get rec "type" = PStr "filter"
    /\ dict_get rec "run_id" = rid
    /\ dict_get rec "started_at" = PStr (isoformat_now (clock_calls w))
    /\ dict_get rec "completed_at" = PStr (isoformat_now (S (clock_calls w)))
    /\ dict_get rec "metadata" = PDict md
    /\ dict_get md "total_count" = PInt (Z.of_nat (length cs))
    /\ dict_get md "rejection_histogram" = hist_to_py (histogram_of cs)
    /\ dict_get md "drop_rate" = PFloat dr
    /\ (length cs = 0%nat -> dr = 0%float)
    /\ ((0 < length cs)%nat ->
        int_truediv (Z.of_nat (length cs) - Z.of_nat (length (survivors_of cs)))
          (Z.of_nat (length cs)) = Ok dr)
    /\ dict_find md "survivor_count" = None
    /\ dict_get rec "outputs"
       = PDict [("survivor_count", PInt (Z.of_nat (length (survivors_of cs))));
                ("survivors",
                 _serialize_list T json_of str_of_list (survivors_of cs))].
Proof.
  intros Hrun Hd Hid.
  destruct (process_candidates_tracked cs step_name w run_ref d rid Hrun Hd Hid)
    as (dr & name & Hdr & _ & Heq).
  destruct (summary_drop_rate_total _ _ (survivors_le cs)) as (dr' & Hdr' & Hz & Hp).
  rewrite Hdr in Hdr'. injection Hdr' as <-.
  eexists; eexists; eexists; exists dr. split; [exact Heq |]. cbn [queue heap].
  split; [reflexivity |]. split; [apply lookup_insert_eq |].
  repeat (split; [reflexivity |]).
  split; [intros H0; apply Hz; lia |].
  split; [intros Hpos; apply Hp; lia |].
  split; reflexivity.
Qed.

Section Scopes.

Context {A : Type}.

Local Abbreviation step :=
  (@Sdk.step uuid4 isoformat_now T json_of str_of A).
Local Abbreviation start_run := (@Sdk.start_run uuid4 isoformat_now A).

(** C8: with no run current, a step scope is its body run on an inert
    (empty) record: it draws no identifier, reads no clock, enqueues
    nothing and leaves the current step alone; and [process_candidates]
    returns the accepted candidates and leaves the world as it was. *)
Theorem no_run_no_tracking (name step_type : string) (reasoning : pyval)
  (inputs : option T) (cost token_usage : pyval) (body : ref -> M A)
  (cs : list T) (step_name : option string) (w : world) :
  current_run w = None ->
  (exists w0,
      step name step_type reasoning inputs cost token_usage body w
      = body (next_ref w) w0
      /\ heap w0 !! next_ref w = Some []
      /\ (forall l, l <> next_ref w -> heap w0 !! l = heap w !! l)
      /\ queue w0 = queue w
      /\ current_run w0 = None
      /\ current_step w0 = current_step w
      /\ uuid_calls w0 = uuid_calls w
      /\ clock_calls w0 = clock_calls w
      /\ requests w0 = requests w)
  /\ process_candidates cs step_name w = (Ok (survivors_of cs), w).
Proof.
  intros Hnone. split; [| apply process_candidates_inactive; exact Hnone].
  unfold Sdk.step. rewrite Hnone. simpl.
  eexists. split; [reflexivity |]. cbn.
  split; [apply lookup_insert_eq |].
  split; [intros l Hl; apply lookup_insert_ne; congruence |].
  rewrite Hnone. repeat split.
Qed.

(** C6 (amended): when the body of a run scope, or of a step scope entered
    while a run is current, raises an [Exception] [e], the scope marks its
    record (status FAILED for a run; the error text [str(e)] and the
    completion time for both), enqueues [run_failed] resp. [step_failed]
    for that record, restores the association that was current before the
    scope, and raises the same [e]. *)
Theorem failing_scope_is_recorded (name step_type : string) (tags reasoning : pyval)
  (inputs : option T) (cost token_usage : pyval) (body : ref -> M A) (w : world) :
  (exists w_in,
      current_run w_in = Some (next_ref w)
      /\ heap w_in !! next_ref w
         = Some (run_record (uuid4 (uuid_calls w)) name tags
                   (isoformat_now (clock_calls w)))
      /\ queue w_in = queue w
      /\ forall e w1,
          is_Exception e = true ->
          body (next_ref w) w_in = (Raise e, w1) ->
          exists w',
            start_run name tags body w = (Raise e, w')
            /\ current_run w' = current_run w
            /\ queue w' = (queue w1 ++ [("run_failed", next_ref w)])%list
            /\ heap w' !! next_ref w
               = failed_run e (isoformat_now (clock_calls w1))
                   <$> heap w1 !! next_ref w
            /\ forall rec,
                heap w' !! next_ref w = Some rec ->
                dict_get rec "status" = PStr "FAILED"
                /\ dict_get rec "error" = PStr (exn_str e)
                /\ dict_get rec "completed_at"
                   = PStr (isoformat_now (clock_calls w1)))
  /\ (forall run_ref d rid c,
        current_run w = Some run_ref ->
        heap w !! run_ref = Some d ->
        dict_find d "id" = Some rid ->
        step_cost cost token_usage = Ok c ->
        exists w_in,
          current_step w_in = Some (next_ref w)
          /\ heap w_in !! next_ref w
             = Some (step_record T json_of str_of (uuid4 (uuid_calls w)) rid name
                       step_type reasoning inputs
                       (isoformat_now (clock_calls w)) c)
          /\ queue w_in = queue w
          /\ forall e w1,
              is_Exception e = true ->
              body (next_ref w) w_in = (Raise e, w1) ->
              exists w',
                step name step_type reasoning inputs cost token_usage body w
                = (Raise e, w')
                /\ current_step w' = current_step w
                /\ queue w' = (queue w1 ++ [("step_failed", next_ref w)])%list
                /\ heap w' !! next_ref w
                   = failed_step e (isoformat_now (clock_calls w1))
                       <$> heap w1 !! next_ref w
                /\ forall rec,
                    heap w' !! next_ref w = Some rec ->
                    dict_get rec "error" = PStr (exn_str e)
                    /\ dict_get rec "completed_at"
                       = PStr (isoformat_now (clock_calls w1))).
Proof.
  split.
  - eexists. split; [| split; [| split]];
      [ | | | intros e w1 HE Hbody; unfold Sdk.start_run; cbn; rewrite Hbody, HE ].
    + reflexivity.
    + cbn. apply lookup_insert_eq.
    + reflexivity.
    + eexists. split; [reflexivity |]. cbn.
      split; [reflexivity |]. split; [reflexivity |].
      assert (Hh : alter (fun d => dict_set d "completed_at"
                                     (PStr (isoformat_now (clock_calls w1))))
                     (next_ref w)
                     (alter (fun d => dict_set d "error" (PStr (exn_str e)))
                        (next_ref w)
                        (alter (fun d => dict_set d "status" (PStr "FAILED"))
                           (next_ref w) (heap w1))) !! next_ref w
                   = failed_run e (isoformat_now (clock_calls w1))
                       <$> heap w1 !! next_ref w).
      { rewrite !lookup_alter_eq. destruct (heap w1 !! next_ref w); reflexivity. }
      split; [exact Hh |].
      intros rec Hrec. rewrite Hh in Hrec.
      destruct (heap w1 !! next_ref w) as [d1 |]; [| discriminate].
      injection Hrec as <-. unfold failed_run.
      rewrite dict_get_set_eq.
      rewrite !dict_get_set_ne by discriminate.
      rewrite dict_get_set_eq.
      rewrite !dict_get_set_ne by discriminate.
      rewrite dict_get_set_eq. repeat split.
  - intros run_ref d rid c Hrun Hd Hid Hc.
    eexists. split; [| split; [| split]];
      [ | | | intros e w1 HE Hbody; unfold Sdk.step; rewrite Hrun;
              cbn [fresh_uuid heap]; rewrite Hd; cbn [from_option id];
              unfold dict_item; rewrite Hid, Hc; cbn; rewrite Hbody, HE ].
    + reflexivity.
    + cbn. apply lookup_insert_eq.
    + reflexivity.
    + eexists. split; [reflexivity |]. cbn.
      split; [reflexivity |]. split; [reflexivity |].
      assert (Hh : alter (fun d => dict_set d "completed_at"
                                     (PStr (isoformat_now (clock_calls w1))))
                     (next_ref w)
                     (alter (fun d => dict_set d "error" (PStr (exn_str e)))
                        (next_ref w) (heap w1)) !! next_ref w
                   = failed_step e (isoformat_now (clock_calls w1))
                       <$> heap w1 !! next_ref w).
      { rewrite !lookup_alter_eq. destruct (heap w1 !! next_ref w); reflexivity. }
      split; [exact Hh |].
      intros rec Hrec. rewrite Hh in Hrec.
      destruct (heap w1 !! next_ref w) as [d1 |]; [| discriminate].
      injection Hrec as <-. unfold failed_step.
      rewrite dict_get_set_eq.
      rewrite !dict_get_set_ne by discriminate.
      rewrite dict_get_set_eq. repeat split.
Qed.

End Scopes.

End Client.

(** *** Event batcher *)

Section Batcher.

Variable time_time : nat -> float.
Variable http_post : nat -> list queued -> result Z.

(** What the transport raises (a timeout, a connection error) is an
    [Exception]. *)
Hypothesis transport_errors :
  forall n b e, http_post n b = Raise e -> is_Exception e = true.

Lemma flush_batch_absorbs (b : list queued) (w : world) :
  exists w',
    _flush_batch http_post b w = (Ok tt, w')
    /\ requests w' = (requests w ++ match b with [] => [] | _ => [b] end)%list
    /\ queue w' = queue w
    /\ heap w' = heap w
    /\ current_run w' = current_run w
    /\ current_step w' = current_step w.
Proof.
  unfold _flush_batch. destruct b as [| ev b].
  - exists w. rewrite app_nil_r. repeat split.
  - destruct (bind (http_post (length (requests w)) (ev :: b))
                (fun status => raise_for_status status)) as [u | e] eqn:Hpost.
    + eexists. split; [reflexivity | repeat split].
    + assert (HE : is_Exception e = true).
      { unfold bind in Hpost.
        destruct (http_post (length (requests w)) (ev :: b)) as [status | e0] eqn:Hp.
        - unfold raise_for_status in Hpost.
          destruct ((200 <=? status)%Z && (status <=? 299)%Z); [discriminate |].
          injection Hpost as <-. reflexivity.
        - injection Hpost as <-. exact (transport_errors _ _ _ Hp). }
      rewrite HE. eexists. split; [reflexivity | repeat split].
Qed.

(** C7: whatever the transport answers or raises (a timeout, a connection
    error, a non-success status), [_flush_batch] returns normally after
    exactly one POST of a non-empty batch and puts nothing back on the
    queue; and a turn of the worker that flushes goes on with an empty
    batch, so the events of a failed delivery are gone and are never sent
    again. *)
Theorem failed_delivery_discards_batch (b : list queued) (w : world)
  (batch_size : nat) (flush_interval : float) (st : worker) :
  (exists w',
      _flush_batch http_post b w = (Ok tt, w')
      /\ requests w' = (requests w ++ match b with [] => [] | _ => [b] end)%list
      /\ queue w' = queue w
      /\ heap w' = heap w
      /\ current_run w' = current_run w
      /\ current_step w' = current_step w)
  /\ (let arrived := match queue w with ev :: _ => [ev] | [] => [] end in
      let full := (batch st ++ arrived)%list in
      exists st' w',
        worker_turn time_time http_post batch_size flush_interval st w = (Ok st', w')
        /\ queue w' = tl (queue w)
        /\ ((batch st' = [] /\ requests w' = (requests w ++ [full])%list /\ full <> [])
            \/ (batch st' = full /\ requests w' = requests w))
        /\ (batch_size <= length full -> full <> [] ->
            batch st' = [] /\ requests w' = (requests w ++ [full])%list)).
Proof.
  split; [apply flush_batch_absorbs |].
  cbv zeta. unfold worker_turn.
  set (arrived := match queue w with ev :: _ => [ev] | [] => [] end).
  set (full := (batch st ++ arrived)%list).
  assert (Hsplit :
    (let '(event, batch, w0) :=
       match queue w with
       | ev :: q => (Some ev, (batch st ++ [ev])%list, set_queue q w)
       | [] => (None, batch st, w)
       end in (batch, queue w0, requests w0))
    = (full, tl (queue w), requests w)).
  { subst full arrived. destruct (queue w) eqn:E; cbn; rewrite ?E, ?app_nil_r; reflexivity. }
  destruct (match queue w with
            | ev :: q => (Some ev, (batch st ++ [ev])%list, set_queue q w)
            | [] => (None, batch st, w)
            end) as [[event b0] w0].
  injection Hsplit as -> Hq Hr.
  match goal with
  | |- context [if ?c then _ else _] => destruct c eqn:Hflush
  end.
  - destruct (flush_batch_absorbs full (tick w0)) as (w' & Hfl & Hreq & Hqueue & _).
    rewrite Hfl. apply andb_true_iff in Hflush as [_ Hlen].
    apply Nat.ltb_lt in Hlen.
    assert (Hne : full <> []) by (destruct full; [simpl in Hlen; lia | discriminate]).
    assert (Hreq' : requests w' = (requests w ++ [full])%list).
    { rewrite Hreq. cbn. rewrite Hr. destruct full; [congruence | reflexivity]. }
    eexists; eexists. split; [reflexivity |].
    split; [rewrite Hqueue; exact Hq |].
    split; [left; repeat split; assumption |].
    intros _ _. split; [reflexivity | exact Hreq'].
  - eexists; eexists. split; [reflexivity |]. cbn.
    split; [exact Hq |].
    split; [right; split; [reflexivity | exact Hr] |].
    intros Hsize Hne. exfalso.
    apply andb_false_iff in Hflush.
    assert (Hpos : (0 <? length full)%nat = true).
    { apply Nat.ltb_lt. destruct full; [congruence | simpl; lia]. }
    destruct Hflush as [Hf | Hf]; [| congruence].
    apply orb_false_iff in Hf as [Hf _].
    apply Nat.leb_gt in Hf. lia.
Qed.

End Batcher.

(** *** The cost of a step *)

Lemma calculate_llm_cost_priced (d : dict) (p c : float) (price : float * float) :
  py_truediv_float (dict_get_default d "prompt" (PInt 0)) (PFloat 1000) = Ok p ->
  py_truediv_float (dict_get_default d "completion" (PInt 0)) (PFloat 1000) = Ok c ->
  priced_as d price ->
  _calculate_llm_cost (PDict d)
  = Ok (round6 (PrimFloat.add (PrimFloat.mul p (fst price))
                              (PrimFloat.mul c (snd price)))).
Proof.
  intros Hp Hc Hprice. unfold _calculate_llm_cost, py_get_default.
  cbn [bind].
  assert (Hget : pricing_get (dict_get_default d "model" (PStr "gpt-4")) = Ok price).
  { unfold dict_get_default.
    destruct Hprice as [Hm | m price Hm Hfind | m Hm Hfind | m Hm Htext Hhash];
      rewrite Hm; unfold pricing_get.
    - reflexivity.
    - rewrite Hfind. reflexivity.
    - rewrite Hfind. reflexivity.
    - destruct m; try discriminate; reflexivity. }
  rewrite Hget. cbn [bind]. rewrite Hp. cbn [bind]. rewrite Hc. reflexivity.
Qed.

(** C10, as stated, fails: a token usage that is present but empty is
    treated like an absent one, and the record gets no cost. *)
Lemma empty_token_usage_gets_no_cost :
  ~ (forall token_usage,
        token_usage <> PNone ->
        step_cost PNone token_usage
        = (c <- _calculate_llm_cost token_usage ;; Ok (Some (PFloat c)))).
Proof.
  intros H. specialize (H (PDict [])). vm_compute in H.
  assert (Hne : PDict [] <> PNone) by discriminate.
  specialize (H Hne). discriminate H.
Qed.

(** C10 (amended): a cost argument that is given becomes the cost of the
    step record whatever the token usage.  Without it, a token usage that
    is truthy (a mapping that is not empty) is priced per 1K tokens from
    the table by its model (gpt-4 prices for a model that is missing or not
    in the table) and rounded to six decimals; a model that is a list or a
    mapping cannot be looked up and raises a TypeError, and a truthy token
    usage that is no mapping raises an AttributeError.  With no cost and a
    token usage that is absent or falsy (the empty mapping), the record has
    no cost field, and the ingest side stores 0.0 for a step event without
    one. *)
Theorem step_cost_rule (cost token_usage : pyval) :
  (cost <> PNone -> step_cost cost token_usage = Ok (Some cost))
  /\ (cost = PNone -> truthy token_usage = true ->
      step_cost cost token_usage
      = (c <- _calculate_llm_cost token_usage ;; Ok (Some (PFloat c)))
      /\ (forall d p c price,
            token_usage = PDict d ->
            py_truediv_float (dict_get_default d "prompt" (PInt 0)) (PFloat 1000)
            = Ok p ->
            py_truediv_float (dict_get_default d "completion" (PInt 0)) (PFloat 1000)
            = Ok c ->
            priced_as d price ->
            step_cost cost token_usage
            = Ok (Some (PFloat (round6 (PrimFloat.add (PrimFloat.mul p (fst price))
                                                      (PrimFloat.mul c (snd price)))))))
      /\ (forall d m,
            token_usage = PDict d ->
            dict_find d "model" = Some m -> unhashable m = true ->
            step_cost cost token_usage
            = Raise (TypeError ("unhashable type: " ++ quoted (type_name m))))
      /\ (isinstance_dict token_usage = false ->
          step_cost cost token_usage = Raise (no_attribute token_usage "get")))
  /\ (cost = PNone -> truthy token_usage = false ->
      step_cost cost token_usage = Ok None)
  /\ (cost = PNone -> token_usage = PNone \/ token_usage = PDict [] ->
      step_cost cost token_usage = Ok None)
  /\ (forall (T : Type) (json_of : T -> option pyval) (str_of : T -> string)
             step_id run_id name step_type reasoning inputs t0 c,
        dict_find (step_record T json_of str_of step_id run_id name step_type
                     reasoning inputs t0 c) "cost" = c)
  /\ (forall sid rid d err st,
        dict_find d "cost" = None ->
        Backend.new_step sid rid d err = Ok st ->
        Backend.cost st = PFloat 0)
  /\ pricing = [("gpt-4", (0.03, 0.06)%float);
                ("gpt-4-turbo", (0.01, 0.03)%float);
                ("gpt-3.5-turbo", (0.0015, 0.002)%float);
                ("gpt-4o", (0.005, 0.015)%float)].
Proof.
  split; [| split; [| split; [| split; [| split; [| split]]]]].
  - intros Hc. unfold step_cost.
    rewrite (FunnelProps.is_none_false _ Hc), andb_false_r. reflexivity.
  - intros -> Ht.
    assert (Hstep : step_cost PNone token_usage
                    = (c <- _calculate_llm_cost token_usage ;; Ok (Some (PFloat c)))).
    { unfold step_cost. rewrite Ht. reflexivity. }
    split; [exact Hstep |]. split; [| split].
    + intros d p c price -> Hp Hc Hprice. rewrite Hstep.
      rewrite (calculate_llm_cost_priced d p c price Hp Hc Hprice). reflexivity.
    + intros d m -> Hm Hun. rewrite Hstep.
      unfold _calculate_llm_cost, py_get_default, dict_get_default. cbn [bind].
      rewrite Hm. destruct m; try discriminate; reflexivity.
    + intros Hnd. rewrite Hstep.
      destruct token_usage; try discriminate; reflexivity.
  - intros -> Hf. unfold step_cost. rewrite Hf. reflexivity.
  - intros -> [-> | ->]; reflexivity.
  - intros T json_of str_of step_id run_id name step_type reasoning inputs t0 c.
    unfold step_record. destruct c as [v |]; [| reflexivity].
    apply dict_find_set_eq.
  - intros sid rid d err st Hnone Hnew. unfold Backend.new_step in Hnew.
    destruct (dict_item d "name") as [n |]; [| discriminate]. cbn [bind] in Hnew.
    destruct (dict_item d "type") as [ty |]; [| discriminate]. cbn [bind] in Hnew.
    destruct (Backend.StepType_of ty) as [t |]; [| discriminate]. cbn [bind] in Hnew.
    injection Hnew as <-. cbn. unfold dict_get_default. rewrite Hnone. reflexivity.
  - reflexivity.
Qed.

(** C4, as stated, fails: a candidate rejected with the empty string as
    its reason is counted under "unknown", not under its reason. *)
Lemma empty_reason_counted_as_unknown :
  ~ (forall (T : Type) (filter_fn : T -> bool * option string) (cs : list T) (k : string),
        hist_get (snd (classify_loop T filter_fn cs [] [])) k 0
        = rejects_keyed stated_key filter_fn k cs).
Proof.
  intros H. specialize (H Z Scenarios.blank_reason_filter [1%Z] EmptyString).
  vm_compute in H. discriminate H.
Qed.

(** C6, as stated, fails for a step scope entered while no run is current:
    its body's exception passes through, but nothing is enqueued. *)
Lemma inert_step_scope_enqueues_nothing :
  ~ (forall (name step_type : string) (e : exn) (w : world),
        exists l w',
          Sdk.step Scenarios.demo_uuid4 Scenarios.demo_now Z Scenarios.demo_json
            Scenarios.demo_str name step_type PNone None PNone PNone
            (fun _ w1 => (@Raise unit e, w1)) w
          = (Raise e, w')
          /\ queue w' = (queue w ++ [("step_failed", l)])%list).
Proof.
  intros H.
  destruct (H "rank_and_select" "logic" (ValueError "no candidates left")
              Scenarios.idle_world) as (l & w' & Heq & Hq).
  vm_compute in Heq. injection Heq as <-. discriminate Hq.
Qed.

(** *** The theorems at work on the scenarios *)

Lemma summarize_returns_accepted_witness :
  Sdk.process_candidates Scenarios.demo_uuid4 Scenarios.demo_now Z
    Scenarios.demo_json Scenarios.demo_str Scenarios.demo_str_list
    Scenarios.demo_repr Scenarios.demo_filter [1; 2; 3; 4; 5]%Z None
    Scenarios.idle_world
  = (Ok [3; 4; 5]%Z, Scenarios.idle_world)
  /\ exists w',
      Sdk.process_candidates Scenarios.demo_uuid4 Scenarios.demo_now Z
        Scenarios.demo_json Scenarios.demo_str Scenarios.demo_str_list
        Scenarios.demo_repr Scenarios.demo_filter [1; 2; 3; 4; 5]%Z None
        Scenarios.running_world
      = (Ok [3; 4; 5]%Z, w')
      /\ queue w' = [("step_complete", 1%nat)].
Proof.
  split.
  - destruct (summarize_returns_accepted Scenarios.demo_uuid4 Scenarios.demo_now Z
                Scenarios.demo_json Scenarios.demo_str Scenarios.demo_str_list
                Scenarios.demo_repr Scenarios.demo_filter [1; 2; 3; 4; 5]%Z None
                Scenarios.idle_world) as (H & _).
    exact (H eq_refl).
  - destruct (summarize_returns_accepted Scenarios.demo_uuid4 Scenarios.demo_now Z
                Scenarios.demo_json Scenarios.demo_str Scenarios.demo_str_list
                Scenarios.demo_repr Scenarios.demo_filter [1; 2; 3; 4; 5]%Z None
                Scenarios.running_world) as (_ & H & _).
    destruct (H 0%nat _ _ eq_refl eq_refl eq_refl) as (w' & rec & md & Heq & Hq & _).
    exists w'. split; [exact Heq | exact Hq].
Defined.

Lemma summary_record_fields_witness :
  exists w' rec md,
    Sdk.process_candidates Scenarios.demo_uuid4 Scenarios.demo_now Z
      Scenarios.demo_json Scenarios.demo_str Scenarios.demo_str_list
      Scenarios.demo_repr Scenarios.demo_filter [1; 2; 3; 4; 5]%Z None
      Scenarios.running_world
    = (Ok [3; 4; 5]%Z, w')
    /\ heap w' !! 1%nat = Some rec
    /\ dict_get rec "metadata" = PDict md
    /\ dict_get md "total_count" = PInt 5
    /\ dict_find md "survivor_count" = None.
Proof.
  destruct (summary_record_fields Scenarios.demo_uuid4 Scenarios.demo_now Z
              Scenarios.demo_json Scenarios.demo_str Scenarios.demo_str_list
              Scenarios.demo_repr Scenarios.demo_filter [1; 2; 3; 4; 5]%Z None
              Scenarios.running_world 0%nat _ _ eq_refl eq_refl eq_refl)
    as (w' & rec & md & dr & Heq & _ & Hrec & _ & _ & _ & _ & Hmd & Htc & _ & _ & _ & _ & Hsc & _).
  exists w', rec, md. repeat split; assumption.
Defined.

Lemma no_run_no_tracking_witness :
  (exists w0,
      Sdk.step Scenarios.demo_uuid4 Scenarios.demo_now Z Scenarios.demo_json
        Scenarios.demo_str "validate_input" "logic" PNone None PNone PNone
        Scenarios.quiet_body Scenarios.idle_world
      = (Ok tt, w0)
      /\ queue w0 = [])
  /\ Sdk.process_candidates Scenarios.demo_uuid4 Scenarios.demo_now Z
       Scenarios.demo_json Scenarios.demo_str Scenarios.demo_str_list
       Scenarios.demo_repr Scenarios.demo_filter [1; 2; 3; 4; 5]%Z None
       Scenarios.idle_world
     = (Ok [3; 4; 5]%Z, Scenarios.idle_world).
Proof.
  destruct (no_run_no_tracking Scenarios.demo_uuid4 Scenarios.demo_now Z
              Scenarios.demo_json Scenarios.demo_str Scenarios.demo_str_list
              Scenarios.demo_repr Scenarios.demo_filter
              "validate_input" "logic" PNone None PNone PNone
              Scenarios.quiet_body [1; 2; 3; 4; 5]%Z None Scenarios.idle_world eq_refl)
    as ((w0 & Heq & _ & _ & Hq & _) & Hpc).
  split; [| exact Hpc].
  exists w0. split; [exact Heq | exact Hq].
Defined.

Lemma failing_scope_is_recorded_witness :
  (exists w',
      Sdk.start_run Scenarios.demo_uuid4 Scenarios.demo_now
        "backend_data_processing" PNone Scenarios.failing_body Scenarios.idle_world
      = (Raise (ValueError "no candidates left"), w')
      /\ current_run w' = None
      /\ queue w' = [("run_failed", 0%nat)])
  /\ (exists w',
        Sdk.step Scenarios.demo_uuid4 Scenarios.demo_now Z Scenarios.demo_json
          Scenarios.demo_str "rank_and_select" "logic" PNone None PNone PNone
          Scenarios.failing_body Scenarios.running_world
        = (Raise (ValueError "no candidates left"), w')
        /\ current_step w' = None
        /\ queue w' = [("step_failed", 1%nat)]).
Proof.
  split.
  - destruct (failing_scope_is_recorded Scenarios.demo_uuid4 Scenarios.demo_now Z
                Scenarios.demo_json Scenarios.demo_str
                "backend_data_processing" "logic" PNone PNone None PNone PNone
                Scenarios.failing_body Scenarios.idle_world)
      as ((w_in & _ & _ & Hq0 & H) & _).
    destruct (H (ValueError "no candidates left") w_in eq_refl eq_refl)
      as (w' & Heq & Hcur & Hq & _).
    exists w'. split; [exact Heq |]. split; [exact Hcur |].
    rewrite Hq, Hq0. reflexivity.
  - destruct (failing_scope_is_recorded Scenarios.demo_uuid4 Scenarios.demo_now Z
                Scenarios.demo_json Scenarios.demo_str
                "rank_and_select" "logic" PNone PNone None PNone PNone
                Scenarios.failing_body Scenarios.running_world)
      as (_ & H).
    destruct (H 0%nat _ _ None eq_refl eq_refl eq_refl eq_refl)
      as (w_in & _ & _ & Hq0 & Hbody).
    destruct (Hbody (ValueError "no candidates left") w_in eq_refl eq_refl)
      as (w' & Heq & Hcur & Hq & _).
    exists w'. split; [exact Heq |]. split; [exact Hcur |].
    rewrite Hq, Hq0. reflexivity.
Defined.

Lemma failed_delivery_discards_batch_witness :
  exists st' w',
    worker_turn Scenarios.demo_clock Scenarios.refused 2 2%float
      (mkWorker [("step_complete", 1%nat)] 9%float)
      (mkWorld ∅ 2 None None [("run_complete", 0%nat)] 2 4 [])
    = (Ok st', w')
    /\ batch st' = []
    /\ queue w' = []
    /\ requests w' = [[("step_complete", 1%nat); ("run_complete", 0%nat)]].
Proof.
  assert (Herr : forall n b e, Scenarios.refused n b = Raise e -> is_Exception e = true).
  { intros n b e H. injection H as <-. reflexivity. }
  destruct (failed_delivery_discards_batch Scenarios.demo_clock Scenarios.refused
              Herr [] (mkWorld ∅ 2 None None [("run_complete", 0%nat)] 2 4 [])
              2 2%float (mkWorker [("step_complete", 1%nat)] 9%float))
    as (_ & st' & w' & Heq & Hq & _ & Hfull).
  destruct Hfull as (Hb & Hr); [simpl; lia | discriminate |].
  exists st', w'. split; [exact Heq |]. split; [exact Hb |].
  split; [exact Hq | exact Hr].
Defined.

Lemma step_cost_rule_witness :
  step_cost (PFloat 0.25) (PDict [("prompt", PInt 1000)]) = Ok (Some (PFloat 0.25))
  /\ step_cost PNone (PDict [("prompt", PInt 1000); ("completion", PInt 500);
                             ("model", PStr "gpt-3.5-turbo")])
     = Ok (Some (PFloat 0.0025))
  /\ step_cost PNone (PDict [("prompt", PInt 1000); ("completion", PInt 500);
                             ("model", PStr "my-model")])
     = Ok (Some (PFloat 0.06))
  /\ step_cost PNone (PDict [("prompt", PInt 1000); ("completion", PInt 500);
                             ("model", PInt 4)])
     = Ok (Some (PFloat 0.06))
  /\ step_cost PNone (PDict [("prompt", PInt 1000); ("model", PList [PStr "gpt-4"])])
     = Raise (TypeError "unhashable type: 'list'")
  /\ step_cost PNone (PDict []) = Ok None
  /\ step_cost PNone PNone = Ok None.
Proof.
  split; [| split; [| split; [| split; [| split; [| split]]]]].
  - destruct (step_cost_rule (PFloat 0.25) (PDict [("prompt", PInt 1000)])) as (H & _).
    apply H. discriminate.
  - destruct (step_cost_rule PNone
                (PDict [("prompt", PInt 1000); ("completion", PInt 500);
                        ("model", PStr "gpt-3.5-turbo")])) as (_ & H & _).
    destruct (H eq_refl eq_refl) as (_ & Hcost & _).
    rewrite (Hcost _ 1%float 0.5%float (0.0015, 0.002)%float eq_refl);
      [ vm_compute; reflexivity | vm_compute; reflexivity | vm_compute; reflexivity
      | apply (priced_known _ "gpt-3.5-turbo"); reflexivity ].
  - destruct (step_cost_rule PNone
                (PDict [("prompt", PInt 1000); ("completion", PInt 500);
                        ("model", PStr "my-model")])) as (_ & H & _).
    destruct (H eq_refl eq_refl) as (_ & Hcost & _).
    rewrite (Hcost _ 1%float 0.5%float gpt4_price eq_refl);
      [ vm_compute; reflexivity | vm_compute; reflexivity | vm_compute; reflexivity
      | apply (priced_unknown _ "my-model"); reflexivity ].
  - destruct (step_cost_rule PNone
                (PDict [("prompt", PInt 1000); ("completion", PInt 500);
                        ("model", PInt 4)])) as (_ & H & _).
    destruct (H eq_refl eq_refl) as (_ & Hcost & _).
    rewrite (Hcost _ 1%float 0.5%float gpt4_price eq_refl);
      [ vm_compute; reflexivity | vm_compute; reflexivity | vm_compute; reflexivity
      | apply (priced_other _ (PInt 4)); reflexivity ].
  - destruct (step_cost_rule PNone
                (PDict [("prompt", PInt 1000); ("model", PList [PStr "gpt-4"])]))
      as (_ & H & _).
    destruct (H eq_refl eq_refl) as (_ & _ & Hraise & _).
    exact (Hraise _ (PList [PStr "gpt-4"]) eq_refl eq_refl eq_refl).
  - destruct (step_cost_rule PNone (PDict [])) as (_ & _ & H & _).
    exact (H eq_refl eq_refl).
  - destruct (step_cost_rule PNone PNone) as (_ & _ & _ & H & _).
    exact (H eq_refl (or_introl eq_refl)).
Defined.

End SdkProps.

(** ** Event batcher: the worker loop and shutdown *)

Module BatcherProps.
Import Py Sdk.
Local Open Scope py_scope.

Section Batcher.

Variable time_time : nat -> float.
Variable http_post : nat -> list (string * nat) -> result Z.

Hypothesis transport_errors :
  forall n b e, http_post n b = Raise e -> is_Exception e = true.

Local Abbreviation worker_turn := (Sdk.worker_turn time_time http_post).
Local Abbreviation worker_turns := (Sdk.worker_turns time_time http_post).
Local Abbreviation _flush_batch := (Sdk._flush_batch http_post).
Local Abbreviation shutdown := (Sdk.shutdown http_post).

Lemma flush_nonempty (b : list (string * nat)) (w : world) :
  b <> [] -> _flush_batch b w = (Ok tt, log_request b w).
Proof.
  intros Hne. unfold Sdk._flush_batch. destruct b as [| ev b]; [congruence |].
  destruct (bind (http_post (length (requests w)) (ev :: b))
              (fun status => raise_for_status status)) as [u | e] eqn:Hpost;
    [reflexivity |].
  assert (HE : is_Exception e = true).
  { unfold bind in Hpost.
    destruct (http_post (length (requests w)) (ev :: b)) as [status | e0] eqn:Hp.
    - unfold raise_for_status in Hpost.
      destruct ((200 <=? status)%Z && (status <=? 299)%Z); [discriminate |].
      injection Hpost as <-. reflexivity.
    - injection Hpost as <-. exact (transport_errors _ _ _ Hp). }
  rewrite HE. reflexivity.
Qed.

(** A turn in which an event arrives flushes exactly when the batch has
    reached the configured size. *)
Lemma worker_turn_arrival (batch_size : nat) (fi : float) (st : worker) (w : world)
  (ev : string * nat) (q : list (string * nat)) :
  queue w = ev :: q ->
  worker_turn batch_size fi st w
  = if (batch_size <=? length (batch st ++ [ev]))%nat
    then (Ok (mkWorker [] (time_time (clock_calls w))),
          log_request (batch st ++ [ev]) (tick (set_queue q w)))
    else (Ok (mkWorker (batch st ++ [ev]) (last_flush st)), tick (set_queue q w)).
Proof.
  intros Hq. unfold Sdk.worker_turn. rewrite Hq. cbn [clock_calls set_queue].
  assert (Hpos : (0 <? length (batch st ++ [ev]))%nat = true).
  { apply Nat.ltb_lt. rewrite length_app. simpl. lia. }
  rewrite Hpos, andb_false_l, orb_false_r, andb_true_r.
  destruct (batch_size <=? length (batch st ++ [ev]))%nat; [| reflexivity].
  rewrite flush_nonempty; [reflexivity |].
  destruct (batch st); discriminate.
Qed.

(** A turn in which no event arrives. *)
Lemma worker_turn_idle (batch_size : nat) (fi : float) (st : worker) (w : world) :
  queue w = [] ->
  worker_turn batch_size fi st w
  = if ((batch_size <=? length (batch st))%nat
        || PrimFloat.leb fi (PrimFloat.sub (time_time (clock_calls w)) (last_flush st)))
       && (0 <? length (batch st))%nat
    then (Ok (mkWorker [] (time_time (clock_calls w))),
          log_request (batch st) (tick w))
    else (Ok (mkWorker (batch st) (last_flush st)), tick w).
Proof.
  intros Hq. unfold Sdk.worker_turn. rewrite Hq. cbn [andb].
  destruct (0 <? length (batch st))%nat eqn:Hpos.
  - rewrite !andb_true_r. cbn [andb].
    destruct ((batch_size <=? length (batch st))%nat
              || PrimFloat.leb fi (PrimFloat.sub (time_time (clock_calls w)) (last_flush st)));
      [| reflexivity].
    rewrite flush_nonempty; [reflexivity |].
    apply Nat.ltb_lt in Hpos. destruct (batch st); [simpl in Hpos; lia | discriminate].
  - rewrite !andb_false_r. reflexivity.
Qed.

Lemma worker_turn_step (batch_size : nat) (fi : float) (st : worker) (w : world) :
  exists st' w' R,
    worker_turn batch_size fi st w = (Ok st', w')
    /\ requests w' = (requests w ++ R)%list
    /\ (concat R ++ batch st' ++ queue w')%list = (batch st ++ queue w)%list
    /\ Forall (fun b => b <> []) R
    /\ (length (batch st) < Nat.max batch_size 1 ->
        Forall (fun b => length b <= Nat.max batch_size 1) R
        /\ length (batch st') < Nat.max batch_size 1)
    /\ heap w' = heap w
    /\ current_run w' = current_run w
    /\ current_step w' = current_step w.
Proof.
  destruct (queue w) as [| ev q] eqn:Hq.
  - rewrite (worker_turn_idle batch_size fi st w Hq).
    destruct (((batch_size <=? length (batch st))%nat
               || PrimFloat.leb fi (PrimFloat.sub (time_time (clock_calls w)) (last_flush st)))
              && (0 <? length (batch st))%nat) eqn:Hc.
    + apply andb_true_iff in Hc as [_ Hpos]. apply Nat.ltb_lt in Hpos.
      eexists; eexists; exists [batch st]. split; [reflexivity |]. cbn.
      rewrite Hq, !app_nil_r.
      repeat split; try reflexivity.
      * constructor; [| constructor]. destruct (batch st); [simpl in Hpos; lia | discriminate].
      * constructor; [lia | constructor].
      * lia.
    + eexists; eexists; exists []. split; [reflexivity |]. cbn.
      rewrite Hq, !app_nil_r.
      repeat split; try reflexivity; try constructor; assumption.
  - rewrite (worker_turn_arrival batch_size fi st w ev q Hq).
    destruct (batch_size <=? length (batch st ++ [ev]))%nat eqn:Hc.
    + eexists; eexists; exists [(batch st ++ [ev])%list]. split; [reflexivity |]. cbn.
      rewrite !app_nil_r, <- app_assoc.
      repeat split; try reflexivity.
      * constructor; [| constructor]. destruct (batch st); discriminate.
      * constructor; [| constructor]. rewrite length_app. simpl. lia.
      * lia.
    + apply Nat.leb_gt in Hc. rewrite length_app in Hc. simpl in Hc.
      eexists; eexists; exists []. split; [reflexivity |]. cbn.
      rewrite !app_nil_r, <- app_assoc.
      repeat split; try reflexivity; try constructor.
      rewrite length_app. simpl. lia.
Qed.

Lemma worker_turns_inv (turns batch_size : nat) (fi : float)
  (st : worker) (w : world) :
  exists st' w' R,
    worker_turns turns batch_size fi st w = (Ok st', w')
    /\ requests w' = (requests w ++ R)%list
    /\ (concat R ++ batch st' ++ queue w')%list = (batch st ++ queue w)%list
    /\ Forall (fun b => b <> []) R
    /\ (length (batch st) < Nat.max batch_size 1 ->
        Forall (fun b => length b <= Nat.max batch_size 1) R
        /\ length (batch st') < Nat.max batch_size 1)
    /\ heap w' = heap w
    /\ current_run w' = current_run w
    /\ current_step w' = current_step w.
Proof.
  revert st w. induction turns as [| n IH]; intros st w.
  - exists st, w, []. cbn. rewrite app_nil_r.
    repeat split; try reflexivity; try constructor; assumption.
  - destruct (worker_turn_step batch_size fi st w)
      as (st1 & w1 & R1 & Hturn & Hreq1 & Hcat1 & Hne1 & Hb1 & Hh1 & Hr1 & Hs1).
    destruct (IH st1 w1)
      as (st2 & w2 & R2 & Hloop & Hreq2 & Hcat2 & Hne2 & Hb2 & Hh2 & Hr2 & Hs2).
    exists st2, w2, (R1 ++ R2)%list. cbn [Sdk.worker_turns]. rewrite Hturn, Hloop.
    split; [reflexivity |].
    split; [rewrite Hreq2, Hreq1, app_assoc; reflexivity |].
    split; [rewrite concat_app, <- app_assoc, Hcat2, Hcat1; reflexivity |].
    split; [apply Forall_app; split; assumption |].
    split; [| repeat split; congruence].
    intros Hlt. destruct (Hb1 Hlt) as [HR1 Hlt1]. destruct (Hb2 Hlt1) as [HR2 Hlt2].
    split; [apply Forall_app; split; assumption | exact Hlt2].
Qed.

(** X1: over any number of turns of the worker loop, every event keeps its
    place: the batches posted, then the worker's pending batch, then the
    queue, read in this order, are the pending batch and the queue the
    loop started from.  No posted batch is empty, and a worker that starts
    below the configured size never posts a batch above it. *)
Theorem worker_loop_keeps_order (turns batch_size : nat) (fi : float)
  (st : worker) (w : world) :
  exists st' w' R,
    worker_turns turns batch_size fi st w = (Ok st', w')
    /\ requests w' = (requests w ++ R)%list
    /\ (concat R ++ batch st' ++ queue w')%list = (batch st ++ queue w)%list
    /\ Forall (fun b => b <> []) R
    /\ (length (batch st) < Nat.max batch_size 1 ->
        Forall (fun b => length b <= Nat.max batch_size 1) R
        /\ length (batch st') < Nat.max batch_size 1).
Proof.
  destruct (worker_turns_inv turns batch_size fi st w)
    as (st' & w' & R & Hloop & Hreq & Hcat & Hne & Hb & _).
  exists st', w', R.
  split; [exact Hloop |]. split; [exact Hreq |]. split; [exact Hcat |].
  split; [exact Hne | exact Hb].
Qed.

(** X2: size trigger.  When the events still missing to fill the batch are
    on the queue, the turns that take them make exactly one POST, of the
    whole batch in the order the events were enqueued, and leave the batch
    empty. *)
Theorem full_batch_flushed_once (evs rest b : list (string * nat)) (fi last : float)
  (w : world) :
  evs <> [] ->
  queue w = (evs ++ rest)%list ->
  exists w',
    worker_turns (length evs) (length b + length evs) fi (mkWorker b last) w
    = (Ok (mkWorker [] (time_time (clock_calls w + length evs - 1))), w')
    /\ requests w' = (requests w ++ [(b ++ evs)%list])%list
    /\ queue w' = rest.
Proof.
  revert b last w. induction evs as [| ev evs IH]; intros b last w Hne Hq;
    [congruence |].
  cbn [length Sdk.worker_turns].
  rewrite (worker_turn_arrival _ fi (mkWorker b last) w ev (evs ++ rest)%list Hq).
  cbn [batch last_flush]. rewrite length_app. cbn [length].
  destruct evs as [| ev' evs'].
  - match goal with
    | |- context [(?a <=? ?c)%nat] => destruct (Nat.leb_spec a c) as [Hle | Hgt]
    end; [| cbn in Hgt; lia].
    cbn [Sdk.worker_turns length]. eexists. split; [| split].
    + replace (clock_calls w + 1 - 1)%nat with (clock_calls w) by lia. reflexivity.
    + reflexivity.
    + reflexivity.
  - match goal with
    | |- context [(?a <=? ?c)%nat] => destruct (Nat.leb_spec a c) as [Hle | Hgt]
    end; [cbn in Hle; lia |].
    destruct (IH (b ++ [ev])%list last (tick (set_queue ((ev' :: evs') ++ rest)%list w)))
      as (w' & Hloop & Hreq & Hrest); [discriminate | reflexivity |].
    rewrite length_app in Hloop. cbn [length] in Hloop.
    cbn [length].
    replace (length b + S (S (length evs')))%nat
      with (length b + 1 + S (length evs'))%nat by lia.
    rewrite Hloop. eexists. split; [| split].
    + cbn [clock_calls tick set_queue length].
      replace (S (clock_calls w) + S (length evs') - 1)%nat
        with (clock_calls w + S (S (length evs')) - 1)%nat by lia.
      reflexivity.
    + rewrite Hreq. cbn. rewrite <- app_assoc. reflexivity.
    + exact Hrest.
Qed.

(** X3: time trigger.  In a turn in which no event arrives, a pending batch
    below the configured size is posted as it is when the flush interval
    has elapsed since the last flush, and kept, with nothing posted, when
    it has not; with nothing pending the turn posts nothing. *)
Theorem idle_turn_flushes_by_time (batch_size : nat) (fi : float) (st : worker)
  (w : world) :
  queue w = [] ->
  length (batch st) < batch_size ->
  let elapsed :=
    PrimFloat.leb fi (PrimFloat.sub (time_time (clock_calls w)) (last_flush st)) in
  exists st' w',
    worker_turn batch_size fi st w = (Ok st', w')
    /\ (batch st <> [] -> elapsed = true ->
        batch st' = [] /\ requests w' = (requests w ++ [batch st])%list
        /\ last_flush st' = time_time (clock_calls w))
    /\ (elapsed = false ->
        batch st' = batch st /\ requests w' = requests w
        /\ last_flush st' = last_flush st)
    /\ (batch st = [] -> batch st' = [] /\ requests w' = requests w).
Proof.
  intros Hq Hlt elapsed. rewrite (worker_turn_idle batch_size fi st w Hq).
  fold elapsed.
  replace (batch_size <=? length (batch st))%nat with false
    by (symmetry; apply Nat.leb_gt; exact Hlt).
  cbn [orb]. destruct elapsed eqn:He; cbn [andb].
  - destruct (0 <? length (batch st))%nat eqn:Hpos.
    + eexists; eexists. split; [reflexivity |]. cbn.
      split; [intros _ _; repeat split |].
      split; [discriminate |].
      intros Hnil. rewrite Hnil in Hpos. discriminate.
    + apply Nat.ltb_ge in Hpos.
      assert (Hnil : batch st = []) by (destruct (batch st); [reflexivity | simpl in Hpos; lia]).
      eexists; eexists. split; [reflexivity |]. cbn.
      split; [intros Hne; congruence |].
      split; [discriminate |].
      intros _. split; [exact Hnil | reflexivity].
  - eexists; eexists. split; [reflexivity |]. cbn.
    split; [discriminate |].
    split; [intros _; repeat split |].
    intros Hnil. split; [exact Hnil | reflexivity].
Qed.

(** X4: [shutdown] after the worker has stopped posts what is still on the
    queue as one batch, empties the queue and returns normally; the events
    the worker had taken into its pending batch are in no POST.  On a
    client whose worker is not alive, [shutdown] does nothing. *)
Theorem shutdown_skips_pending_batch (turns batch_size : nat) (fi : float)
  (st : worker) (w : world) :
  exists st' w' w'' R,
    worker_turns turns batch_size fi st w = (Ok st', w')
    /\ shutdown true w' = (Ok tt, w'')
    /\ queue w'' = []
    /\ requests w''
       = (requests w ++ R ++ match queue w' with [] => [] | q => [q] end)%list
    /\ (concat R ++ batch st' ++ queue w')%list = (batch st ++ queue w)%list
    /\ shutdown false w' = (Ok tt, w').
Proof.
  destruct (worker_turns_inv turns batch_size fi st w)
    as (st' & w' & R & Hloop & Hreq & Hcat & _).
  exists st', w'. unfold Sdk.shutdown.
  destruct (queue w') as [| ev q] eqn:Hq.
  - eexists; exists R. split; [exact Hloop |]. split; [reflexivity |]. cbn.
    rewrite Hreq, app_nil_r. repeat split; try reflexivity. exact Hcat.
  - rewrite flush_nonempty by discriminate.
    eexists; exists R. split; [exact Hloop |]. split; [reflexivity |]. cbn.
    rewrite Hreq, <- app_assoc. repeat split; try reflexivity. exact Hcat.
Qed.

End Batcher.

Lemma refused_is_Exception (n : nat) (b : list (string * nat)) (e : exn) :
  Scenarios.refused n b = Raise e -> is_Exception e = true.
Proof. intros H. injection H as <-. reflexivity. Qed.

Lemma worker_loop_keeps_order_witness :
  exists st' w' R,
    Sdk.worker_turns Scenarios.demo_clock Scenarios.refused 3 2 2%float
      (mkWorker [] 9%float)
      (mkWorld ∅ 3 None None
         [("step_complete", 1%nat); ("step_complete", 2%nat); ("run_complete", 0%nat)]
         3 6 [])
    = (Ok st', w')
    /\ requests w' = R
    /\ (concat R ++ batch st' ++ queue w')%list
       = [("step_complete", 1%nat); ("step_complete", 2%nat); ("run_complete", 0%nat)]
    /\ Forall (fun b => length b <= 2) R.
Proof.
  destruct (worker_loop_keeps_order Scenarios.demo_clock Scenarios.refused
              refused_is_Exception 3 2 2%float (mkWorker [] 9%float)
              (mkWorld ∅ 3 None None
                 [("step_complete", 1%nat); ("step_complete", 2%nat);
                  ("run_complete", 0%nat)] 3 6 []))
    as (st' & w' & R & Heq & Hreq & Hcat & _ & Hb).
  exists st', w', R. split; [exact Heq |]. split; [exact Hreq |].
  split; [exact Hcat |]. apply Hb. cbn. lia.
Defined.

Lemma full_batch_flushed_once_witness :
  exists w',
    Sdk.worker_turns Scenarios.demo_clock Scenarios.refused 2 2 2%float
      (mkWorker [] 9%float)
      (mkWorld ∅ 3 None None
         [("step_complete", 1%nat); ("step_complete", 2%nat); ("run_complete", 0%nat)]
         3 6 [])
    = (Ok (mkWorker [] 10%float), w')
    /\ requests w' = [[("step_complete", 1%nat); ("step_complete", 2%nat)]]
    /\ queue w' = [("run_complete", 0%nat)].
Proof.
  apply (full_batch_flushed_once Scenarios.demo_clock Scenarios.refused
           refused_is_Exception
           [("step_complete", 1%nat); ("step_complete", 2%nat)]
           [("run_complete", 0%nat)] [] 2%float 9%float
           (mkWorld ∅ 3 None None
              [("step_complete", 1%nat); ("step_complete", 2%nat);
               ("run_complete", 0%nat)] 3 6 []));
    [discriminate | reflexivity].
Defined.

Lemma idle_turn_flushes_by_time_witness :
  exists st' w',
    Sdk.worker_turn Scenarios.demo_clock Scenarios.refused 50 2%float
      (mkWorker [("run_complete", 0%nat)] 7%float)
      (mkWorld ∅ 3 None None [] 3 6 [])
    = (Ok st', w')
    /\ batch st' = []
    /\ requests w' = [[("run_complete", 0%nat)]]
    /\ last_flush st' = 10%float.
Proof.
  destruct (idle_turn_flushes_by_time Scenarios.demo_clock Scenarios.refused
              refused_is_Exception 50 2%float
              (mkWorker [("run_complete", 0%nat)] 7%float)
              (mkWorld ∅ 3 None None [] 3 6 []) eq_refl)
    as (st' & w' & Heq & Hflush & _); [cbn; lia |].
  exists st', w'. split; [exact Heq |].
  apply Hflush; [discriminate | reflexivity].
Defined.

Lemma shutdown_skips_pending_batch_witness :
  exists st' w' w'' R,
    Sdk.worker_turns Scenarios.demo_clock Scenarios.refused 1 2 2%float
      (mkWorker [] 9%float)
      (mkWorld ∅ 3 None None
         [("step_complete", 1%nat); ("run_complete", 0%nat)] 3 6 [])
    = (Ok st', w')
    /\ Sdk.shutdown Scenarios.refused true w' = (Ok tt, w'')
    /\ queue w'' = []
    /\ (concat R ++ batch st' ++ queue w')%list
       = [("step_complete", 1%nat); ("run_complete", 0%nat)]
    /\ requests w'' = (R ++ match queue w' with [] => [] | q => [q] end)%list.
Proof.
  destruct (shutdown_skips_pending_batch Scenarios.demo_clock Scenarios.refused
              refused_is_Exception 1 2 2%float (mkWorker [] 9%float)
              (mkWorld ∅ 3 None None
                 [("step_complete", 1%nat); ("run_complete", 0%nat)] 3 6 []))
    as (st' & w' & w'' & R & Heq & Hsh & Hq & Hreq & Hcat & _).
  exists st', w', w'', R. split; [exact Heq |]. split; [exact Hsh |].
  split; [exact Hq |]. split; [exact Hcat | exact Hreq].
Defined.

End BatcherProps.

(** ** Context tracker: scopes and how they nest *)

Module ScopeProps.
Import Py Sdk SdkProps.
Local Open Scope py_scope.

Section Client.

Variable uuid4 : nat -> string.
Variable isoformat_now : nat -> string.
Variable T : Type.
Variable json_of : T -> option pyval.
Variable str_of : T -> string.
Variable str_of_list : list T -> string.
Variable repr_of_dict : list (string * Z) -> string.
Variable filter_fn : T -> bool * option string.

Context {A : Type}.

Local Abbreviation step := (@Sdk.step uuid4 isoformat_now T json_of str_of A).
Local Abbreviation start_run := (@Sdk.start_run uuid4 isoformat_now A).
Local Abbreviation step_record := (Sdk.step_record T json_of str_of).

(** What the scopes do around their body, whatever the body does. *)
Lemma start_run_unfold (name : string) (tags : pyval) (body : nat -> M A) (w : world) :
  exists w_in,
    current_run w_in = Some (next_ref w)
    /\ current_step w_in = current_step w
    /\ heap w_in = <[next_ref w := run_record (uuid4 (uuid_calls w)) name tags
                                     (isoformat_now (clock_calls w))]> (heap w)
    /\ next_ref w_in = S (next_ref w)
    /\ queue w_in = queue w
    /\ uuid_calls w_in = S (uuid_calls w)
    /\ clock_calls w_in = S (clock_calls w)
    /\ forall r w1,
        body (next_ref w) w_in = (r, w1) ->
        exists w',
          start_run name tags body w = (r, w')
          /\ current_run w' = current_run w
          /\ current_step w' = current_step w1
          /\ queue w' = (queue w1 ++ run_exit_events (next_ref w) r)%list
          /\ heap w' !! next_ref w
             = run_exit_record r (isoformat_now (clock_calls w1))
                 <$> heap w1 !! next_ref w
          /\ (forall l, l <> next_ref w -> heap w' !! l = heap w1 !! l).
Proof.
  exists (mkWorld
            (<[next_ref w := run_record (uuid4 (uuid_calls w)) name tags
                               (isoformat_now (clock_calls w))]> (heap w))
            (S (next_ref w)) (Some (next_ref w)) (current_step w) (queue w)
            (S (uuid_calls w)) (S (clock_calls w)) (requests w)).
  do 7 (split; [reflexivity |]).
  intros r w1 Hbody. unfold Sdk.start_run. cbn -[run_record].
  unfold set_current_run at 1. cbn -[run_record]. rewrite Hbody.
  destruct r as [a | e]; [| destruct (is_Exception e) eqn:HE];
    (eexists; split; [reflexivity |]); cbn; rewrite ?HE; cbn;
    rewrite ?app_nil_r;
    (split; [reflexivity |]); (split; [reflexivity |]); (split; [reflexivity |]).
  - split.
    + rewrite !lookup_alter_eq. destruct (heap w1 !! next_ref w); reflexivity.
    + intros l Hl. rewrite !lookup_alter_ne by congruence. reflexivity.
  - split.
    + rewrite !lookup_alter_eq. unfold run_exit_record. rewrite HE.
      destruct (heap w1 !! next_ref w); reflexivity.
    + intros l Hl. rewrite !lookup_alter_ne by congruence. reflexivity.
  - split.
    + unfold run_exit_record. rewrite HE.
      destruct (heap w1 !! next_ref w); reflexivity.
    + intros l Hl. reflexivity.
Qed.

Lemma step_unfold (name step_type : string) (reasoning : pyval) (inputs : option T)
  (cost token_usage : pyval) (body : nat -> M A) (w : world)
  (run_ref : nat) (d : dict) (rid : pyval) (c : option pyval) :
  current_run w = Some run_ref ->
  heap w !! run_ref = Some d ->
  dict_find d "id" = Some rid ->
  step_cost cost token_usage = Ok c ->
  exists w_in,
    current_run w_in = current_run w
    /\ current_step w_in = Some (next_ref w)
    /\ heap w_in = <[next_ref w := step_record (uuid4 (uuid_calls w)) rid name
                                     step_type reasoning inputs
                                     (isoformat_now (clock_calls w)) c]> (heap w)
    /\ next_ref w_in = S (next_ref w)
    /\ queue w_in = queue w
    /\ uuid_calls w_in = S (uuid_calls w)
    /\ clock_calls w_in = S (clock_calls w)
    /\ forall r w1,
        body (next_ref w) w_in = (r, w1) ->
        exists w',
          step name step_type reasoning inputs cost token_usage body w = (r, w')
          /\ current_step w' = current_step w
          /\ current_run w' = current_run w1
          /\ queue w' = (queue w1 ++ step_exit_events (next_ref w) r)%list
          /\ heap w' !! next_ref w
             = step_exit_record r (isoformat_now (clock_calls w1))
                 <$> heap w1 !! next_ref w
          /\ (forall l, l <> next_ref w -> heap w' !! l = heap w1 !! l).
Proof.
  intros Hrun Hd Hid Hc.
  exists (mkWorld
            (<[next_ref w := step_record (uuid4 (uuid_calls w)) rid name
                               step_type reasoning inputs
                               (isoformat_now (clock_calls w)) c]> (heap w))
            (S (next_ref w)) (current_run w) (Some (next_ref w)) (queue w)
            (S (uuid_calls w)) (S (clock_calls w)) (requests w)).
  do 7 (split; [reflexivity |]).
  intros r w1 Hbody. unfold Sdk.step. rewrite Hrun.
  cbn [fresh_uuid heap]. rewrite Hd. cbn [from_option id].
  unfold dict_item. rewrite Hid, Hc. cbn -[Sdk.step_record].
  unfold set_current_step at 1. cbn -[Sdk.step_record]. rewrite Hbody.
  destruct r as [a | e]; [| destruct (is_Exception e) eqn:HE];
    (eexists; split; [reflexivity |]); cbn; rewrite ?HE; cbn;
    rewrite ?app_nil_r;
    (split; [reflexivity |]); (split; [reflexivity |]); (split; [reflexivity |]).
  - split.
    + rewrite !lookup_alter_eq. destruct (heap w1 !! next_ref w); reflexivity.
    + intros l Hl. rewrite !lookup_alter_ne by congruence. reflexivity.
  - split.
    + rewrite !lookup_alter_eq. unfold step_exit_record. rewrite HE.
      destruct (heap w1 !! next_ref w); reflexivity.
    + intros l Hl. rewrite !lookup_alter_ne by congruence. reflexivity.
  - split.
    + unfold step_exit_record. rewrite HE.
      destruct (heap w1 !! next_ref w); reflexivity.
    + intros l Hl. reflexivity.
Qed.

Lemma step_restores_current_step (name step_type : string) (reasoning : pyval)
  (inputs : option T) (cost token_usage : pyval) (body : nat -> M A) (w : world)
  (run_ref : nat) :
  current_run w = Some run_ref ->
  current_step (snd (step name step_type reasoning inputs cost token_usage body w))
  = current_step w.
Proof.
  intros Hrun. unfold Sdk.step. rewrite Hrun. cbn [fresh_uuid heap].
  destruct (dict_item _ "id") as [rid | e]; [| reflexivity].
  cbn -[Sdk.step_record].
  destruct (step_cost cost token_usage) as [c | e]; [| reflexivity].
  cbn -[Sdk.step_record]. unfold set_current_step at 1. cbn -[Sdk.step_record].
  match goal with |- context [body ?l ?w0] => destruct (body l w0) as [[a | e] w1] end;
    [| destruct (is_Exception e)]; reflexivity.
Qed.

Lemma py_truediv_float_Exception (a b : pyval) (e : exn) :
  py_truediv_float a b = Raise e -> is_Exception e = true.
Proof.
  unfold py_truediv_float, py_truediv, int_truediv, num_float, float_of_int.
  intros H.
  repeat match type of H with
         | context [match ?x with _ => _ end] => destruct x; cbn in H
         | context [if ?x then _ else _] => destruct x; cbn in H
         end;
    try discriminate; injection H as <-; reflexivity.
Qed.

(** [step_cost] raises nothing but [Exception]s. *)
Lemma step_cost_Exception (cost token_usage : pyval) (e : exn) :
  step_cost cost token_usage = Raise e -> is_Exception e = true.
Proof.
  unfold step_cost.
  destruct (truthy token_usage && is_none cost);
    [| destruct (negb (is_none cost)); discriminate].
  unfold _calculate_llm_cost.
  destruct (py_get_default token_usage "prompt" (PInt 0)) as [p | e0] eqn:Hp;
    [| destruct token_usage; cbn in Hp; try discriminate;
       injection Hp as <-; cbn; intros [= <-]; reflexivity].
  destruct (py_get_default token_usage "completion" (PInt 0)) as [c | e0] eqn:Hcm;
    [| destruct token_usage; cbn in Hcm; try discriminate;
       injection Hcm as <-; cbn; intros [= <-]; reflexivity].
  destruct (py_get_default token_usage "model" (PStr "gpt-4")) as [m | e0] eqn:Hm;
    [| destruct token_usage; cbn in Hm; try discriminate;
       injection Hm as <-; cbn; intros [= <-]; reflexivity].
  cbn [bind].
  destruct (pricing_get m) as [price | e0] eqn:Hprice;
    [| destruct m; cbn in Hprice; try discriminate;
       injection Hprice as <-; cbn; intros [= <-]; reflexivity].
  cbn [bind].
  destruct (py_truediv_float p (PFloat 1000)) as [fp | e0] eqn:Hfp;
    [| cbn; intros [= <-]; exact (py_truediv_float_Exception _ _ _ Hfp)].
  cbn [bind].
  destruct (py_truediv_float c (PFloat 1000)) as [fc | e0] eqn:Hfc;
    [| cbn; intros [= <-]; exact (py_truediv_float_Exception _ _ _ Hfc)].
  discriminate.
Qed.

Lemma run_record_id (run_id name : string) (tags : pyval) (t0 : string) :
  dict_find (run_record run_id name tags t0) "id" = Some (PStr run_id).
Proof. reflexivity. Qed.

(** X5: a run scope always leaves the current run as it found it, and a
    step scope opened in it always leaves the current step as it found it:
    whatever the body does to either association, and however the scopes
    are left (a normal return, any exception, or a failure while the step
    record is still being built). *)
Theorem nested_scopes_restore_context (rname sname step_type : string)
  (tags reasoning : pyval) (inputs : option T) (cost token_usage : pyval)
  (body : nat -> nat -> M A) (w : world) :
  let w' := snd (start_run rname tags
                   (fun run => step sname step_type reasoning inputs cost
                                 token_usage (body run)) w) in
  current_run w' = current_run w /\ current_step w' = current_step w.
Proof.
  cbv zeta.
  destruct (start_run_unfold rname tags
              (fun run => step sname step_type reasoning inputs cost
                            token_usage (body run)) w)
    as (w_in & Hrun & Hstep & _ & _ & _ & _ & _ & Hexit).
  destruct (step sname step_type reasoning inputs cost token_usage
              (body (next_ref w)) w_in) as [r w1] eqn:Hbody.
  destruct (Hexit r w1 eq_refl) as (w' & -> & Hr & Hs & _).
  cbn [snd]. split; [exact Hr |].
  rewrite Hs, <- Hstep.
  pose proof (step_restores_current_step sname step_type reasoning inputs cost
                token_usage (body (next_ref w)) w_in (next_ref w) Hrun) as H.
  rewrite Hbody in H. exact H.
Qed.

(** X6: a step scope opened inside a run scope is parented to that run (its
    record carries the run's identifier as [run_id]), its body runs with
    both associations set, and when the scopes are left the step's event is
    enqueued before the run's, after everything the body enqueued: both
    [..._complete] events on a normal return, both [..._failed] events on
    an [Exception], and nothing otherwise. *)
Theorem step_inside_run_event_order (rname sname step_type : string)
  (tags reasoning : pyval) (inputs : option T) (cost token_usage : pyval)
  (c : option pyval) (body : nat -> nat -> M A) (w : world) :
  step_cost cost token_usage = Ok c ->
  exists w_in,
    heap w_in !! next_ref w
    = Some (run_record (uuid4 (uuid_calls w)) rname tags
              (isoformat_now (clock_calls w)))
    /\ heap w_in !! S (next_ref w)
       = Some (step_record (uuid4 (S (uuid_calls w))) (PStr (uuid4 (uuid_calls w)))
                 sname step_type reasoning inputs
                 (isoformat_now (S (clock_calls w))) c)
    /\ current_run w_in = Some (next_ref w)
    /\ current_step w_in = Some (S (next_ref w))
    /\ queue w_in = queue w
    /\ forall r w1,
        body (next_ref w) (S (next_ref w)) w_in = (r, w1) ->
        exists w',
          start_run rname tags
            (fun run => step sname step_type reasoning inputs cost token_usage
                          (body run)) w
          = (r, w')
          /\ queue w'
             = (queue w1 ++ step_exit_events (S (next_ref w)) r
                  ++ run_exit_events (next_ref w) r)%list.
Proof.
  intros Hc.
  destruct (start_run_unfold rname tags
              (fun run => step sname step_type reasoning inputs cost
                            token_usage (body run)) w)
    as (w0 & Hrun0 & Hstep0 & Hheap0 & Hnext0 & Hq0 & Hu0 & Hc0 & Hexit0).
  assert (Hd0 : heap w0 !! next_ref w
                = Some (run_record (uuid4 (uuid_calls w)) rname tags
                          (isoformat_now (clock_calls w)))).
  { rewrite Hheap0. apply lookup_insert_eq. }
  destruct (step_unfold sname step_type reasoning inputs cost token_usage
              (body (next_ref w)) w0 (next_ref w) _ _ c Hrun0 Hd0
              (run_record_id _ _ _ _) Hc)
    as (w_in & Hrun & Hstep & Hheap & Hnext & Hq & Hu & Hcl & Hexit).
  rewrite Hnext0, Hu0, Hc0 in *.
  exists w_in. split.
  { rewrite Hheap, lookup_insert_ne by lia. exact Hd0. }
  split; [rewrite Hheap; apply lookup_insert_eq |].
  split; [congruence |]. split; [exact Hstep |]. split; [congruence |].
  intros r w1 Hbody.
  destruct (Hexit r w1 Hbody) as (w2 & Hs & _ & _ & Hq2 & _).
  destruct (Hexit0 r w2 Hs) as (w' & Hr & _ & _ & Hq' & _).
  exists w'. split; [exact Hr |].
  rewrite Hq', Hq2, <- app_assoc. reflexivity.
Qed.

(** X7: when the cost of a step cannot be computed from its token usage,
    the step scope raises before its body runs and before any step record
    exists, so no step event is ever enqueued; the enclosing run scope
    records the error, enqueues [run_failed] and raises it again. *)
Theorem unpriceable_step_fails_run (rname sname step_type : string)
  (tags reasoning : pyval) (inputs : option T) (cost token_usage : pyval)
  (e : exn) (body : nat -> nat -> M A) (w : world) :
  step_cost cost token_usage = Raise e ->
  exists w',
    start_run rname tags
      (fun run => step sname step_type reasoning inputs cost token_usage
                    (body run)) w
    = (Raise e, w')
    /\ queue w' = (queue w ++ [("run_failed", next_ref w)])%list
    /\ heap w' !! next_ref w
       = Some (failed_run e (isoformat_now (S (S (clock_calls w))))
                 (run_record (uuid4 (uuid_calls w)) rname tags
                    (isoformat_now (clock_calls w))))
    /\ (forall l, l <> next_ref w -> heap w' !! l = heap w !! l)
    /\ current_run w' = current_run w /\ current_step w' = current_step w.
Proof.
  intros Hc. pose proof (step_cost_Exception _ _ _ Hc) as HE.
  destruct (start_run_unfold rname tags
              (fun run => step sname step_type reasoning inputs cost
                            token_usage (body run)) w)
    as (w0 & Hrun0 & Hstep0 & Hheap0 & Hnext0 & Hq0 & Hu0 & Hc0 & Hexit0).
  assert (Hs : step sname step_type reasoning inputs cost token_usage
                 (body (next_ref w)) w0
               = (Raise e, tick (snd (fresh_uuid uuid4 w0)))).
  { assert (Hd0 : heap w0 !! next_ref w
                  = Some (run_record (uuid4 (uuid_calls w)) rname tags
                            (isoformat_now (clock_calls w)))).
    { rewrite Hheap0. apply lookup_insert_eq. }
    unfold Sdk.step. rewrite Hrun0. cbn [fresh_uuid heap].
    rewrite Hd0. cbn [from_option id].
    unfold dict_item. rewrite run_record_id, Hc. reflexivity. }
  destruct (Hexit0 _ _ Hs) as (w' & Hr & Hcr & Hcs & Hq & Hh & Hother).
  exists w'. split; [exact Hr |].
  cbn in Hq, Hh, Hother, Hcs. rewrite HE in Hq.
  split; [rewrite Hq, Hq0; reflexivity |].
  split.
  { rewrite Hh, Hheap0, lookup_insert_eq, Hc0. cbn [fmap option_fmap option_map].
    unfold run_exit_record. rewrite HE. reflexivity. }
  split.
  { intros l Hl. rewrite (Hother l Hl), Hheap0.
    apply lookup_insert_ne. congruence. }
  split; [exact Hcr | congruence].
Qed.

(** X8: when the body of a scope returns normally, the scope stamps its
    record (status COMPLETED for a run; the completion time for both) on
    top of whatever the body wrote into it, enqueues exactly one
    [run_complete] resp. [step_complete] event after the body's events,
    and returns the body's value. *)
Theorem completed_scope_is_recorded (name step_type : string) (tags reasoning : pyval)
  (inputs : option T) (cost token_usage : pyval) (body : nat -> M A) (w : world) :
  (exists w_in,
      current_run w_in = Some (next_ref w)
      /\ heap w_in !! next_ref w
         = Some (run_record (uuid4 (uuid_calls w)) name tags
                   (isoformat_now (clock_calls w)))
      /\ queue w_in = queue w
      /\ forall a w1 rec,
          body (next_ref w) w_in = (Ok a, w1) ->
          heap w1 !! next_ref w = Some rec ->
          exists w',
            start_run name tags body w = (Ok a, w')
            /\ queue w' = (queue w1 ++ [("run_complete", next_ref w)])%list
            /\ heap w' !! next_ref w
               = Some (dict_set (dict_set rec "status" (PStr "COMPLETED"))
                         "completed_at" (PStr (isoformat_now (clock_calls w1)))))
  /\ (forall run_ref d rid c,
        current_run w = Some run_ref ->
        heap w !! run_ref = Some d ->
        dict_find d "id" = Some rid ->
        step_cost cost token_usage = Ok c ->
        exists w_in,
          current_step w_in = Some (next_ref w)
          /\ heap w_in !! next_ref w
             = Some (step_record (uuid4 (uuid_calls w)) rid name step_type
                       reasoning inputs (isoformat_now (clock_calls w)) c)
          /\ queue w_in = queue w
          /\ forall a w1 rec,
              body (next_ref w) w_in = (Ok a, w1) ->
              heap w1 !! next_ref w = Some rec ->
              exists w',
                step name step_type reasoning inputs cost token_usage body w
                = (Ok a, w')
                /\ queue w' = (queue w1 ++ [("step_complete", next_ref w)])%list
                /\ heap w' !! next_ref w
                   = Some (dict_set rec "completed_at"
                             (PStr (isoformat_now (clock_calls w1))))
                /\ dict_get (dict_set rec "completed_at"
                               (PStr (isoformat_now (clock_calls w1)))) "status"
                   = dict_get rec "status").
Proof.
  split.
  - destruct (start_run_unfold name tags body w)
      as (w_in & Hrun & _ & Hheap & _ & Hq & _ & _ & Hexit).
    exists w_in. split; [exact Hrun |].
    split; [rewrite Hheap; apply lookup_insert_eq |]. split; [exact Hq |].
    intros a w1 rec Hbody Hrec.
    destruct (Hexit _ _ Hbody) as (w' & Hr & _ & _ & Hq' & Hh & _).
    exists w'. split; [exact Hr |]. split; [exact Hq' |].
    rewrite Hh, Hrec. reflexivity.
  - intros run_ref d rid c Hrun Hd Hid Hc.
    destruct (step_unfold name step_type reasoning inputs cost token_usage body w
                run_ref d rid c Hrun Hd Hid Hc)
      as (w_in & _ & Hstep & Hheap & _ & Hq & _ & _ & Hexit).
    exists w_in. split; [exact Hstep |].
    split; [rewrite Hheap; apply lookup_insert_eq |]. split; [exact Hq |].
    intros a w1 rec Hbody Hrec.
    destruct (Hexit _ _ Hbody) as (w' & Hr & _ & _ & Hq' & Hh & _).
    exists w'. split; [exact Hr |]. split; [exact Hq' |].
    split; [rewrite Hh, Hrec; reflexivity |].
    apply dict_get_set_ne. discriminate.
Qed.

(** X9: when the body of a scope raises something that is not an
    [Exception] (a [KeyboardInterrupt], say), the scope restores the
    previous association and lets it through, but enqueues no event and
    leaves its record as the body left it: a run interrupted this way is
    never reported and its record stays RUNNING. *)
Theorem interrupted_scope_is_not_reported (name step_type : string)
  (tags reasoning : pyval) (inputs : option T) (cost token_usage : pyval)
  (body : nat -> M A) (w : world) :
  (exists w_in,
      heap w_in !! next_ref w
      = Some (run_record (uuid4 (uuid_calls w)) name tags
                (isoformat_now (clock_calls w)))
      /\ queue w_in = queue w
      /\ forall e w1,
          is_Exception e = false ->
          body (next_ref w) w_in = (Raise e, w1) ->
          exists w',
            start_run name tags body w = (Raise e, w')
            /\ current_run w' = current_run w
            /\ queue w' = queue w1
            /\ heap w' = heap w1)
  /\ (forall run_ref d rid c,
        current_run w = Some run_ref ->
        heap w !! run_ref = Some d ->
        dict_find d "id" = Some rid ->
        step_cost cost token_usage = Ok c ->
        exists w_in,
          current_step w_in = Some (next_ref w)
          /\ queue w_in = queue w
          /\ forall e w1,
              is_Exception e = false ->
              body (next_ref w) w_in = (Raise e, w1) ->
              exists w',
                step name step_type reasoning inputs cost token_usage body w
                = (Raise e, w')
                /\ current_step w' = current_step w
                /\ queue w' = queue w1
                /\ heap w' = heap w1).
Proof.
  assert (Hsame : forall (e : exn) (t : string) (h h' : gmap nat dict) (l0 : nat),
             is_Exception e = false ->
             h' !! l0 = @run_exit_record A (Raise e) t <$> h !! l0 ->
             (forall l, l <> l0 -> h' !! l = h !! l) ->
             h' = h).
  { intros e t h h' l0 HE Hl0 Hother. apply map_eq. intros l.
    destruct (decide (l = l0)) as [-> | Hne]; [| exact (Hother l Hne)].
    rewrite Hl0. unfold run_exit_record. rewrite HE.
    destruct (h !! l0); reflexivity. }
  split.
  - destruct (start_run_unfold name tags body w)
      as (w_in & _ & _ & Hheap & _ & Hq0 & _ & _ & Hexit).
    exists w_in. split; [rewrite Hheap; apply lookup_insert_eq |].
    split; [exact Hq0 |].
    intros e w1 HE Hbody.
    destruct (Hexit _ _ Hbody) as (w' & Hr & Hcr & _ & Hq & Hh & Hother).
    exists w'. split; [exact Hr |]. split; [exact Hcr |].
    split; [rewrite Hq; cbn; rewrite HE; apply app_nil_r |].
    exact (Hsame e _ _ _ _ HE Hh Hother).
  - intros run_ref d rid c Hrun Hd Hid Hc.
    destruct (step_unfold name step_type reasoning inputs cost token_usage body w
                run_ref d rid c Hrun Hd Hid Hc)
      as (w_in & _ & Hstep & _ & _ & Hq0 & _ & _ & Hexit).
    exists w_in. split; [exact Hstep |]. split; [exact Hq0 |].
    intros e w1 HE Hbody.
    destruct (Hexit _ _ Hbody) as (w' & Hr & Hcs & _ & Hq & Hh & Hother).
    exists w'. split; [exact Hr |]. split; [exact Hcs |].
    split; [rewrite Hq; cbn; rewrite HE; apply app_nil_r |].
    apply (Hsame e (isoformat_now (clock_calls w1)) _ _ (next_ref w) HE);
      [| exact Hother].
    rewrite Hh. unfold step_exit_record, run_exit_record. rewrite HE. reflexivity.
Qed.

End Client.

Section Summaries.

Variable uuid4 : nat -> string.
Variable isoformat_now : nat -> string.
Variable T : Type.
Variable json_of : T -> option pyval.
Variable str_of : T -> string.
Variable str_of_list : list T -> string.
Variable repr_of_dict : list (string * Z) -> string.
Variable filter_fn : T -> bool * option string.

Local Abbreviation step := (@Sdk.step uuid4 isoformat_now T json_of str_of (list T)).
Local Abbreviation step_record := (Sdk.step_record T json_of str_of).
Local Abbreviation process_candidates :=
  (Sdk.process_candidates uuid4 isoformat_now T json_of str_of str_of_list
     repr_of_dict filter_fn).
Local Abbreviation summary_record :=
  (Sdk.summary_record T json_of str_of str_of_list repr_of_dict).

Lemma step_record_untouched_keys (step_id : string) (rid : pyval)
  (name step_type : string) (reasoning : pyval) (inputs : option T) (t0 t1 : string)
  (c : option pyval) (k : string) :
  k <> "id" -> k <> "run_id" -> k <> "name" -> k <> "type" -> k <> "reasoning" ->
  k <> "inputs" -> k <> "started_at" -> k <> "cost" -> k <> "completed_at" ->
  dict_find (dict_set (step_record step_id rid name step_type reasoning inputs t0 c)
               "completed_at" (PStr t1)) k = None.
Proof.
  intros H1 H2 H3 H4 H5 H6 H7 H8 H9.
  rewrite dict_find_set_ne by congruence.
  unfold Sdk.step_record. destruct c as [v |];
    [rewrite dict_find_set_ne by congruence |];
    cbn [dict_find];
    repeat match goal with
           | |- context [String.eqb k ?s] =>
               destruct (String.eqb_spec k s); [congruence |]
           end; reflexivity.
Qed.

(** X10: [process_candidates] called in the body of a step scope does not
    write into that step: it enqueues a summary step of its own, parented
    to the same run, before the scope's step. The caller gets the accepted
    candidates, and the scope's own record ends with neither [outputs] nor
    [metadata]. *)
Theorem summary_inside_step_scope (sname step_type : string) (reasoning : pyval)
  (inputs : option T) (cost token_usage : pyval) (cs : list T)
  (pname : option string) (w : world)
  (run_ref : nat) (d : dict) (rid : pyval) (c : option pyval) :
  current_run w = Some run_ref ->
  heap w !! run_ref = Some d ->
  run_ref <> next_ref w ->
  dict_find d "id" = Some rid ->
  step_cost cost token_usage = Ok c ->
  exists w' summary own,
    step sname step_type reasoning inputs cost token_usage
      (fun _ => process_candidates cs pname) w
    = (Ok (List.filter (accepted filter_fn) cs), w')
    /\ queue w'
       = (queue w ++ [("step_complete", S (next_ref w));
                      ("step_complete", next_ref w)])%list
    /\ heap w' !! S (next_ref w) = Some summary
    /\ dict_find summary "id" = Some (PStr (uuid4 (S (uuid_calls w))))
    /\ dict_find summary "run_id" = Some rid
    /\ dict_find summary "type" = Some (PStr "filter")
    /\ heap w' !! next_ref w = Some own
    /\ dict_find own "id" = Some (PStr (uuid4 (uuid_calls w)))
    /\ dict_find own "run_id" = Some rid
    /\ dict_find own "outputs" = None
    /\ dict_find own "metadata" = None
    /\ current_step w' = current_step w.
Proof.
  intros Hrun Hd Hne Hid Hc.
  destruct (step_unfold uuid4 isoformat_now T json_of str_of sname step_type
              reasoning inputs cost token_usage
              (fun _ => process_candidates cs pname) w run_ref d rid c
              Hrun Hd Hid Hc)
    as (w_in & Hrun_in & _ & Hheap & Hnext & Hq & Hu & Hcl & Hexit).
  assert (Hd_in : heap w_in !! run_ref = Some d).
  { rewrite Hheap, lookup_insert_ne by congruence. exact Hd. }
  rewrite Hrun in Hrun_in.
  destruct (process_candidates_tracked uuid4 isoformat_now T json_of str_of
              str_of_list repr_of_dict filter_fn cs pname w_in run_ref d rid
              Hrun_in Hd_in Hid)
    as (dr & name & _ & _ & Hpc).
  destruct (Hexit _ _ Hpc) as (w' & Hr & Hcs & _ & Hq' & Hown & Hother).
  cbn [heap queue clock_calls] in Hq', Hown, Hother.
  rewrite Hnext, Hu, Hcl, Hq in *.
  eexists w', _, _. split; [exact Hr |].
  split; [rewrite Hq', <- app_assoc; reflexivity |].
  split.
  { rewrite (Hother (S (next_ref w))) by lia. apply lookup_insert_eq. }
  split; [reflexivity |]. split; [reflexivity |]. split; [reflexivity |].
  split.
  { rewrite Hown, lookup_insert_ne by lia.
    rewrite Hheap, lookup_insert_eq. reflexivity. }
  cbn [step_exit_record].
  split.
  { rewrite dict_find_set_ne by discriminate. destruct c; reflexivity. }
  split.
  { rewrite dict_find_set_ne by discriminate. destruct c; reflexivity. }
  split; [apply step_record_untouched_keys; discriminate |].
  split; [apply step_record_untouched_keys; discriminate |].
  exact Hcs.
Qed.

End Summaries.

Lemma step_inside_run_event_order_witness :
  exists w',
    Sdk.start_run Scenarios.demo_uuid4 Scenarios.demo_now "competitor_selection" PNone
      (fun _ =>
         Sdk.step Scenarios.demo_uuid4 Scenarios.demo_now Z Scenarios.demo_json
           Scenarios.demo_str "generate_keywords" "llm" PNone None (PFloat 0.5) PNone
           Scenarios.quiet_body)
      Scenarios.idle_world
    = (Ok tt, w')
    /\ queue w' = [("step_complete", 1%nat); ("run_complete", 0%nat)].
Proof.
  destruct (@step_inside_run_event_order Scenarios.demo_uuid4 Scenarios.demo_now Z
              Scenarios.demo_json Scenarios.demo_str unit
              "competitor_selection" "generate_keywords" "llm" PNone PNone None
              (PFloat 0.5) PNone (Some (PFloat 0.5))
              (fun _ => Scenarios.quiet_body) Scenarios.idle_world eq_refl)
    as (w_in & _ & _ & _ & _ & Hq & Hexit).
  destruct (Hexit (Ok tt) w_in eq_refl) as (w' & Heq & Hq').
  exists w'. split; [exact Heq |]. rewrite Hq', Hq. reflexivity.
Defined.

Lemma unpriceable_step_fails_run_witness :
  exists w',
    Sdk.start_run Scenarios.demo_uuid4 Scenarios.demo_now "competitor_selection" PNone
      (fun _ =>
         Sdk.step Scenarios.demo_uuid4 Scenarios.demo_now Z Scenarios.demo_json
           Scenarios.demo_str "generate_keywords" "llm" PNone None PNone
           (PList [PInt 1200; PInt 300]) Scenarios.quiet_body)
      Scenarios.idle_world
    = (Raise (AttributeError "'list' object has no attribute 'get'"), w')
    /\ queue w' = [("run_failed", 0%nat)].
Proof.
  destruct (@unpriceable_step_fails_run Scenarios.demo_uuid4 Scenarios.demo_now Z
              Scenarios.demo_json Scenarios.demo_str unit
              "competitor_selection" "generate_keywords" "llm" PNone PNone None
              PNone (PList [PInt 1200; PInt 300])
              (AttributeError "'list' object has no attribute 'get'")
              (fun _ => Scenarios.quiet_body) Scenarios.idle_world eq_refl)
    as (w' & Heq & Hq & _).
  exists w'. split; [exact Heq | exact Hq].
Defined.

Lemma completed_scope_is_recorded_witness :
  exists w' rec,
    Sdk.start_run Scenarios.demo_uuid4 Scenarios.demo_now "competitor_selection" PNone
      Scenarios.quiet_body Scenarios.idle_world
    = (Ok tt, w')
    /\ queue w' = [("run_complete", 0%nat)]
    /\ heap w' !! 0%nat = Some rec
    /\ dict_get rec "status" = PStr "COMPLETED".
Proof.
  destruct (@completed_scope_is_recorded Scenarios.demo_uuid4 Scenarios.demo_now Z
              Scenarios.demo_json Scenarios.demo_str unit
              "competitor_selection" "logic" PNone PNone None PNone PNone
              Scenarios.quiet_body Scenarios.idle_world)
    as ((w_in & _ & Hheap & Hq & Hexit) & _).
  destruct (Hexit tt w_in _ eq_refl Hheap) as (w' & Heq & Hq' & Hrec).
  exists w'. eexists. split; [exact Heq |].
  split; [rewrite Hq', Hq; reflexivity |].
  split; [exact Hrec | reflexivity].
Defined.

Lemma interrupted_scope_is_not_reported_witness :
  exists w' rec,
    Sdk.start_run Scenarios.demo_uuid4 Scenarios.demo_now "competitor_selection" PNone
      Scenarios.interrupted_body Scenarios.idle_world
    = (Raise (mk_exn "KeyboardInterrupt" EmptyString false), w')
    /\ queue w' = []
    /\ heap w' !! 0%nat = Some rec
    /\ dict_get rec "status" = PStr "RUNNING".
Proof.
  destruct (@interrupted_scope_is_not_reported Scenarios.demo_uuid4
              Scenarios.demo_now Z Scenarios.demo_json Scenarios.demo_str unit
              "competitor_selection" "logic" PNone PNone None PNone PNone
              Scenarios.interrupted_body Scenarios.idle_world)
    as ((w_in & Hheap & Hq & Hexit) & _).
  destruct (Hexit (mk_exn "KeyboardInterrupt" EmptyString false) w_in eq_refl eq_refl)
    as (w' & Heq & _ & Hq' & Hh).
  exists w'. eexists. split; [exact Heq |].
  split; [rewrite Hq', Hq; reflexivity |].
  split; [rewrite Hh; exact Hheap | reflexivity].
Defined.

Lemma summary_inside_step_scope_witness :
  exists w',
    Sdk.step Scenarios.demo_uuid4 Scenarios.demo_now Z Scenarios.demo_json
      Scenarios.demo_str "filter_items" "filter" (PStr "Filter valid items") None
      PNone PNone
      (fun _ =>
         Sdk.process_candidates Scenarios.demo_uuid4 Scenarios.demo_now Z
           Scenarios.demo_json Scenarios.demo_str Scenarios.demo_str_list
           Scenarios.demo_repr Scenarios.demo_filter [1; 2; 3; 4; 5]%Z None)
      Scenarios.running_world
    = (Ok [3; 4; 5]%Z, w')
    /\ queue w' = [("step_complete", 2%nat); ("step_complete", 1%nat)].
Proof.
  destruct (summary_inside_step_scope Scenarios.demo_uuid4 Scenarios.demo_now Z
              Scenarios.demo_json Scenarios.demo_str Scenarios.demo_str_list
              Scenarios.demo_repr Scenarios.demo_filter
              "filter_items" "filter" (PStr "Filter valid items") None PNone PNone
              [1; 2; 3; 4; 5]%Z None Scenarios.running_world 0%nat _ _ None
              eq_refl eq_refl ltac:(discriminate) eq_refl eq_refl)
    as (w' & summary & own & Heq & Hq & _).
  exists w'. split; [exact Heq | exact Hq].
Defined.

End ScopeProps.

(** ** Analysis of a stored run *)

Module AnalysisProps.
Import Py Backend FunnelProps.
Local Open Scope py_scope.

Lemma funnel_step_identity (P : pydantic) (s : Step) (final : pyval)
  (e : DecisionFunnelStep) (final' : pyval) :
  well_formed s = true ->
  funnel_step P s final = Ok (e, final') -> entry_identity e = step_identity s.
Proof.
  intros Hw.
  destruct (well_formed_entry P s final Hw)
    as (d & ic & oc & dr & _ & _ & _ & _ & _ & He).
  rewrite He. intros [= <- _]. reflexivity.
Qed.

Lemma funnel_loop_identity (P : pydantic) (steps : list Step) :
  forallb well_formed steps = true ->
  forall acc final es final',
    funnel_loop P steps acc final = Ok (es, final') ->
    map entry_identity es
    = (map entry_identity acc ++ map step_identity steps)%list.
Proof.
  induction steps as [| s steps IH]; intros Hw acc final es final'; simpl.
  - intros [= <- _]. rewrite app_nil_r. reflexivity.
  - cbn [forallb] in Hw. apply andb_true_iff in Hw as [Hs Hrest].
    destruct (funnel_step P s final) as [[e f] |] eqn:Hstep; cbn [bind];
      [| discriminate].
    intros Hloop. rewrite (IH Hrest _ _ _ _ Hloop), map_app, <- app_assoc.
    cbn [map app fst]. rewrite (funnel_step_identity _ _ _ _ _ Hs Hstep).
    reflexivity.
Qed.

Lemma funnel_loop_raises (P : pydantic) (pre : list Step) (bad : Step)
  (post : list Step) (x : exn) :
  forallb (step_reconstructs P) pre = true ->
  funnel_step P bad PNone = Raise x ->
  forall acc final, funnel_loop P (pre ++ bad :: post) acc final = Raise x.
Proof.
  intros Hpre Hbad. induction pre as [| s pre IH]; intros acc final.
  - simpl. rewrite funnel_step_final, Hbad. reflexivity.
  - simpl in Hpre. apply andb_true_iff in Hpre as [Hs Hpre].
    simpl. rewrite funnel_step_final. unfold step_reconstructs in Hs.
    destruct (funnel_step P s PNone) as [[e f] |]; [| discriminate].
    cbn [bind]. apply IH. exact Hpre.
Qed.

(** X11: a run that follows the data model (its name a text, its total
    cost a float) and whose stored steps follow the data model is always
    analysable: the answer copies the run's id, name, status and total
    cost, and the funnel lists the steps in the order given, each entry
    carrying the id, name, type, reasoning and cost of its step. *)
Theorem funnel_mirrors_steps (P : pydantic) (run : Run) (steps : list Step) :
  well_formed_run run = true ->
  forallb well_formed steps = true ->
  exists resp,
    analyze_run P (Some run) steps = Ok resp
    /\ ar_run_id resp = run_id run
    /\ ar_run_name resp = run_name run
    /\ ar_status resp = run_status run
    /\ ar_total_cost resp = total_cost run
    /\ map entry_identity (funnel resp) = map step_identity steps.
Proof.
  intros Hrun Hwf.
  destruct (analyze_run_well_formed P run steps Hrun Hwf) as (es & Hloop & _ & Hresp).
  eexists. split; [exact Hresp |]. cbn.
  repeat (split; [reflexivity |]).
  exact (funnel_loop_identity P steps Hwf [] PNone _ _ Hloop).
Qed.

(** X12: the analysis of a run is all or nothing: the first step whose
    record does not reconstruct (its fields cannot be read, or the schema
    refuses its entry) makes [analyze_run] raise that step's exception,
    whatever the steps before it produced and whatever follows it; no
    partial funnel is returned. *)
Theorem analysis_fails_at_first_bad_step (P : pydantic) (run : Run)
  (pre : list Step) (bad : Step) (post : list Step) (x : exn) (final : pyval) :
  forallb (step_reconstructs P) pre = true ->
  funnel_step P bad final = Raise x ->
  analyze_run P (Some run) (pre ++ bad :: post) = Raise x.
Proof.
  intros Hpre Hbad. unfold analyze_run.
  assert (Hbad' : funnel_step P bad PNone = Raise x).
  { rewrite funnel_step_final in Hbad.
    destruct (funnel_step P bad PNone) as [[e f] |]; [discriminate | exact Hbad]. }
  rewrite (funnel_loop_raises P pre bad post x Hpre Hbad'). reflexivity.
Qed.

Lemma funnel_mirrors_steps_witness :
  exists resp,
    analyze_run Scenarios.demo_pydantic (Some Scenarios.demo_run)
      [Scenarios.spec_filter_step;
       Scenarios.logic_step "22222222222242228222222222222222"
         (PDict [("selected", PStr "X")])]
    = Ok resp
    /\ ar_run_name resp = PStr "competitor_selection"
    /\ map fs_step_name (funnel resp)
       = [PStr "filter_by_price"; PStr "rank_and_select"].
Proof.
  destruct (funnel_mirrors_steps Scenarios.demo_pydantic Scenarios.demo_run
              [Scenarios.spec_filter_step;
               Scenarios.logic_step "22222222222242228222222222222222"
                 (PDict [("selected", PStr "X")])] eq_refl eq_refl)
    as (resp & Heq & _ & Hname & _ & _ & Hmap).
  exists resp. split; [exact Heq |]. split; [exact Hname |].
  transitivity (map (fun i : string * pyval * StepType * pyval * pyval =>
                       snd (fst (fst (fst i))))
                  (map entry_identity (funnel resp))).
  - rewrite List.map_map. reflexivity.
  - rewrite Hmap. reflexivity.
Defined.

Lemma analysis_fails_at_first_bad_step_witness :
  analyze_run Scenarios.demo_pydantic (Some Scenarios.demo_run)
    [Scenarios.logic_step_at "22222222222242228222222222222222"
       "2024-01-01T00:00:00+00:00" (PDict []);
     Scenarios.opaque_filter_step;
     Scenarios.untyped_count_step]
  = Raise (AttributeError "'str' object has no attribute 'get'").
Proof.
  exact (analysis_fails_at_first_bad_step Scenarios.demo_pydantic Scenarios.demo_run
           [Scenarios.logic_step_at "22222222222242228222222222222222"
              "2024-01-01T00:00:00+00:00" (PDict [])]
           Scenarios.opaque_filter_step [Scenarios.untyped_count_step]
           (AttributeError "'str' object has no attribute 'get'") PNone
           eq_refl eq_refl).
Defined.

End AnalysisProps.

(** ** From the client's records to the funnel *)

Module PipelineProps.
Import Py Backend Sdk FunnelProps SdkProps.
Local Open Scope py_scope.

Section Client.

Variable T : Type.
Variable json_of : T -> option pyval.
Variable str_of : T -> string.
Variable str_of_list : list T -> string.
Variable repr_of_dict : list (string * Z) -> string.
Variable filter_fn : T -> bool * option string.

Local Abbreviation summary_record :=
  (Sdk.summary_record T json_of str_of str_of_list repr_of_dict).
Local Abbreviation step_record := (Sdk.step_record T json_of str_of).
Local Abbreviation json_of_list := (Sdk.json_of_list T json_of).
Local Abbreviation _serialize := (Sdk._serialize T json_of str_of).
Local Abbreviation survivors_of cs := (List.filter (accepted filter_fn) cs).
Local Abbreviation histogram_of cs := (snd (classify_loop T filter_fn cs [] [])).

Lemma json_of_list_length (l : list T) (vs : list pyval) :
  json_of_list l = Some vs -> length vs = length l.
Proof.
  revert vs. induction l as [| x l IH]; intros vs; simpl.
  - intros [= <-]. reflexivity.
  - destruct (json_of x) as [v |]; [| discriminate].
    destruct (Sdk.json_of_list T json_of l) as [vs' |]; [| discriminate].
    intros [= <-]. simpl. rewrite (IH vs' eq_refl). reflexivity.
Qed.

Lemma py_or_same (v : pyval) : py_or v v = v.
Proof. unfold py_or. destruct (truthy v); reflexivity. Qed.

Lemma validate_int_or_none (P : pydantic) (v : pyval) :
  is_none v || is_int v = true -> optional (validate_int P) v = Valid v.
Proof. destruct v; try discriminate; reflexivity. Qed.

Lemma validate_hist_to_py (P : pydantic) (h : list (string * Z)) :
  optional (validate_dict_str_int P) (hist_to_py h) = Valid (hist_to_py h).
Proof.
  apply validate_histogram. unfold hist_to_py. cbn [histogram_or_none].
  induction h as [| kn h IH]; [reflexivity | exact IH].
Qed.

(** X13: the step row the backend builds from a summary record of the
    client reconstructs, and its funnel entry carries the number of
    candidates as [input_count], the client's drop rate and its histogram.
    The [output_count] is the number of survivors only when the survivors
    are JSON values; when the client had to write them as a string, the
    entry has no [output_count], although the record's outputs hold a
    [survivor_count]. *)
Theorem summary_funnel_entry (P : pydantic) (cs : list T) (step_id : string)
  (rid : pyval) (name t0 t1 : string) (sid run : uuid) (final : pyval) :
  exists dr st entry,
    summary_drop_rate (Z.of_nat (length cs))
      (Z.of_nat (length (survivors_of cs))) = Ok dr
    /\ new_step sid run
         (summary_record step_id rid name cs (survivors_of cs) (histogram_of cs)
            dr t0 t1) PNone = Ok st
    /\ funnel_step P st final = Ok (entry, final)
    /\ fs_step_id entry = sid
    /\ fs_step_name entry = PStr name
    /\ fs_step_type entry = FILTER
    /\ input_count entry = PInt (Z.of_nat (length cs))
    /\ output_count entry
       = match json_of_list (survivors_of cs) with
         | Some _ => PInt (Z.of_nat (length (survivors_of cs)))
         | None => PNone
         end
    /\ field (outputs st) "survivor_count"
       = PInt (Z.of_nat (length (survivors_of cs)))
    /\ drop_rate entry = PFloat dr
    /\ rejection_histogram entry = hist_to_py (histogram_of cs)
    /\ fs_cost entry = PFloat 0.
Proof.
  destruct (summary_drop_rate_total _ _ (survivors_le T filter_fn cs)) as (dr & Hdr & _).
  exists dr. eexists. eexists. split; [exact Hdr |].
  split; [reflexivity |].
  split.
  { eapply funnel_step_entry with
      (d := [("rejection_histogram", hist_to_py (histogram_of cs));
             ("drop_rate", PFloat dr);
             ("total_count", PInt (Z.of_nat (length cs)))]).
    - reflexivity.
    - cbn [step_type step_metadata inputs outputs]. cbn -[derive_counts].
      apply filter_counts.
    - apply derive_drop_rate_given. discriminate.
    - apply DecisionFunnelStep_of_valid.
      + reflexivity.
      + apply validate_int_or_none. cbn. rewrite py_or_same. reflexivity.
      + apply validate_int_or_none. cbn. unfold Sdk._serialize_list.
        destruct (Sdk.json_of_list T json_of (survivors_of cs)); reflexivity.
      + reflexivity.
      + apply validate_hist_to_py.
      + reflexivity.
      + reflexivity. }
  cbn. rewrite py_or_same.
  repeat (split; [reflexivity |]).
  split; [| repeat split].
  unfold Sdk._serialize_list.
  destruct (Sdk.json_of_list T json_of (survivors_of cs)) as [vs |] eqn:Hj.
  - rewrite (json_of_list_length _ _ Hj). reflexivity.
  - reflexivity.
Qed.

(** X14: the record a step scope sends for a step entered without inputs,
    with a reasoning that is a text or absent, gives an empty funnel entry
    when the schema accepts its cost (the cost of the record, or 0.0): no
    counts, no drop rate, no histogram, and that cost as a float; when the
    schema refuses the cost, the reconstruction raises a validation error.
    For a LOGIC step the running final output becomes the empty mapping,
    since the scope writes no outputs. *)
Theorem scope_step_funnel_entry (P : pydantic) (step_id : string) (rid : pyval)
  (name ty_str : string) (ty : StepType) (reasoning : pyval) (t0 t1 : string)
  (c : option pyval) (sid run : uuid) (final : pyval) :
  StepType_of (PStr ty_str) = Ok ty ->
  str_or_none reasoning = true ->
  exists st,
    new_step sid run
      (dict_set (step_record step_id rid name ty_str reasoning None t0 c)
         "completed_at" (PStr t1)) PNone = Ok st
    /\ (forall cf,
          validate_float P (default (PFloat 0) c) = Valid cf ->
          exists entry,
            funnel_step P st final
            = Ok (entry, match ty with LOGIC => PDict [] | _ => final end)
            /\ fs_step_name entry = PStr name
            /\ fs_step_type entry = ty
            /\ input_count entry = PNone
            /\ output_count entry = PNone
            /\ drop_rate entry = PNone
            /\ rejection_histogram entry = PNone
            /\ fs_reasoning entry = reasoning
            /\ fs_cost entry = cf)
    /\ (forall errs,
          validate_float P (default (PFloat 0) c) = Invalid errs ->
          exists x, funnel_step P st final = Raise x
                    /\ exn_class x = "ValidationError").
Proof.
  intros Hty Hrs.
  assert (Hnew : new_step sid run
                   (dict_set (step_record step_id rid name ty_str reasoning None t0 c)
                      "completed_at" (PStr t1)) PNone
                 = Ok (mkStep sid run (PStr name) ty PNone (PDict []) (PDict [])
                         reasoning (default (PFloat 0) c) (PStr t0) (PStr t1) PNone)).
  { unfold new_step. destruct c as [v |]; cbn -[StepType_of];
      rewrite Hty; reflexivity. }
  eexists. split; [exact Hnew |].
  assert (Hstep : funnel_step P
                    (mkStep sid run (PStr name) ty PNone (PDict []) (PDict [])
                       reasoning (default (PFloat 0) c) (PStr t0) (PStr t1) PNone)
                    final
                  = (entry <- DecisionFunnelStep_of P sid (PStr name) ty PNone PNone
                                PNone PNone reasoning (default (PFloat 0) c) ;;
                     Ok (entry, match ty with LOGIC => PDict [] | _ => final end))).
  { unfold funnel_step. destruct ty; reflexivity. }
  rewrite Hstep. split.
  - intros cf Hcf.
    rewrite (DecisionFunnelStep_of_valid P sid (PStr name) ty PNone PNone PNone PNone
               reasoning (default (PFloat 0) c) (PStr name) PNone PNone PNone PNone
               reasoning cf eq_refl eq_refl eq_refl eq_refl eq_refl
               (validate_str_or_none reasoning Hrs) Hcf).
    eexists. split; [reflexivity |]. cbn. repeat split.
  - intros errs Herrs.
    destruct (DecisionFunnelStep_of P sid (PStr name) ty PNone PNone PNone PNone
                reasoning (default (PFloat 0) c)) as [e | x] eqn:He.
    + destruct (DecisionFunnelStep_of_inv _ _ _ _ _ _ _ _ _ _ _ He)
        as (_ & _ & _ & _ & _ & _ & _ & _ & Hc).
      congruence.
    + exists x. split; [reflexivity |].
      exact (DecisionFunnelStep_of_raises _ _ _ _ _ _ _ _ _ _ _ He).
Qed.

(** X15: a FILTER step entered through a scope with inputs that reach the
    backend as something other than a mapping (an object that is not JSON
    serialisable is sent as its [str]; a list is sent as a list) is stored
    by ingest, but its record does not reconstruct: the lookup of
    [candidate_count] raises the AttributeError of a value without [get],
    and with it the analysis of the whole run. *)
Theorem opaque_inputs_break_filter_step (P : pydantic) (x : T) (step_id : string)
  (rid : pyval) (name : string) (reasoning : pyval) (t0 t1 : string)
  (c : option pyval) (sid run : uuid) (row : Run) (pre post : list Step) :
  truthy (_serialize (Some x)) = true ->
  isinstance_dict (_serialize (Some x)) = false ->
  forallb (step_reconstructs P) pre = true ->
  exists st,
    new_step sid run
      (dict_set (step_record step_id rid name "filter" reasoning (Some x) t0 c)
         "completed_at" (PStr t1)) PNone = Ok st
    /\ inputs st = _serialize (Some x)
    /\ funnel_step P st PNone = Raise (no_attribute (_serialize (Some x)) "get")
    /\ analyze_run P (Some row) (pre ++ st :: post)
       = Raise (no_attribute (_serialize (Some x)) "get").
Proof.
  intros Htruthy Hdict Hpre.
  assert (Hnew : new_step sid run
                   (dict_set (step_record step_id rid name "filter" reasoning (Some x)
                                t0 c) "completed_at" (PStr t1)) PNone
                 = Ok (mkStep sid run (PStr name) FILTER (_serialize (Some x))
                         (PDict []) (PDict []) reasoning (default (PFloat 0) c)
                         (PStr t0) (PStr t1) PNone)).
  { unfold new_step. destruct c as [v |]; reflexivity. }
  eexists. split; [exact Hnew |]. split; [reflexivity |].
  assert (Hstep : funnel_step P
                    (mkStep sid run (PStr name) FILTER (_serialize (Some x))
                       (PDict []) (PDict []) reasoning (default (PFloat 0) c)
                       (PStr t0) (PStr t1) PNone) PNone
                  = Raise (no_attribute (_serialize (Some x)) "get")).
  { unfold funnel_step. cbn [step_type step_metadata inputs outputs].
    unfold py_or at 2. rewrite Htruthy.
    destruct (_serialize (Some x)); try discriminate; reflexivity. }
  split; [exact Hstep |].
  unfold analyze_run.
  rewrite (AnalysisProps.funnel_loop_raises P pre _ post _ Hpre Hstep).
  reflexivity.
Qed.

End Client.

Lemma scope_step_funnel_entry_witness :
  exists st entry,
    new_step "5f0c2a9e7b3d4c1e8a6f0b1d2c3e4f50" "0a1b2c3d4e5f40718293a4b5c6d7e8f9"
      (dict_set
         (Sdk.step_record Z Scenarios.demo_json Scenarios.demo_str
            "5f0c2a9e-7b3d-4c1e-8a6f-0b1d2c3e4f50"
            (PStr "0a1b2c3d-4e5f-4071-8293-a4b5c6d7e8f9") "rank_and_select" "logic"
            PNone None "2024-01-01T00:00:01+00:00" None)
         "completed_at" (PStr "2024-01-01T00:00:02+00:00")) PNone
    = Ok st
    /\ funnel_step Scenarios.demo_pydantic st PNone = Ok (entry, PDict [])
    /\ output_count entry = PNone
    /\ fs_cost entry = PFloat 0.
Proof.
  destruct (scope_step_funnel_entry Z Scenarios.demo_json Scenarios.demo_str
              Scenarios.demo_pydantic
              "5f0c2a9e-7b3d-4c1e-8a6f-0b1d2c3e4f50"
              (PStr "0a1b2c3d-4e5f-4071-8293-a4b5c6d7e8f9") "rank_and_select" "logic"
              LOGIC PNone "2024-01-01T00:00:01+00:00" "2024-01-01T00:00:02+00:00"
              None "5f0c2a9e7b3d4c1e8a6f0b1d2c3e4f50"
              "0a1b2c3d4e5f40718293a4b5c6d7e8f9" PNone eq_refl eq_refl)
    as (st & Hnew & Hok & _).
  destruct (Hok (PFloat 0) eq_refl)
    as (entry & Hf & _ & _ & _ & Hoc & _ & _ & _ & Hcost).
  exists st, entry. split; [exact Hnew |]. split; [exact Hf |].
  split; [exact Hoc | exact Hcost].
Defined.

Lemma opaque_inputs_break_filter_step_witness :
  exists st,
    new_step "44444444444444448444444444444444" "0a1b2c3d4e5f40718293a4b5c6d7e8f9"
      (dict_set
         (Sdk.step_record Z (fun _ => None) (fun _ => "<Product object>")
            "44444444-4444-4444-8444-444444444444"
            (PStr "0a1b2c3d-4e5f-4071-8293-a4b5c6d7e8f9") "filter_by_price" "filter"
            PNone (Some 7%Z) "2024-01-01T00:00:02+00:00" None)
         "completed_at" (PStr "2024-01-01T00:00:03+00:00")) PNone
    = Ok st
    /\ inputs st = PStr "<Product object>"
    /\ analyze_run Scenarios.demo_pydantic (Some Scenarios.demo_run)
         [Scenarios.spec_filter_step; st]
       = Raise (AttributeError "'str' object has no attribute 'get'").
Proof.
  destruct (opaque_inputs_break_filter_step Z (fun _ => None)
              (fun _ => "<Product object>") Scenarios.demo_pydantic 7%Z
              "44444444-4444-4444-8444-444444444444"
              (PStr "0a1b2c3d-4e5f-4071-8293-a4b5c6d7e8f9") "filter_by_price"
              PNone "2024-01-01T00:00:02+00:00" "2024-01-01T00:00:03+00:00" None
              "44444444444444448444444444444444" "0a1b2c3d4e5f40718293a4b5c6d7e8f9"
              Scenarios.demo_run [Scenarios.spec_filter_step] []
              eq_refl eq_refl eq_refl)
    as (st & Hnew & Hin & _ & Hraise).
  exists st. split; [exact Hnew |]. split; [exact Hin | exact Hraise].
Defined.

End PipelineProps.

(** ** The store under ingest *)

Module StoreProps.
Import Py Backend.
Local Open Scope py_scope.

Lemma ingest_event_unhandled (ev : event) (db : session) :
  handled ev = false -> ingest_event ev db = Ok db.
Proof.
  unfold handled, ingest_event. intros H.
  apply orb_false_iff in H as [H H4]. apply orb_false_iff in H as [H H3].
  apply orb_false_iff in H as [H1 H2]. rewrite H1, H2, H3, H4. reflexivity.
Qed.

Lemma ingest_loop_handled (evs : list event) (db : session) :
  ingest_loop evs db = ingest_loop (List.filter handled evs) db.
Proof.
  revert db. induction evs as [| ev evs IH]; intros db; [reflexivity |].
  cbn [ingest_loop List.filter]. destruct (handled ev) eqn:H.
  - cbn [ingest_loop]. destruct (ingest_event ev db) as [db' |]; cbn [bind];
      [apply IH | reflexivity].
  - rewrite (ingest_event_unhandled ev db H). cbn [bind]. apply IH.
Qed.

Lemma commit_nothing_pending (db : session) :
  new_runs db = [] -> new_steps db = [] -> commit db = Ok db.
Proof.
  destruct db as [rs ss nr ns]. cbn. intros -> ->. reflexivity.
Qed.

(** X16: [ingest_events] has no branch for an event of another type: such
    events are dropped without an error, yet counted in [processed]. The
    store a request leaves is the one its known events alone would leave,
    and a request of unknown events only is answered with its length and
    stores nothing. *)
Theorem unknown_event_types_are_counted (evs : list event) (db : session) :
  ingest_events evs db
  = match ingest_events (List.filter handled evs) db with
    | Ok (db', _) => Ok (db', Z.of_nat (length evs))
    | Raise e => Raise e
    end
  /\ (forallb (fun ev => negb (handled ev)) evs = true ->
      new_runs db = [] -> new_steps db = [] ->
      ingest_events evs db = Ok (db, Z.of_nat (length evs))).
Proof.
  split.
  - unfold ingest_events. rewrite <- ingest_loop_handled.
    destruct (ingest_loop evs db) as [db1 |]; cbn [bind]; [| reflexivity].
    destruct (commit db1) as [db2 |]; reflexivity.
  - intros Hnone Hr Hs. unfold ingest_events. rewrite ingest_loop_handled.
    replace (List.filter handled evs) with (@nil event).
    + cbn [ingest_loop bind]. rewrite (commit_nothing_pending db Hr Hs). reflexivity.
    + symmetry. induction evs as [| ev evs IH]; [reflexivity |].
      cbn [forallb] in Hnone. apply andb_true_iff in Hnone as [Hev Hrest].
      cbn [List.filter]. apply negb_true_iff in Hev. rewrite Hev. exact (IH Hrest).
Qed.

(** One new step for a stored run: the row is added and the run's total
    grows by the step's cost. *)
Lemma ingest_fresh_step (db db0 : session) (rid : uuid) (run : Run) (t c : float)
  (ev : event) :
  fresh_step_event db0 rid c ev ->
  steps db = steps db0 ->
  runs db !! rid = Some run ->
  total_cost run = PFloat t ->
  exists st,
    steps_of [ev] = [st]
    /\ ingest_event ev db
       = Ok (set_run (with_total run (PFloat (add_cost t c))) (add_step st db)).
Proof.
  intros (Hty & sid & st & Hid & Hnew & Hrid & Hst & Hcost) Hsteps Hrun Htot.
  exists st.
  unfold ingest_event. rewrite Hty. cbn [String.eqb Ascii.eqb Bool.eqb].
  unfold ingest_step_complete. cbn [steps_of]. rewrite Hid, Hrid, Hst.
  unfold event_id in Hid. unfold event_run_id in Hrid.
  destruct (dict_item (ev_data ev) "id") as [idv |]; cbn [bind] in *; [| discriminate].
  rewrite Hid. cbn [bind].
  destruct (dict_item (ev_data ev) "run_id") as [ridv |]; cbn [bind] in *;
    [| discriminate].
  rewrite Hrid. cbn [bind]. rewrite Hsteps, Hnew, Hst. cbn [bind].
  split; [reflexivity |].
  cbn [add_step runs]. rewrite Hrun, Htot, Hcost.
  unfold with_total, add_cost, or_zero, py_or. cbn [truthy].
  destruct (PrimFloat.eqb t PrimFloat.zero); reflexivity.
Qed.

Lemma steps_of_cons (ev : event) (evs : list event) :
  steps_of (ev :: evs) = (steps_of [ev] ++ steps_of evs)%list.
Proof.
  cbn [steps_of]. destruct (event_id ev); [| reflexivity].
  destruct (event_run_id ev); [| reflexivity].
  destruct (new_step _ _ _ _); reflexivity.
Qed.

(** X17: for a run that is already stored with a float total, the loop
    of a request over [step_complete] events about steps not stored yet
    adds every step as a pending row and adds each step's cost to the run's
    total, one after the other in the order of the events (each time on
    [total or 0.0]); no other stored row is touched. *)
Theorem stored_run_accumulates_costs (db : session) (rid : uuid) (run : Run)
  (t : float) (costs : list float) (evs : list event) :
  runs db !! rid = Some run ->
  run_id run = rid ->
  total_cost run = PFloat t ->
  Forall2 (fresh_step_event db rid) costs evs ->
  exists db',
    ingest_loop evs db = Ok db'
    /\ runs db' !! rid
       = Some (with_total run (PFloat (fold_left add_cost costs t)))
    /\ (forall k, k <> rid -> runs db' !! k = runs db !! k)
    /\ steps db' = steps db
    /\ new_runs db' = new_runs db
    /\ new_steps db' = (new_steps db ++ steps_of evs)%list
    /\ length (steps_of evs) = length evs.
Proof.
  intros Hrun Hkey Htot Hall.
  assert (Hgen : forall db1 run1 t1,
             steps db1 = steps db ->
             runs db1 !! rid = Some run1 ->
             run_id run1 = rid ->
             total_cost run1 = PFloat t1 ->
             exists db',
               ingest_loop evs db1 = Ok db'
               /\ runs db' !! rid
                  = Some (with_total run1 (PFloat (fold_left add_cost costs t1)))
               /\ (forall k, k <> rid -> runs db' !! k = runs db1 !! k)
               /\ steps db' = steps db1
               /\ new_runs db' = new_runs db1
               /\ new_steps db' = (new_steps db1 ++ steps_of evs)%list
               /\ length (steps_of evs) = length evs).
  { induction Hall as [| c ev costs evs Hev Hall IH]; intros db1 run1 t1 Hs1 Hr1 Hk1 Ht1.
    - exists db1. cbn [ingest_loop fold_left steps_of]. rewrite app_nil_r.
      split; [reflexivity |]. split.
      + rewrite Hr1. unfold with_total. rewrite <- Ht1. destruct run1; reflexivity.
      + repeat split.
    - destruct (ingest_fresh_step db1 db rid run1 t1 c ev Hev Hs1 Hr1 Ht1)
        as (st & Hst & Hstep).
      cbn [ingest_loop]. rewrite Hstep. cbn [bind].
      destruct (IH (set_run (with_total run1 (PFloat (add_cost t1 c)))
                      (add_step st db1))
                   (with_total run1 (PFloat (add_cost t1 c))) (add_cost t1 c))
        as (db' & Hloop & Hrun' & Hother & Hsteps' & Hnr & Hns & Hlen).
      + cbn. exact Hs1.
      + cbn. rewrite Hk1. apply lookup_insert_eq.
      + exact Hk1.
      + reflexivity.
      + exists db'. split; [exact Hloop |].
        split; [rewrite Hrun'; reflexivity |].
        split.
        { intros k Hk. rewrite (Hother k Hk). cbn. rewrite Hk1.
          apply lookup_insert_ne. congruence. }
        split; [rewrite Hsteps'; reflexivity |].
        split; [rewrite Hnr; reflexivity |].
        rewrite (steps_of_cons ev evs), Hst. split.
        * rewrite Hns. cbn [set_run add_step new_steps]. rewrite <- app_assoc.
          reflexivity.
        * cbn [app length]. rewrite Hlen. reflexivity. }
  exact (Hgen db run t eq_refl Hrun Hkey Htot).
Qed.

Lemma set_run_again (r : Run) (db : session) :
  set_run r (set_run r db) = set_run r db.
Proof. unfold set_run. cbn. rewrite insert_insert_eq. reflexivity. Qed.

Lemma set_step_again (st : Step) (db : session) :
  set_step st (set_step st db) = set_step st db.
Proof. unfold set_step. cbn. rewrite insert_insert_eq. reflexivity. Qed.

Lemma lookup_after_set_run (r run : Run) (rid : uuid) (db : session) :
  runs db !! rid = Some run ->
  run_id r = run_id run ->
  exists run', runs (set_run r db) !! rid = Some run'
               /\ (run' = r \/ (run' = run /\ run_id run <> rid)).
Proof.
  intros Hrun Hid. cbn. destruct (decide (run_id r = rid)) as [He | Hne].
  - exists r. rewrite <- He, lookup_insert_eq. auto.
  - exists run. rewrite lookup_insert_ne by exact Hne. split; [exact Hrun |].
    right. split; [reflexivity | congruence].
Qed.

Lemma lookup_after_set_step (s st : Step) (sid : uuid) (db : session) :
  steps db !! sid = Some st ->
  step_id s = step_id st ->
  exists st', steps (set_step s db) !! sid = Some st'
              /\ (st' = s \/ (st' = st /\ step_id st <> sid)).
Proof.
  intros Hst Hid. cbn. destruct (decide (step_id s = sid)) as [He | Hne].
  - exists s. rewrite <- He, lookup_insert_eq. auto.
  - exists st. rewrite lookup_insert_ne by exact Hne. split; [exact Hst |].
    right. split; [reflexivity | congruence].
Qed.

(** X18: an event about a row that is already stored is idempotent: once
    it has been applied, applying it again leaves the session exactly as it
    is. In particular a [step_complete] delivered again for a stored step
    adds nothing to the total of its run. *)
Theorem redelivery_is_idempotent (ev : event) (db db1 : session) :
  targets_stored_row ev db = true ->
  ingest_event ev db = Ok db1 ->
  ingest_event ev db1 = Ok db1
  /\ (ev_type ev = "step_complete" \/ ev_type ev = "step_failed" ->
      runs db1 = runs db /\ new_runs db1 = new_runs db
      /\ new_steps db1 = new_steps db).
Proof.
  unfold targets_stored_row, ingest_event, event_id.
  destruct (String.eqb_spec (ev_type ev) "run_complete") as [Hrc | Hrc].
  { cbn [orb]. unfold ingest_run_complete.
    destruct (dict_item (ev_data ev) "id") as [idv |]; cbn [bind]; [| discriminate].
    destruct (UUID idv) as [rid |]; cbn [bind]; [| discriminate].
    intros Hstored. apply bool_decide_eq_true in Hstored as [run Hrun].
    rewrite Hrun. intros [= <-]. split.
    - match goal with |- context [set_run ?r db] =>
        destruct (lookup_after_set_run r run rid db Hrun eq_refl)
          as (run' & -> & [-> | [-> _]]); cbn [run_id run_name run_tags
            run_started_at run_error]; rewrite set_run_again; reflexivity
      end.
    - rewrite Hrc. intros [H | H]; discriminate. }
  destruct (String.eqb_spec (ev_type ev) "run_failed") as [Hrf | Hrf].
  { cbn [orb]. unfold ingest_run_failed.
    destruct (dict_item (ev_data ev) "id") as [idv |]; cbn [bind]; [| discriminate].
    destruct (UUID idv) as [rid |]; cbn [bind]; [| discriminate].
    intros Hstored. apply bool_decide_eq_true in Hstored as [run Hrun].
    rewrite Hrun. intros [= <-]. split.
    - match goal with |- context [set_run ?r db] =>
        destruct (lookup_after_set_run r run rid db Hrun eq_refl)
          as (run' & -> & [-> | [-> _]]); cbn [run_id run_name run_tags
            run_started_at total_cost]; rewrite set_run_again; reflexivity
      end.
    - rewrite Hrf. intros [H | H]; discriminate. }
  cbn [orb].
  destruct (String.eqb_spec (ev_type ev) "step_complete") as [Hsc | Hsc].
  { cbn [orb]. unfold ingest_step_complete.
    destruct (dict_item (ev_data ev) "id") as [idv |]; cbn [bind]; [| discriminate].
    destruct (UUID idv) as [sid |]; cbn [bind]; [| discriminate].
    intros Hstored. apply bool_decide_eq_true in Hstored as [st Hst].
    destruct (dict_item (ev_data ev) "run_id") as [ridv |]; cbn [bind];
      [| discriminate].
    destruct (UUID ridv) as [rid |]; cbn [bind]; [| discriminate].
    rewrite Hst. intros [= <-]. split.
    - match goal with |- context [set_step ?s db] =>
        destruct (lookup_after_set_step s st sid db Hst eq_refl)
          as (st' & -> & [-> | [-> _]]); cbn [step_id step_run_id step_name
            step_type inputs reasoning started_at error];
          rewrite set_step_again; reflexivity
      end.
    - intros _. repeat split. }
  destruct (String.eqb_spec (ev_type ev) "step_failed") as [Hsf | Hsf].
  { cbn [orb]. unfold ingest_step_failed.
    destruct (dict_item (ev_data ev) "id") as [idv |]; cbn [bind]; [| discriminate].
    destruct (UUID idv) as [sid |]; cbn [bind]; [| discriminate].
    intros Hstored. apply bool_decide_eq_true in Hstored as [st Hst].
    destruct (dict_item (ev_data ev) "run_id") as [ridv |]; cbn [bind];
      [| discriminate].
    destruct (UUID ridv) as [rid |]; cbn [bind]; [| discriminate].
    rewrite Hst. intros [= <-]. split.
    - match goal with |- context [set_step ?s db] =>
        destruct (lookup_after_set_step s st sid db Hst eq_refl)
          as (st' & -> & [-> | [-> _]]); cbn [step_id step_run_id step_name
            step_type inputs outputs step_metadata reasoning cost started_at];
          rewrite set_step_again; reflexivity
      end.
    - intros _. repeat split. }
  intros _ [= <-]. split; [reflexivity |].
  intros [H | H]; congruence.
Qed.

(** *** Stored rows keep their identity *)

Lemma keeps_rows_refl (db : session) : keeps_rows db db.
Proof. split; intros k r H; exists r; auto. Qed.

Lemma keeps_rows_trans (a b c : session) :
  keeps_rows a b -> keeps_rows b c -> keeps_rows a c.
Proof.
  intros [Hr1 Hs1] [Hr2 Hs2]. split.
  - intros k r H. destruct (Hr1 k r H) as (r' & H' & E').
    destruct (Hr2 k r' H') as (r'' & H'' & E''). exists r''. split; congruence.
  - intros k s H. destruct (Hs1 k s H) as (s' & H' & E').
    destruct (Hs2 k s' H') as (s'' & H'' & E''). exists s''. split; congruence.
Qed.

Lemma same_maps_keep (db db' : session) :
  runs db' = runs db -> steps db' = steps db ->
  consistent db -> consistent db' /\ keeps_rows db db'.
Proof.
  intros Hr Hs [Hcr Hcs]. unfold consistent, keeps_rows. rewrite Hr, Hs.
  split; [split; assumption |]. split; intros k x H; exists x; auto.
Qed.

Lemma set_run_keeps (r run : Run) (rid : uuid) (db : session) :
  consistent db ->
  runs db !! rid = Some run ->
  run_fixed r = run_fixed run ->
  consistent (set_run r db) /\ keeps_rows db (set_run r db).
Proof.
  intros [Hcr Hcs] Hrun Hfix.
  assert (Hid : run_id r = rid).
  { injection Hfix as Hid _ _ _. rewrite Hid. exact (Hcr _ _ Hrun). }
  split; [split | split]; cbn.
  - intros k r0. rewrite Hid. destruct (decide (k = rid)) as [-> | Hne].
    + rewrite lookup_insert_eq. intros [= <-]. exact Hid.
    + rewrite lookup_insert_ne by congruence. apply Hcr.
  - exact Hcs.
  - intros k r0 H0. rewrite Hid. destruct (decide (k = rid)) as [-> | Hne].
    + rewrite lookup_insert_eq. exists r. split; [reflexivity |]. congruence.
    + rewrite lookup_insert_ne by congruence. exists r0. auto.
  - intros k s0 H0. exists s0. auto.
Qed.

Lemma set_step_keeps (s st : Step) (sid : uuid) (db : session) :
  consistent db ->
  steps db !! sid = Some st ->
  step_fixed s = step_fixed st ->
  consistent (set_step s db) /\ keeps_rows db (set_step s db).
Proof.
  intros [Hcr Hcs] Hst Hfix.
  assert (Hid : step_id s = sid).
  { injection Hfix as Hid _ _ _ _ _ _. rewrite Hid. exact (Hcs _ _ Hst). }
  split; [split | split]; cbn.
  - exact Hcr.
  - intros k s0. rewrite Hid. destruct (decide (k = sid)) as [-> | Hne].
    + rewrite lookup_insert_eq. intros [= <-]. exact Hid.
    + rewrite lookup_insert_ne by congruence. apply Hcs.
  - intros k r0 H0. exists r0. auto.
  - intros k s0 H0. rewrite Hid. destruct (decide (k = sid)) as [-> | Hne].
    + rewrite lookup_insert_eq. exists s. split; [reflexivity |]. congruence.
    + rewrite lookup_insert_ne by congruence. exists s0. auto.
Qed.

Lemma ingest_event_keeps (ev : event) (db db' : session) :
  consistent db ->
  ingest_event ev db = Ok db' ->
  consistent db' /\ keeps_rows db db'.
Proof.
  intros Hc. unfold ingest_event.
  destruct (String.eqb (ev_type ev) "run_complete").
  { unfold ingest_run_complete.
    destruct (dict_item (ev_data ev) "id") as [idv |]; cbn [bind]; [| discriminate].
    destruct (UUID idv) as [rid |]; cbn [bind]; [| discriminate].
    destruct (runs db !! rid) as [run |] eqn:Hrun.
    - intros [= <-]. apply (set_run_keeps _ run rid db Hc Hrun). reflexivity.
    - destruct (dict_item (ev_data ev) "name"); cbn [bind]; [| discriminate].
      intros [= <-]. apply same_maps_keep; [reflexivity | reflexivity | exact Hc]. }
  destruct (String.eqb (ev_type ev) "run_failed").
  { unfold ingest_run_failed.
    destruct (dict_item (ev_data ev) "id") as [idv |]; cbn [bind]; [| discriminate].
    destruct (UUID idv) as [rid |]; cbn [bind]; [| discriminate].
    destruct (runs db !! rid) as [run |] eqn:Hrun.
    - intros [= <-]. apply (set_run_keeps _ run rid db Hc Hrun). reflexivity.
    - destruct (dict_item (ev_data ev) "name"); cbn [bind]; [| discriminate].
      intros [= <-]. apply same_maps_keep; [reflexivity | reflexivity | exact Hc]. }
  destruct (String.eqb (ev_type ev) "step_complete").
  { unfold ingest_step_complete.
    destruct (dict_item (ev_data ev) "id") as [idv |]; cbn [bind]; [| discriminate].
    destruct (UUID idv) as [sid |]; cbn [bind]; [| discriminate].
    destruct (dict_item (ev_data ev) "run_id") as [ridv |]; cbn [bind];
      [| discriminate].
    destruct (UUID ridv) as [rid |]; cbn [bind]; [| discriminate].
    destruct (steps db !! sid) as [st |] eqn:Hst.
    - intros [= <-]. apply (set_step_keeps _ st sid db Hc Hst). reflexivity.
    - destruct (new_step sid rid (ev_data ev) PNone) as [st |]; cbn [bind];
        [| discriminate].
      cbn [add_step runs].
      destruct (runs db !! rid) as [run |] eqn:Hrun.
      + destruct (py_add _ _) as [total |]; cbn [bind]; [| discriminate].
        intros [= <-].
        destruct (same_maps_keep db (add_step st db) eq_refl eq_refl Hc)
          as [Hc1 Hk1].
        destruct (set_run_keeps
                    (mkRun (run_id run) (run_name run) (run_status run) total
                       (run_tags run) (run_started_at run) (run_completed_at run)
                       (run_error run))
                    run rid (add_step st db) Hc1 Hrun eq_refl) as [Hc2 Hk2].
        split; [exact Hc2 | exact (keeps_rows_trans _ _ _ Hk1 Hk2)].
      + intros [= <-]. apply same_maps_keep; [reflexivity | reflexivity | exact Hc]. }
  destruct (String.eqb (ev_type ev) "step_failed").
  { unfold ingest_step_failed.
    destruct (dict_item (ev_data ev) "id") as [idv |]; cbn [bind]; [| discriminate].
    destruct (UUID idv) as [sid |]; cbn [bind]; [| discriminate].
    destruct (dict_item (ev_data ev) "run_id") as [ridv |]; cbn [bind];
      [| discriminate].
    destruct (UUID ridv) as [rid |]; cbn [bind]; [| discriminate].
    destruct (steps db !! sid) as [st |] eqn:Hst.
    - intros [= <-]. apply (set_step_keeps _ st sid db Hc Hst). reflexivity.
    - destruct (new_step sid rid (ev_data ev) _) as [st |]; cbn [bind];
        [| discriminate].
      intros [= <-]. apply same_maps_keep; [reflexivity | reflexivity | exact Hc]. }
  intros [= <-]. split; [exact Hc | apply keeps_rows_refl].
Qed.

Lemma ingest_loop_keeps (evs : list event) (db db' : session) :
  consistent db ->
  ingest_loop evs db = Ok db' ->
  consistent db' /\ keeps_rows db db'.
Proof.
  revert db. induction evs as [| ev evs IH]; intros db Hc; cbn [ingest_loop].
  - intros [= <-]. split; [exact Hc | apply keeps_rows_refl].
  - destruct (ingest_event ev db) as [db1 |] eqn:Hev; cbn [bind]; [| discriminate].
    intros Hloop. destruct (ingest_event_keeps ev db db1 Hc Hev) as [Hc1 Hk1].
    destruct (IH db1 Hc1 Hloop) as [Hc2 Hk2].
    split; [exact Hc2 | exact (keeps_rows_trans _ _ _ Hk1 Hk2)].
Qed.

Lemma insert_runs_keeps (new : list Run) (m m' : gmap string Run) :
  (forall k r, m !! k = Some r -> run_id r = k) ->
  insert_runs new m = Ok m' ->
  (forall k r, m' !! k = Some r -> run_id r = k)
  /\ (forall k r, m !! k = Some r -> m' !! k = Some r).
Proof.
  revert m. induction new as [| r new IH]; intros m Hc; cbn [insert_runs].
  - intros [= <-]. auto.
  - destruct (is_none (run_name r)); [discriminate |].
    destruct (is_none (run_started_at r)); [discriminate |].
    destruct (m !! run_id r) eqn:Hfree; [discriminate |]. intros Hins.
    destruct (IH (<[run_id r := r]> m)) as [Hc' Hk']; [| exact Hins |].
    + intros k r0. destruct (decide (k = run_id r)) as [-> | Hne].
      * rewrite lookup_insert_eq. intros [= <-]. reflexivity.
      * rewrite lookup_insert_ne by congruence. apply Hc.
    + split; [exact Hc' |]. intros k r0 H0. apply Hk'.
      rewrite lookup_insert_ne; [exact H0 |]. intros <-. congruence.
Qed.

Lemma insert_steps_keeps (rs : gmap string Run) (new : list Step)
  (m m' : gmap string Step) :
  (forall k s, m !! k = Some s -> step_id s = k) ->
  insert_steps rs new m = Ok m' ->
  (forall k s, m' !! k = Some s -> step_id s = k)
  /\ (forall k s, m !! k = Some s -> m' !! k = Some s).
Proof.
  revert m. induction new as [| s new IH]; intros m Hc; cbn [insert_steps].
  - intros [= <-]. auto.
  - destruct (is_none (step_name s)); [discriminate |].
    destruct (is_none (started_at s)); [discriminate |].
    destruct (m !! step_id s) eqn:Hfree; [discriminate |].
    destruct (rs !! step_run_id s); [| discriminate]. intros Hins.
    destruct (IH (<[step_id s := s]> m)) as [Hc' Hk']; [| exact Hins |].
    + intros k s0. destruct (decide (k = step_id s)) as [-> | Hne].
      * rewrite lookup_insert_eq. intros [= <-]. reflexivity.
      * rewrite lookup_insert_ne by congruence. apply Hc.
    + split; [exact Hc' |]. intros k s0 H0. apply Hk'.
      rewrite lookup_insert_ne; [exact H0 |]. intros <-. congruence.
Qed.

Lemma commit_keeps (db db' : session) :
  consistent db -> commit db = Ok db' ->
  consistent db' /\ keeps_rows db db'.
Proof.
  intros [Hcr Hcs]. unfold commit.
  destruct (insert_runs (new_runs db) (runs db)) as [rs |] eqn:Hr; cbn [bind];
    [| discriminate].
  destruct (insert_steps rs (new_steps db) (steps db)) as [ss |] eqn:Hs; cbn [bind];
    [| discriminate].
  intros [= <-].
  destruct (insert_runs_keeps _ _ _ Hcr Hr) as [Hcr' Hkr].
  destruct (insert_steps_keeps _ _ _ _ Hcs Hs) as [Hcs' Hks].
  split; [split; assumption |]. split; cbn.
  - intros k r H. exists r. auto.
  - intros k s H. exists s. auto.
Qed.

(** X19: whatever requests arrive, ingest never removes a stored row and
    never rewrites its identity: a stored run keeps its id, name, tags and
    start time, a stored step keeps its id, run, name, type, inputs,
    reasoning and start time (an event that names another run or another
    type for a stored step is applied without moving it), and every row
    stays filed under its own id. *)
Theorem stored_identity_is_stable (batches : list (list event)) (db : session) :
  consistent db ->
  consistent (ingest_requests batches db)
  /\ keeps_rows db (ingest_requests batches db).
Proof.
  revert db. induction batches as [| b batches IH]; intros db Hc;
    cbn [ingest_requests].
  - split; [exact Hc | apply keeps_rows_refl].
  - unfold ingest_events.
    destruct (ingest_loop b db) as [db1 |] eqn:Hloop; cbn [bind]; [| exact (IH db Hc)].
    destruct (commit db1) as [db2 |] eqn:Hcommit; cbn [bind]; [| exact (IH db Hc)].
    destruct (ingest_loop_keeps b db db1 Hc Hloop) as [Hc1 Hk1].
    destruct (commit_keeps db1 db2 Hc1 Hcommit) as [Hc2 Hk2].
    destruct (IH db2 Hc2) as [Hc3 Hk3].
    split; [exact Hc3 |].
    exact (keeps_rows_trans _ _ _ (keeps_rows_trans _ _ _ Hk1 Hk2) Hk3).
Qed.

(** *** Failure events and the totals *)

Lemma keeps_totals_refl (db : session) : keeps_totals db db.
Proof. intros k r H. exists r. auto. Qed.

Lemma keeps_totals_trans (a b c : session) :
  keeps_totals a b -> keeps_totals b c -> keeps_totals a c.
Proof.
  intros H1 H2 k r H. destruct (H1 k r H) as (r' & H' & E').
  destruct (H2 k r' H') as (r'' & H'' & E''). exists r''. split; congruence.
Qed.

Lemma failure_event_keeps_totals (ev : event) (db db' : session) :
  consistent db ->
  failure_event ev = true ->
  ingest_event ev db = Ok db' ->
  keeps_totals db db'.
Proof.
  intros [Hcr _] Hf. unfold ingest_event.
  destruct (String.eqb_spec (ev_type ev) "run_complete") as [E | _].
  { unfold failure_event in Hf. rewrite E in Hf. discriminate. }
  destruct (String.eqb_spec (ev_type ev) "run_failed") as [_ | Hrf].
  { unfold ingest_run_failed.
    destruct (dict_item (ev_data ev) "id") as [idv |]; cbn [bind]; [| discriminate].
    destruct (UUID idv) as [rid |]; cbn [bind]; [| discriminate].
    destruct (runs db !! rid) as [run |] eqn:Hrun.
    - intros [= <-] k r H. cbn. rewrite (Hcr _ _ Hrun).
      destruct (decide (k = rid)) as [-> | Hne].
      + rewrite lookup_insert_eq. eexists. split; [reflexivity |]. cbn. congruence.
      + rewrite lookup_insert_ne by congruence. exists r. auto.
    - destruct (dict_item (ev_data ev) "name"); cbn [bind]; [| discriminate].
      intros [= <-] k r H. exists r. split; [exact H | reflexivity]. }
  destruct (String.eqb_spec (ev_type ev) "step_complete") as [E | _].
  { unfold failure_event in Hf. rewrite E in Hf. discriminate. }
  destruct (String.eqb_spec (ev_type ev) "step_failed") as [_ | Hsf].
  { unfold ingest_step_failed.
    destruct (dict_item (ev_data ev) "id") as [idv |]; cbn [bind]; [| discriminate].
    destruct (UUID idv) as [sid |]; cbn [bind]; [| discriminate].
    destruct (dict_item (ev_data ev) "run_id") as [ridv |]; cbn [bind];
      [| discriminate].
    destruct (UUID ridv) as [rid |]; cbn [bind]; [| discriminate].
    destruct (steps db !! sid) as [st |].
    - intros [= <-] k r H. exists r. split; [exact H | reflexivity].
    - destruct (new_step sid rid (ev_data ev) _) as [st |]; cbn [bind];
        [| discriminate].
      intros [= <-] k r H. exists r. split; [exact H | reflexivity]. }
  intros [= <-] k r H. exists r. split; [exact H | reflexivity].
Qed.

Lemma failure_loop_keeps_totals (evs : list event) (db db' : session) :
  consistent db ->
  forallb failure_event evs = true ->
  ingest_loop evs db = Ok db' ->
  keeps_totals db db'.
Proof.
  revert db. induction evs as [| ev evs IH]; intros db Hc Hall; cbn [ingest_loop].
  - intros [= <-]. apply keeps_totals_refl.
  - cbn [forallb] in Hall. apply andb_true_iff in Hall as [Hev Hrest].
    destruct (ingest_event ev db) as [db1 |] eqn:Hstep; cbn [bind]; [| discriminate].
    intros Hloop.
    apply (keeps_totals_trans _ db1).
    + exact (failure_event_keeps_totals ev db db1 Hc Hev Hstep).
    + apply IH; [| exact Hrest | exact Hloop].
      exact (proj1 (ingest_event_keeps ev db db1 Hc Hstep)).
Qed.

(** X20: failure events never change a stored total: a [run_failed] keeps
    the total its run has, and the cost a [step_failed] event carries is
    stored with the step but is not added to the total of its run, whether
    the step was stored before or not. So the total of a run counts its
    completed steps only. *)
Theorem failure_events_keep_totals (batches : list (list event)) (db : session)
  (rid : uuid) (run : Run) :
  consistent db ->
  forallb (forallb failure_event) batches = true ->
  runs db !! rid = Some run ->
  stored_total (ingest_requests batches db) rid = Some (total_cost run).
Proof.
  intros Hc Hall Hrun.
  assert (Hgen : keeps_totals db (ingest_requests batches db)).
  { clear rid run Hrun. revert db Hc.
    induction batches as [| b batches IH]; intros db Hc; cbn [ingest_requests].
    - apply keeps_totals_refl.
    - cbn [forallb] in Hall. apply andb_true_iff in Hall as [Hb Hrest].
      unfold ingest_events.
      destruct (ingest_loop b db) as [db1 |] eqn:Hloop; cbn [bind];
        [| exact (IH Hrest db Hc)].
      destruct (commit db1) as [db2 |] eqn:Hcommit; cbn [bind];
        [| exact (IH Hrest db Hc)].
      destruct (ingest_loop_keeps b db db1 Hc Hloop) as [Hc1 _].
      destruct (commit_keeps db1 db2 Hc1 Hcommit) as [Hc2 _].
      apply (keeps_totals_trans _ db1);
        [exact (failure_loop_keeps_totals b db db1 Hc Hb Hloop) |].
      apply (keeps_totals_trans _ db2); [| exact (IH Hrest db2 Hc2)].
      intros k r H. exists r. split; [| reflexivity].
      unfold commit in Hcommit.
      destruct (insert_runs (new_runs db1) (runs db1)) as [rs |] eqn:Hr;
        cbn [bind] in Hcommit; [| discriminate].
      destruct (insert_steps rs (new_steps db1) (steps db1)) as [ss |];
        cbn [bind] in Hcommit; [| discriminate].
      injection Hcommit as <-. cbn.
      exact (proj2 (insert_runs_keeps _ _ _ (proj1 Hc1) Hr) k r H). }
  destruct (Hgen rid run Hrun) as (r' & Hr' & Ht).
  unfold stored_total. rewrite Hr'. cbn. rewrite Ht. reflexivity.
Qed.

(** *** Identifiers and rows as text *)

Lemma digit16_facts (c : ascii) :
  is_digit16 c = true ->
  Ascii.eqb c "_" = false
  /\ Ascii.eqb c "+" = false
  /\ Ascii.eqb c "-" = false
  /\ Ascii.eqb c "x" = false
  /\ Ascii.eqb c "X" = false
  /\ is_space c = false
  /\ exists d, digit_value c = Some d
               /\ (0 <= d < 16)%Z
               /\ hex_digit (Z.to_nat d) = c.
Proof.
  destruct c as [[] [] [] [] [] [] [] []]; intros H; try discriminate H;
    repeat (split; [reflexivity |]);
    eexists; (split; [reflexivity |]);
    (split; [vm_compute; split; [discriminate | reflexivity] | reflexivity]).
Qed.

Lemma plain_facts (c : ascii) :
  is_plain c = true -> is_brace c = false /\ c <> "u"%char.
Proof.
  destruct c as [[] [] [] [] [] [] [] []]; intros H; try discriminate H;
    (split; [reflexivity | discriminate]).
Qed.

Lemma hex_digit_digit16 (k : nat) : (k < 16)%nat -> is_digit16 (hex_digit k) = true.
Proof.
  intros H. do 16 (destruct k as [| k]; [reflexivity |]). lia.
Qed.

Lemma hex_of_length (n : nat) (z : Z) : String.length (hex_of n z) = n.
Proof.
  revert z. induction n as [| n IH]; intros z; [reflexivity |].
  cbn [hex_of String.length]. rewrite IH. reflexivity.
Qed.

Lemma hex_of_digits (n : nat) (z : Z) : all_digit16 (hex_of n z) = true.
Proof.
  revert z. induction n as [| n IH]; intros z; [reflexivity |].
  cbn [hex_of all_digit16]. rewrite IH, andb_true_r.
  apply hex_digit_digit16.
  pose proof (Z.mod_pos_bound (z / 16 ^ Z.of_nat n) 16 eq_refl). lia.
Qed.

Lemma digits16_all (s : string) :
  all_digit16 s = true ->
  forall acc,
    digits16 s acc false
    = Some ((acc * 16 ^ Z.of_nat (String.length s) + value16 s)%Z, EmptyString).
Proof.
  induction s as [| c s IH]; intros H acc.
  - cbn. repeat f_equal. lia.
  - cbn [all_digit16] in H. apply andb_true_iff in H as [Hc Hs].
    destruct (digit16_facts c Hc) as (Hu & _ & _ & _ & _ & _ & d & Hd & _ & _).
    cbn [digits16 value16 String.length]. rewrite Hu, Hd, (IH Hs). cbn [default].
    rewrite Nat2Z.inj_succ, Z.pow_succ_r by lia.
    apply f_equal, (f_equal (fun z : Z => (z, EmptyString))). unfold id. ring.
Qed.

Lemma value16_bound (s : string) :
  all_digit16 s = true ->
  (0 <= value16 s < 16 ^ Z.of_nat (String.length s))%Z.
Proof.
  induction s as [| c s IH]; intros H; [cbn; lia |].
  cbn [all_digit16] in H. apply andb_true_iff in H as [Hc Hs].
  destruct (digit16_facts c Hc) as (_ & _ & _ & _ & _ & _ & d & Hd & Hb & _).
  cbn [value16 String.length]. rewrite Hd. cbn [default]. unfold id.
  rewrite Nat2Z.inj_succ, Z.pow_succ_r by lia.
  specialize (IH Hs). nia.
Qed.

Lemma hex_of_value16 (s : string) :
  all_digit16 s = true -> hex_of (String.length s) (value16 s) = s.
Proof.
  induction s as [| c s IH]; intros H; [reflexivity |].
  cbn [all_digit16] in H. apply andb_true_iff in H as [Hc Hs].
  destruct (digit16_facts c Hc) as (_ & _ & _ & _ & _ & _ & d & Hd & Hb & Hh).
  pose proof (value16_bound s Hs) as Hv.
  cbn [value16 String.length hex_of]. rewrite Hd. cbn [default]. unfold id.
  assert (Hpos : (0 < 16 ^ Z.of_nat (String.length s))%Z) by lia.
  rewrite Z.div_add_l by lia. rewrite (Z.div_small (value16 s)) by lia.
  rewrite Z.add_0_r, (Z.mod_small d) by lia. rewrite Hh.
  rewrite Z.add_comm, Z.mod_add by lia. rewrite Z.mod_small by lia.
  rewrite (IH Hs). reflexivity.
Qed.

Lemma int16_digits (c : ascii) (u : string) :
  all_digit16 (String c u) = true ->
  int16 (String c u) = Some (value16 (String c u)).
Proof.
  intros H. pose proof H as Hall.
  cbn [all_digit16] in H. apply andb_true_iff in H as [Hc Hu].
  destruct (digit16_facts c Hc) as (_ & Hplus & Hminus & _ & _ & Hsp & d & Hd & _ & _).
  unfold int16. cbn [lstrip]. rewrite Hsp. unfold split_sign.
  rewrite Hplus, Hminus. cbn [fst snd].
  assert (Hbody : skip_prefix16 (String c u) = String c u).
  { unfold skip_prefix16. destruct u as [| x r]; [reflexivity |].
    cbn [all_digit16] in Hu. apply andb_true_iff in Hu as [Hx _].
    destruct (digit16_facts x Hx) as (_ & _ & _ & Hx1 & Hx2 & _).
    rewrite Hx1, Hx2, andb_false_r. reflexivity. }
  rewrite Hbody, Hd, (digits16_all _ Hall 0). cbn [lstrip].
  rewrite Z.mul_0_l, Z.add_0_l. reflexivity.
Qed.

Lemma prefix_head (a c : ascii) (old s : string) :
  a <> c -> String.prefix (String a old) (String c s) = false.
Proof.
  intros Hne. cbn [String.prefix]. destruct (ascii_dec a c); [contradiction | reflexivity].
Qed.

(** A text without the first character of [old] has no occurrence of it. *)
Lemma remove_absent (a : ascii) (old s : string) :
  all_chars (fun c => negb (Ascii.eqb a c)) s = true ->
  remove (String a old) s = s.
Proof.
  unfold remove. induction s as [| c s IH]; [reflexivity |].
  cbn [all_chars]. intros H. apply andb_true_iff in H as [Hc Hs].
  cbn [remove_from]. rewrite prefix_head, (IH Hs); [reflexivity |].
  apply Ascii.eqb_neq. destruct (Ascii.eqb a c); [discriminate | reflexivity].
Qed.

Lemma plain_no_u (s : string) :
  all_chars is_plain s = true ->
  all_chars (fun c => negb (Ascii.eqb "u" c)) s = true.
Proof.
  induction s as [| c s IH]; [reflexivity |].
  cbn [all_chars]. intros H. apply andb_true_iff in H as [Hc Hs].
  rewrite (IH Hs), andb_true_r.
  destruct (plain_facts c Hc) as [_ Hne].
  destruct (Ascii.eqb "u" c) eqn:He; [| reflexivity].
  apply Ascii.eqb_eq in He. congruence.
Qed.

Lemma strip_plain (s : string) :
  all_chars is_plain s = true ->
  lstrip is_brace s = s /\ rstrip is_brace s = s.
Proof.
  intros H. split.
  - destruct s as [| c s]; [reflexivity |].
    cbn [all_chars] in H. apply andb_true_iff in H as [Hc _].
    cbn [lstrip]. rewrite (proj1 (plain_facts c Hc)). reflexivity.
  - induction s as [| c s IH]; [reflexivity |].
    cbn [all_chars] in H. apply andb_true_iff in H as [Hc Hs].
    cbn [rstrip]. rewrite (IH Hs), (proj1 (plain_facts c Hc)).
    destruct s; reflexivity.
Qed.

Lemma remove_hyphen_step (c : ascii) (s : string) :
  remove_from "-" 0 (String c s)
  = if Ascii.eqb c "-" then remove_from "-" 0 s
    else String c (remove_from "-" 0 s).
Proof.
  cbn [remove_from String.prefix].
  destruct (ascii_dec "-" c) as [<- | Hne].
  - destruct s; reflexivity.
  - destruct (Ascii.eqb c "-") eqn:He; [| reflexivity].
    apply Ascii.eqb_eq in He. congruence.
Qed.

Lemma remove_hyphens_digits (u : string) :
  all_digit16 u = true -> remove "-" u = u.
Proof.
  unfold remove. induction u as [| c u IH]; [reflexivity |].
  cbn [all_digit16]. intros H. apply andb_true_iff in H as [Hc Hu].
  destruct (digit16_facts c Hc) as (_ & _ & Hminus & _).
  rewrite remove_hyphen_step, Hminus, (IH Hu). reflexivity.
Qed.

Lemma remove_hyphens_hyphenate (u : string) :
  all_digit16 u = true -> forall i, remove "-" (hyphenate i u) = u.
Proof.
  unfold remove. induction u as [| c u IH]; intros H i; [reflexivity |].
  cbn [all_digit16] in H. apply andb_true_iff in H as [Hc Hu].
  destruct (digit16_facts c Hc) as (_ & _ & Hminus & _).
  cbn [hyphenate].
  destruct ((i =? 8) || (i =? 12) || (i =? 16) || (i =? 20))%nat.
  - rewrite remove_hyphen_step. cbn [Ascii.eqb Bool.eqb].
    rewrite remove_hyphen_step, Hminus, (IH Hu). reflexivity.
  - rewrite remove_hyphen_step, Hminus, (IH Hu). reflexivity.
Qed.

Lemma digits_plain (u : string) :
  all_digit16 u = true -> all_chars is_plain u = true.
Proof.
  induction u as [| c u IH]; [reflexivity |].
  cbn [all_digit16 all_chars]. intros H. apply andb_true_iff in H as [Hc Hu].
  unfold is_plain at 1. rewrite Hc, (IH Hu). reflexivity.
Qed.

Lemma hyphenate_plain (u : string) :
  all_digit16 u = true -> forall i, all_chars is_plain (hyphenate i u) = true.
Proof.
  induction u as [| c u IH]; intros H i; [reflexivity |].
  cbn [all_digit16] in H. apply andb_true_iff in H as [Hc Hu].
  cbn [hyphenate].
  destruct ((i =? 8) || (i =? 12) || (i =? 16) || (i =? 20))%nat;
    cbn [all_chars]; rewrite (IH Hu); unfold is_plain; rewrite Hc; reflexivity.
Qed.

(** The text of an identifier, with or without hyphens, is read as that
    identifier. *)
Lemma UUID_of_plain (s u : string) :
  all_chars is_plain s = true ->
  remove "-" s = u ->
  is_uuid u = true ->
  UUID (PStr s) = Ok u.
Proof.
  intros Hplain Hrem Hu. unfold is_uuid in Hu.
  apply andb_true_iff in Hu as [Hlen Hd].
  unfold UUID.
  rewrite (remove_absent "u" "rn:" s (plain_no_u s Hplain)).
  rewrite (remove_absent "u" "uid:" s (plain_no_u s Hplain)).
  destruct (strip_plain s Hplain) as [Hl Hr]. rewrite Hl, Hr, Hrem, Hlen.
  pose proof (value16_bound u Hd) as Hb.
  pose proof (hex_of_value16 u Hd) as Hhex.
  apply Nat.eqb_eq in Hlen. rewrite Hlen in Hb, Hhex.
  destruct u as [| c u']; [discriminate |].
  rewrite (int16_digits c u' Hd).
  change (16 ^ Z.of_nat 32)%Z with (2 ^ 128)%Z in Hb.
  destruct (0 <=? value16 (String c u'))%Z eqn:H0; [| apply Z.leb_gt in H0; lia].
  destruct (value16 (String c u') <? 2 ^ 128)%Z eqn:H1;
    [| apply Z.ltb_ge in H1; lia].
  cbn [andb]. rewrite Hhex. reflexivity.
Qed.

Lemma UUID_of_str (u : string) :
  is_uuid u = true -> UUID (PStr (uuid_str u)) = Ok u.
Proof.
  intros Hu. pose proof Hu as H. unfold is_uuid in H.
  apply andb_true_iff in H as [_ Hd].
  apply UUID_of_plain; [| | exact Hu].
  - apply hyphenate_plain. exact Hd.
  - apply remove_hyphens_hyphenate. exact Hd.
Qed.

Lemma UUID_of_digits (u : string) :
  is_uuid u = true -> UUID (PStr u) = Ok u.
Proof.
  intros Hu. pose proof Hu as H. unfold is_uuid in H.
  apply andb_true_iff in H as [_ Hd].
  apply UUID_of_plain; [| | exact Hu].
  - apply digits_plain. exact Hd.
  - apply remove_hyphens_digits. exact Hd.
Qed.

Lemma UUID_is_uuid (v : pyval) (u : uuid) : UUID v = Ok u -> is_uuid u = true.
Proof.
  unfold UUID. destruct v as [| | | | s | |]; try discriminate.
  destruct (String.length _ =? 32)%nat; [| discriminate].
  destruct (int16 _) as [z |]; [| discriminate].
  destruct ((0 <=? z) && (z <? 2 ^ 128))%Z; [| discriminate].
  intros H. assert (Hu : u = hex_of 32 z) by congruence.
  rewrite Hu. unfold is_uuid.
  rewrite hex_of_length, hex_of_digits. reflexivity.
Qed.

(** X21: an identifier accepted by [UUID] is kept as 32 lower-case
    hexadecimal digits, whatever the spelling it was read from (upper or
    lower case, hyphens, braces, a urn prefix); its [str], the hyphenated
    form that [to_dict] writes, is read back as the same identifier, and so
    is the bare digit string. *)
Theorem uuid_round_trip (v : pyval) (u : uuid) :
  UUID v = Ok u ->
  is_uuid u = true
  /\ UUID (PStr (uuid_str u)) = Ok u
  /\ UUID (PStr u) = Ok u.
Proof.
  intros H. pose proof (UUID_is_uuid v u H) as Hu.
  split; [exact Hu |]. split; [exact (UUID_of_str u Hu) | exact (UUID_of_digits u Hu)].
Qed.

Lemma StepType_of_value (t : StepType) : StepType_of (PStr (StepType_value t)) = Ok t.
Proof. destruct t; reflexivity. Qed.

(** X22: [to_dict] loses nothing that ingest reads: the dictionary of a
    step, delivered as a [step_failed] event to a store that does not hold
    the step, adds exactly that step again; the dictionary of a run,
    delivered as [run_failed], adds the run again with status FAILED (the
    status written by [to_dict] is not read: the event type decides). *)
Theorem to_dict_round_trip (db : session) :
  (forall st,
      is_uuid (step_id st) = true ->
      is_uuid (step_run_id st) = true ->
      steps db !! step_id st = None ->
      ingest_event (mkEvent "step_failed" (Step_to_dict st)) db
      = Ok (add_step st db))
  /\ (forall r,
        is_uuid (run_id r) = true ->
        runs db !! run_id r = None ->
        ingest_event (mkEvent "run_failed" (Run_to_dict r)) db
        = Ok (add_run (mkRun (run_id r) (run_name r) FAILED (total_cost r)
                         (run_tags r) (run_started_at r) (run_completed_at r)
                         (run_error r)) db)).
Proof.
  split.
  - intros st Hid Hrid Hnew. unfold ingest_event. cbn [ev_type ev_data].
    cbn [String.eqb Ascii.eqb Bool.eqb]. unfold ingest_step_failed.
    unfold Step_to_dict, dict_item. cbn [dict_find String.eqb Ascii.eqb Bool.eqb].
    cbn [bind]. rewrite (UUID_of_str _ Hid), (UUID_of_str _ Hrid). cbn [bind].
    rewrite Hnew. unfold new_step, dict_item.
    cbn [dict_find String.eqb Ascii.eqb Bool.eqb bind].
    rewrite StepType_of_value. cbn [bind].
    unfold dict_get, dict_get_default.
    cbn [dict_find String.eqb Ascii.eqb Bool.eqb]. destruct st; reflexivity.
  - intros r Hid Hnew. unfold ingest_event. cbn [ev_type ev_data].
    cbn [String.eqb Ascii.eqb Bool.eqb]. unfold ingest_run_failed.
    unfold Run_to_dict, dict_item. cbn [dict_find String.eqb Ascii.eqb Bool.eqb].
    cbn [bind]. rewrite (UUID_of_str _ Hid). cbn [bind].
    rewrite Hnew. unfold dict_item.
    cbn [dict_find String.eqb Ascii.eqb Bool.eqb bind].
    unfold dict_get, dict_get_default.
    cbn [dict_find String.eqb Ascii.eqb Bool.eqb]. reflexivity.
Qed.

(** *** Requests that fail *)

Lemma ingest_loop_app (pre post : list event) (db : session) :
  ingest_loop (pre ++ post)%list db
  = (db1 <- ingest_loop pre db ;; ingest_loop post db1).
Proof.
  revert db. induction pre as [| ev pre IH]; intros db; [reflexivity |].
  cbn [app ingest_loop]. destruct (ingest_event ev db) as [db1 |]; cbn [bind];
    [apply IH | reflexivity].
Qed.

(** X23: a request is all or nothing: when one event of the batch raises,
    the request raises the same exception, the events after it are not
    looked at, and the store is left as it was before the request; what
    the events before it had changed or added is not kept. *)
Theorem malformed_event_rejects_request (pre post : list event) (ev : event)
  (db db1 : session) (e : exn) :
  ingest_loop pre db = Ok db1 ->
  ingest_event ev db1 = Raise e ->
  ingest_events (pre ++ ev :: post)%list db = Raise e
  /\ forall later, ingest_requests ((pre ++ ev :: post)%list :: later) db
                   = ingest_requests later db.
Proof.
  intros Hpre Hev.
  assert (H : ingest_events (pre ++ ev :: post)%list db = Raise e).
  { unfold ingest_events. rewrite ingest_loop_app, Hpre. cbn [bind ingest_loop].
    rewrite Hev. reflexivity. }
  split; [exact H |]. intros later. cbn [ingest_requests]. rewrite H. reflexivity.
Qed.

(** X24: ingest reads the [type] of a step event only when it builds a new
    row: for a step that is not stored yet, a type outside llm, retrieval,
    filter and logic makes the event raise the [ValueError] of the
    enumeration, and no row is added; for a step that is stored, the same
    event is applied and the [type] field is ignored. *)
Theorem unknown_step_type_is_rejected (ev : event) (db : session)
  (sid rid : uuid) (name tyv : pyval) (e : exn) :
  ev_type ev = "step_complete" \/ ev_type ev = "step_failed" ->
  event_id ev = Ok sid ->
  event_run_id ev = Ok rid ->
  dict_find (ev_data ev) "name" = Some name ->
  dict_find (ev_data ev) "type" = Some tyv ->
  StepType_of tyv = Raise e ->
  (steps db !! sid = None -> ingest_event ev db = Raise e)
  /\ (forall st, steps db !! sid = Some st ->
        exists db', ingest_event ev db = Ok db'
                    /\ new_steps db' = new_steps db
                    /\ exists st', steps db' !! step_id st = Some st'
                                   /\ step_type st' = step_type st).
Proof.
  intros Hty Hid Hrid Hname Htype Hbad.
  unfold event_id in Hid. unfold event_run_id in Hrid.
  destruct (dict_item (ev_data ev) "id") as [idv |] eqn:Hidv; cbn [bind] in Hid;
    [| discriminate].
  destruct (dict_item (ev_data ev) "run_id") as [ridv |] eqn:Hridv;
    cbn [bind] in Hrid; [| discriminate].
  assert (Hnew : forall err, new_step sid rid (ev_data ev) err = Raise e).
  { intros err. unfold new_step, dict_item. rewrite Hname, Htype. cbn [bind].
    rewrite Hbad. reflexivity. }
  unfold ingest_event.
  destruct Hty as [Hty | Hty]; rewrite Hty; cbn [String.eqb Ascii.eqb Bool.eqb].
  - unfold ingest_step_complete. rewrite Hidv. cbn [bind]. rewrite Hid. cbn [bind].
    rewrite Hridv. cbn [bind]. rewrite Hrid. cbn [bind]. split.
    + intros ->. rewrite Hnew. reflexivity.
    + intros st ->. eexists. split; [reflexivity |]. cbn.
      split; [reflexivity |]. eexists. split; [apply lookup_insert_eq | reflexivity].
  - unfold ingest_step_failed. rewrite Hidv. cbn [bind]. rewrite Hid. cbn [bind].
    rewrite Hridv. cbn [bind]. rewrite Hrid. cbn [bind]. split.
    + intros ->. rewrite Hnew. reflexivity.
    + intros st ->. eexists. split; [reflexivity |]. cbn.
      split; [reflexivity |]. eexists. split; [apply lookup_insert_eq | reflexivity].
Qed.

(** *** The properties on the demo store *)

Lemma stored_demo_consistent : consistent Scenarios.stored_demo.
Proof.
  split; intros k x H; cbn in H;
    apply lookup_singleton_Some in H as [<- <-]; reflexivity.
Qed.

Lemma unknown_event_types_are_counted_witness :
  ingest_events Scenarios.unknown_events Scenarios.stored_demo
  = Ok (Scenarios.stored_demo, 2%Z).
Proof.
  exact (proj2 (unknown_event_types_are_counted Scenarios.unknown_events
                  Scenarios.stored_demo) eq_refl eq_refl eq_refl).
Defined.

Lemma stored_run_accumulates_costs_witness :
  exists db',
    ingest_loop [Scenarios.keywords_event; Scenarios.ranking_event]
      Scenarios.stored_demo = Ok db'
    /\ stored_total db' Scenarios.rid1 = Some (PFloat 1.25)
    /\ length (new_steps db') = 2%nat.
Proof.
  assert (Hevs : Forall2 (fresh_step_event Scenarios.stored_demo Scenarios.rid1)
                   [0.5%float; 0.25%float]
                   [Scenarios.keywords_event; Scenarios.ranking_event]).
  { repeat constructor; eexists; eexists;
      (split; [reflexivity |]); (split; [reflexivity |]);
      (split; [reflexivity |]); (split; reflexivity). }
  destruct (stored_run_accumulates_costs Scenarios.stored_demo Scenarios.rid1
              (with_total Scenarios.demo_run (PFloat 0.5)) 0.5%float
              [0.5%float; 0.25%float]
              [Scenarios.keywords_event; Scenarios.ranking_event]
              eq_refl eq_refl eq_refl Hevs)
    as (db' & Hloop & Hrun & _ & _ & _ & Hnew & Hlen).
  exists db'. split; [exact Hloop |].
  split; [unfold stored_total; rewrite Hrun; reflexivity |].
  rewrite Hnew, length_app, Hlen. reflexivity.
Defined.

Lemma redelivery_is_idempotent_witness :
  exists db1,
    ingest_event Scenarios.redelivered_event Scenarios.stored_demo = Ok db1
    /\ ingest_event Scenarios.redelivered_event db1 = Ok db1
    /\ runs db1 = runs Scenarios.stored_demo.
Proof.
  eexists. split; [reflexivity |].
  match goal with
  | |- ingest_event _ ?d = _ /\ _ =>
      destruct (redelivery_is_idempotent Scenarios.redelivered_event
                  Scenarios.stored_demo d eq_refl eq_refl) as [Hagain Hruns]
  end.
  split; [exact Hagain |]. apply Hruns. left. reflexivity.
Defined.

Lemma stored_identity_is_stable_witness :
  exists r' s',
    runs (ingest_requests [Scenarios.demo_batch; [Scenarios.custom_event]]
            Scenarios.stored_demo) !! Scenarios.rid1 = Some r'
    /\ run_name r' = PStr "competitor_selection"
    /\ steps (ingest_requests [Scenarios.demo_batch; [Scenarios.custom_event]]
                Scenarios.stored_demo) !! "5f0c2a9e7b3d4c1e8a6f0b1d2c3e4f50"
       = Some s'
    /\ step_type s' = FILTER.
Proof.
  destruct (stored_identity_is_stable
              [Scenarios.demo_batch; [Scenarios.custom_event]]
              Scenarios.stored_demo stored_demo_consistent) as [_ [Hruns Hsteps]].
  destruct (Hruns Scenarios.rid1 _ eq_refl) as (r' & Hr' & Hfix).
  destruct (Hsteps "5f0c2a9e7b3d4c1e8a6f0b1d2c3e4f50" _ eq_refl) as (s' & Hs' & Hsfix).
  exists r', s'. split; [exact Hr' |].
  split; [injection Hfix as _ Hn _ _; exact Hn |].
  split; [exact Hs' |]. injection Hsfix as _ _ _ Hty _ _ _. exact Hty.
Defined.

Lemma failure_events_keep_totals_witness :
  stored_total
    (ingest_requests [[Scenarios.failed_step_event; Scenarios.failed_run_event]]
       Scenarios.stored_demo) Scenarios.rid1
  = Some (PFloat 0.5).
Proof.
  exact (failure_events_keep_totals
           [[Scenarios.failed_step_event; Scenarios.failed_run_event]]
           Scenarios.stored_demo Scenarios.rid1
           (with_total Scenarios.demo_run (PFloat 0.5))
           stored_demo_consistent eq_refl eq_refl).
Defined.

Lemma uuid_round_trip_witness :
  UUID (PStr "urn:uuid:{0A1B2C3D-4E5F-4071-8293-A4B5C6D7E8F9}") = Ok Scenarios.rid1
  /\ UUID (PStr (uuid_str Scenarios.rid1)) = Ok Scenarios.rid1
  /\ uuid_str Scenarios.rid1 = "0a1b2c3d-4e5f-4071-8293-a4b5c6d7e8f9".
Proof.
  assert (H : UUID (PStr "urn:uuid:{0A1B2C3D-4E5F-4071-8293-A4B5C6D7E8F9}")
              = Ok Scenarios.rid1) by reflexivity.
  split; [exact H |]. split; [| reflexivity].
  exact (proj1 (proj2 (uuid_round_trip
                         (PStr "urn:uuid:{0A1B2C3D-4E5F-4071-8293-A4B5C6D7E8F9}")
                         Scenarios.rid1 H))).
Defined.

Lemma to_dict_round_trip_witness :
  ingest_event (mkEvent "step_failed" (Step_to_dict Scenarios.spec_filter_step))
    empty_store
  = Ok (add_step Scenarios.spec_filter_step empty_store).
Proof.
  exact (proj1 (to_dict_round_trip empty_store) Scenarios.spec_filter_step
           eq_refl eq_refl eq_refl).
Defined.

Lemma malformed_event_rejects_request_witness :
  ingest_events
    [Scenarios.keywords_event; Scenarios.anonymous_event; Scenarios.ranking_event]
    Scenarios.stored_demo
  = Raise (KeyError "id")
  /\ ingest_requests
       [[Scenarios.keywords_event; Scenarios.anonymous_event; Scenarios.ranking_event]]
       Scenarios.stored_demo
     = Scenarios.stored_demo.
Proof.
  destruct (ingest_loop [Scenarios.keywords_event] Scenarios.stored_demo)
    as [db1 |] eqn:Hpre; [| discriminate Hpre].
  destruct (malformed_event_rejects_request [Scenarios.keywords_event]
              [Scenarios.ranking_event] Scenarios.anonymous_event
              Scenarios.stored_demo db1 (KeyError "id") Hpre eq_refl)
    as [Hraise Hstore].
  split; [exact Hraise | exact (Hstore [])].
Defined.

Lemma unknown_step_type_is_rejected_witness :
  ingest_event Scenarios.custom_event Scenarios.stored_demo
  = Raise (ValueError "'custom' is not a valid StepType").
Proof.
  exact (proj1 (unknown_step_type_is_rejected Scenarios.custom_event
                  Scenarios.stored_demo "22222222222242228222222222222222"
                  Scenarios.rid1 (PStr "rerank") (PStr "custom")
                  (ValueError "'custom' is not a valid StepType")
                  (or_introl eq_refl) eq_refl eq_refl eq_refl eq_refl eq_refl)
           eq_refl).
Defined.

End StoreProps.

(** ** The client's address and its histograms *)

Module ClientProps.
Import Py Sdk SdkProps.
Local Open Scope py_scope.

Lemma rstrip_slashes (n : nat) : rstrip_slash (slashes n) = EmptyString.
Proof. induction n as [| n IH]; [reflexivity |]. cbn. rewrite IH. reflexivity. Qed.

Lemma rstrip_app_slashes (u : string) (n : nat) :
  rstrip_slash (u ++ slashes n) = rstrip_slash u.
Proof.
  induction u as [| c u IH].
  - apply rstrip_slashes.
  - change (String c u ++ slashes n) with (String c (u ++ slashes n)).
    cbn [rstrip_slash]. rewrite IH. reflexivity.
Qed.

Lemma rstrip_no_slash (u : string) : ends_with_slash (rstrip_slash u) = false.
Proof.
  induction u as [| c u IH]; [reflexivity |].
  cbn [rstrip_slash]. destruct (rstrip_slash u) as [| c' r] eqn:Hr.
  - destruct (Ascii.eqb c "/") eqn:Hc; [reflexivity |]. cbn. exact Hc.
  - exact IH.
Qed.

Lemma rstrip_fixed (u : string) : ends_with_slash u = false -> rstrip_slash u = u.
Proof.
  induction u as [| c u IH]; [reflexivity |].
  cbn [ends_with_slash rstrip_slash]. destruct u as [| c' u'].
  - intros Hc. cbn. rewrite Hc. reflexivity.
  - intros H. rewrite (IH H). reflexivity.
Qed.

(** X25: trailing slashes of the configured address do not matter: the
    client keeps the address without them, so two addresses that differ in
    trailing slashes only give the same client and the same ingest
    address, which is the kept address followed by one "/ingest"; an
    address without a trailing slash is kept as it is. *)
Theorem api_url_normalised (u : string) (n : nat) (batch_size : nat)
  (flush_interval timeout : float) :
  XRayClient (u ++ slashes n) batch_size flush_interval timeout
  = XRayClient u batch_size flush_interval timeout
  /\ ends_with_slash (api_url (XRayClient u batch_size flush_interval timeout)) = false
  /\ ingest_url (XRayClient (u ++ slashes n) batch_size flush_interval timeout)
     = rstrip_slash u ++ "/ingest"
  /\ XRayClient (api_url (XRayClient u batch_size flush_interval timeout))
       batch_size flush_interval timeout
     = XRayClient u batch_size flush_interval timeout.
Proof.
  unfold XRayClient, ingest_url. cbn [api_url].
  rewrite rstrip_app_slashes, (rstrip_fixed _ (rstrip_no_slash u)).
  repeat split. apply rstrip_no_slash.
Qed.

Section Histogram.

Context {T : Type} (filter_fn : T -> bool * option string).

Lemma hist_set_keys_present (h : list (string * Z)) (k : string) (n : Z) :
  List.In k (map fst h) -> map fst (hist_set h k n) = map fst h.
Proof.
  induction h as [| [k' n'] h IH]; [intros [] |].
  cbn [hist_set map fst List.In]. intros Hin.
  destruct (String.eqb_spec k k') as [-> | Hne]; [reflexivity |].
  cbn [map fst]. rewrite IH; [reflexivity |].
  destruct Hin as [He | Hin]; [congruence | exact Hin].
Qed.

Lemma hist_set_keys_absent (h : list (string * Z)) (k : string) (n : Z) :
  ~ List.In k (map fst h) -> map fst (hist_set h k n) = (map fst h ++ [k])%list.
Proof.
  induction h as [| [k' n'] h IH]; [reflexivity |].
  cbn [hist_set map fst List.In]. intros Hno.
  destruct (String.eqb_spec k k') as [-> | Hne]; [exfalso; apply Hno; left; reflexivity |].
  cbn [map fst app]. rewrite IH; [reflexivity |].
  intros Hin. apply Hno. right. exact Hin.
Qed.

Lemma nodup_snoc (l : list string) (k : string) :
  List.NoDup l -> ~ List.In k l -> List.NoDup (l ++ [k]).
Proof.
  induction l as [| a l IH]; intros Hnd Hno.
  - constructor; [intros [] | constructor].
  - apply List.NoDup_cons_iff in Hnd as [Ha Hnd]. cbn [app].
    apply List.NoDup_cons_iff. split.
    + intros Hin. apply List.in_app_iff in Hin as [Hin | [<- | []]].
      * contradiction.
      * apply Hno. left. reflexivity.
    + apply IH; [exact Hnd |]. intros Hin. apply Hno. right. exact Hin.
Qed.

Lemma hist_get_absent (h : list (string * Z)) (k : string) (d : Z) :
  ~ List.In k (map fst h) -> hist_get h k d = d.
Proof.
  induction h as [| [k' n'] h IH]; [reflexivity |].
  cbn [map fst List.In hist_get]. intros Hno.
  destruct (String.eqb_spec k k') as [-> | Hne]; [exfalso; apply Hno; left; reflexivity |].
  apply IH. intros Hin. apply Hno. right. exact Hin.
Qed.

Lemma hist_get_present (h : list (string * Z)) (k : string) (n d : Z) :
  List.NoDup (map fst h) -> List.In (k, n) h -> hist_get h k d = n.
Proof.
  induction h as [| [k' n'] h IH]; [intros _ [] |].
  cbn [map fst hist_get]. intros Hnd Hin.
  apply List.NoDup_cons_iff in Hnd as [Hfresh Hnd].
  destruct Hin as [[= -> ->] | Hin].
  - rewrite String.eqb_refl. reflexivity.
  - destruct (String.eqb_spec k k') as [-> | Hne].
    + exfalso. apply Hfresh. apply (List.in_map fst) in Hin. exact Hin.
    + exact (IH Hnd Hin).
Qed.

Lemma hist_set_entries (h : list (string * Z)) (k : string) (n : Z)
  (P : string * Z -> Prop) :
  List.Forall P h -> P (k, n) -> List.Forall P (hist_set h k n).
Proof.
  intros Hall Hkn. induction h as [| [k' n'] h IH]; cbn [hist_set].
  - constructor; [exact Hkn | constructor].
  - inversion Hall as [| x l Hhd Htl]; subst.
    destruct (String.eqb_spec k k') as [-> | Hne].
    + constructor; [exact Hkn | exact Htl].
    + constructor; [exact Hhd | exact (IH Htl)].
Qed.

Lemma reason_key_not_empty (reason : option string) : reason_key reason <> EmptyString.
Proof.
  unfold reason_key. destruct reason as [r |]; [| discriminate].
  destruct (String.eqb_spec r EmptyString) as [-> | Hne]; [discriminate | exact Hne].
Qed.

Lemma hist_get_nonneg (h : list (string * Z)) (k : string) :
  List.Forall (fun kn => (1 <= snd kn)%Z /\ fst kn <> EmptyString) h ->
  (0 <= hist_get h k 0)%Z.
Proof.
  induction h as [| [k' n'] h IH]; cbn [hist_get]; [lia |].
  intros Hall. inversion Hall as [| x l [Hn _] Htl]; subst. cbn in Hn.
  destruct (String.eqb k k'); [lia | exact (IH Htl)].
Qed.

Lemma classify_loop_tidy (cs surv : list T) (hist : list (string * Z)) :
  tidy hist -> tidy (snd (classify_loop T filter_fn cs surv hist)).
Proof.
  revert surv hist. induction cs as [| c cs IH]; intros surv hist Ht; [exact Ht |].
  cbn [classify_loop]. destruct (filter_fn c) as [[|] reason]; [apply IH; exact Ht |].
  apply IH. destruct Ht as [Hnd Hall]. split.
  - destruct (List.in_dec string_dec (reason_key reason) (map fst hist)) as [Hin | Hno].
    + rewrite hist_set_keys_present by exact Hin. exact Hnd.
    + rewrite hist_set_keys_absent by exact Hno. apply nodup_snoc; assumption.
  - apply hist_set_entries; [exact Hall |]. cbn [fst snd].
    split; [| apply reason_key_not_empty].
    pose proof (hist_get_nonneg hist (reason_key reason) Hall). lia.
Qed.

(** X26: the rejection histogram has one entry for each key under which
    some candidate was rejected, and no other: no key occurs twice, no
    entry has a count below 1, the empty string is never a key, and the
    count of an entry is the number of candidates rejected under its
    key. *)
Theorem rejection_histogram_entries (cs : list T) :
  let h := snd (classify_loop T filter_fn cs [] []) in
  List.NoDup (map fst h)
  /\ (forall k n, List.In (k, n) h ->
        (1 <= n)%Z /\ k <> EmptyString
        /\ n = rejects_keyed reason_key filter_fn k cs)
  /\ (forall k, (0 < rejects_keyed reason_key filter_fn k cs)%Z ->
        List.In (k, rejects_keyed reason_key filter_fn k cs) h).
Proof.
  cbv zeta.
  destruct (classify_loop_tidy cs [] []) as [Hnd Hall];
    [split; constructor |].
  split; [exact Hnd |]. split.
  - intros k n Hin.
    pose proof (proj1 (List.Forall_forall _ _) Hall (k, n) Hin) as [Hn Hk].
    split; [exact Hn |]. split; [exact Hk |].
    rewrite <- (hist_get_present _ k n 0%Z Hnd Hin).
    rewrite classify_loop_key. cbn [hist_get]. lia.
  - intros k Hpos.
    pose proof (classify_loop_key filter_fn cs [] [] k) as Hget.
    cbn [hist_get] in Hget.
    destruct (List.in_dec string_dec k
                (map fst (snd (classify_loop T filter_fn cs [] []))))
      as [Hin | Hno].
    + apply List.in_map_iff in Hin as ([k' n] & Hk & Hin). cbn in Hk. subst k'.
      rewrite (hist_get_present _ k n 0%Z Hnd Hin) in Hget.
      replace (rejects_keyed reason_key filter_fn k cs) with n by lia. exact Hin.
    + rewrite (hist_get_absent _ k 0%Z Hno) in Hget. lia.
Qed.

End Histogram.

End ClientProps.

(** ** The filters of the simulation *)

Module SimulationProps.
Import Py Sdk Simulation SdkProps.

Lemma filter_map_comm {X Y : Type} (f : Y -> bool) (g : X -> Y) (l : list X) :
  List.filter f (map g l) = map g (List.filter (fun x => f (g x)) l).
Proof.
  induction l as [| x l IH]; [reflexivity |].
  cbn [map List.filter]. destruct (f (g x)); cbn [map]; rewrite IH; reflexivity.
Qed.

Lemma filter_agree {X : Type} (f g : X -> bool) (l : list X) :
  (forall x, List.In x l -> f x = g x) -> List.filter f l = List.filter g l.
Proof.
  induction l as [| x l IH]; intros H; [reflexivity |].
  cbn [List.filter]. rewrite (H x (or_introl eq_refl)).
  rewrite IH by (intros y Hy; apply H; right; exact Hy). reflexivity.
Qed.

Lemma range_nonneg (n i : Z) : List.In i (range n) -> (0 <= i)%Z.
Proof.
  unfold range. intros H. apply List.in_map_iff in H as (j & <- & _). lia.
Qed.

(** A property of the remainders below [m], checked one by one. *)
Lemma below (P : Z -> bool) (m : nat) :
  forallb P (map Z.of_nat (seq 0 m)) = true ->
  forall k, (0 <= k < Z.of_nat m)%Z -> P k = true.
Proof.
  intros Hall k Hk.
  apply (proj1 (forallb_forall _ _) Hall).
  apply List.in_map_iff. exists (Z.to_nat k). split; [lia |].
  apply List.in_seq. lia.
Qed.

Lemma price_below_4950 (k : Z) :
  (0 <= k < 100)%Z ->
  PrimFloat.ltb 100 (PrimFloat.add 150 (PrimFloat.mul (small_float k) 10)) = true.
Proof.
  apply (below (fun k => PrimFloat.ltb 100
                           (PrimFloat.add 150 (PrimFloat.mul (small_float k) 10)))
           100).
  vm_compute. reflexivity.
Qed.

Lemma price_from_4950 (k : Z) :
  (0 <= k < 50)%Z ->
  PrimFloat.ltb 100 (PrimFloat.add 20 (PrimFloat.mul (small_float k) 2))
  = (40 <? k)%Z.
Proof.
  intros Hk.
  apply Bool.eqb_prop.
  apply (below (fun k => Bool.eqb
                           (PrimFloat.ltb 100
                              (PrimFloat.add 20 (PrimFloat.mul (small_float k) 2)))
                           (40 <? k)%Z) 50); [vm_compute; reflexivity | exact Hk].
Qed.

Lemma rating_by_remainder (k : Z) :
  (0 <= k < 10)%Z ->
  PrimFloat.ltb (PrimFloat.add 4 (PrimFloat.mul (small_float k) 0.1)) 4.5
  = (k <? 5)%Z.
Proof.
  intros Hk.
  apply Bool.eqb_prop.
  apply (below (fun k => Bool.eqb
                           (PrimFloat.ltb
                              (PrimFloat.add 4 (PrimFloat.mul (small_float k) 0.1))
                              4.5)
                           (k <? 5)%Z) 10); [vm_compute; reflexivity | exact Hk].
Qed.

Lemma price_filter_by_index (i : Z) :
  (0 <= i)%Z -> accepted filter_by_price (product_at i) = cheap i.
Proof.
  intros Hi. unfold accepted, filter_by_price, product_at, cheap. cbn [price].
  destruct (Z.ltb_spec i 4950) as [Hlt | Hge].
  - rewrite price_below_4950 by (apply Z.mod_pos_bound; lia).
    destruct (Z.leb_spec 4950 i); [lia | reflexivity].
  - rewrite price_from_4950 by (apply Z.mod_pos_bound; lia).
    destruct (Z.leb_spec 4950 i); [| lia]. cbn [andb].
    destruct (Z.ltb_spec 40 (i mod 50)), (Z.leb_spec (i mod 50) 40);
      try reflexivity; lia.
Qed.

Lemma rating_filter_by_index (i : Z) :
  (0 <= i)%Z -> accepted filter_by_rating (product_at i) = well_rated i.
Proof.
  intros Hi. unfold accepted, filter_by_rating, product_at, well_rated. cbn [rating].
  rewrite rating_by_remainder by (apply Z.mod_pos_bound; lia).
  destruct (Z.ltb_spec (i mod 10) 5), (Z.leb_spec 5 (i mod 10));
    try reflexivity; lia.
Qed.

Lemma price_reject_key (i : Z) (k : string) :
  (0 <= i)%Z ->
  negb (accepted filter_by_price (product_at i))
  && String.eqb (reason_key (snd (filter_by_price (product_at i)))) k
  = String.eqb k "price_too_high" && negb (cheap i).
Proof.
  intros Hi. pose proof (price_filter_by_index i Hi) as Hacc.
  unfold accepted in *. unfold filter_by_price in *.
  destruct (PrimFloat.ltb 100 (price (product_at i))); cbn [fst snd] in *;
    rewrite <- Hacc; cbn [negb andb].
  - rewrite andb_true_r. apply String.eqb_sym.
  - rewrite andb_false_r. reflexivity.
Qed.

Lemma rating_reject_key (i : Z) (k : string) :
  (0 <= i)%Z ->
  negb (accepted filter_by_rating (product_at i))
  && String.eqb (reason_key (snd (filter_by_rating (product_at i)))) k
  = String.eqb k "rating_too_low" && negb (well_rated i).
Proof.
  intros Hi. pose proof (rating_filter_by_index i Hi) as Hacc.
  unfold accepted in *. unfold filter_by_rating in *.
  destruct (PrimFloat.ltb (rating (product_at i)) 4.5); cbn [fst snd] in *;
    rewrite <- Hacc; cbn [negb andb].
  - rewrite andb_true_r. apply String.eqb_sym.
  - rewrite andb_false_r. reflexivity.
Qed.

Lemma filter_guarded {X : Type} (b : bool) (f : X -> bool) (l : list X) :
  length (List.filter (fun x => b && f x) l)
  = if b then length (List.filter f l) else 0%nat.
Proof.
  destruct b; cbn [andb]; [reflexivity |].
  induction l as [| x l IH]; [reflexivity | exact IH].
Qed.

(** The histogram of a filter of the simulation over products given by
    their indices. *)
Lemma histogram_by_index (filter_fn : Product -> bool * option string)
  (pass : Z -> bool) (reason : string) (l : list Z) (k : string) :
  (forall i, List.In i l -> (0 <= i)%Z) ->
  (forall i k, (0 <= i)%Z ->
     negb (accepted filter_fn (product_at i))
     && String.eqb (reason_key (snd (filter_fn (product_at i)))) k
     = String.eqb k reason && negb (pass i)) ->
  hist_get (snd (classify_loop Product filter_fn (map product_at l) [] [])) k 0
  = if String.eqb k reason
    then Z.of_nat (length (List.filter (fun i => negb (pass i)) l))
    else 0%Z.
Proof.
  intros Hl Hkey. rewrite classify_loop_key. cbn [hist_get].
  unfold rejects_keyed. rewrite filter_map_comm, length_map, Z.add_0_l.
  rewrite (filter_agree _ (fun i => String.eqb k reason && negb (pass i)))
    by (intros i Hi; apply Hkey; exact (Hl i Hi)).
  rewrite filter_guarded. destruct (String.eqb k reason); reflexivity.
Qed.

(** X27: of the candidates [retrieve_candidates] generates, the price
    filter keeps exactly those whose index is at least 4950 and leaves a
    remainder of at most 40 on division by 50, in their order; every other
    candidate is counted under "price_too_high". Of the 5000 candidates of
    the simulation it keeps 41 and rejects 4959. *)
Theorem price_filter_survivors (keywords : list string) (max_results : Z) :
  List.filter (accepted filter_by_price) (retrieve_candidates keywords max_results)
  = map product_at (List.filter cheap (range max_results))
  /\ (forall k,
        hist_get (snd (classify_loop Product filter_by_price
                         (retrieve_candidates keywords max_results) [] [])) k 0
        = if String.eqb k "price_too_high"
          then Z.of_nat (length (List.filter (fun i => negb (cheap i))
                                   (range max_results)))
          else 0%Z)
  /\ length (List.filter cheap (range 5000)) = 41%nat
  /\ length (List.filter (fun i => negb (cheap i)) (range 5000)) = 4959%nat.
Proof.
  split.
  - unfold retrieve_candidates. rewrite filter_map_comm. f_equal.
    apply filter_agree. intros i Hi. apply price_filter_by_index.
    exact (range_nonneg max_results i Hi).
  - split.
    + intros k. unfold retrieve_candidates.
      apply histogram_by_index; [apply range_nonneg | apply price_reject_key].
    + split; vm_compute; reflexivity.
Qed.

(** X28: the rating filter keeps exactly the generated products whose
    index leaves a remainder of at least 5 on division by 10, and counts
    the others under "rating_too_low"; applied to the survivors of the
    price filter, as the simulation does, it leaves 20 of the 5000
    candidates. *)
Theorem rating_filter_survivors (keywords : list string) (max_results : Z) :
  let priced :=
    List.filter (accepted filter_by_price)
      (retrieve_candidates keywords max_results) in
  List.filter (accepted filter_by_rating) priced
  = map product_at
      (List.filter (fun i => cheap i && well_rated i) (range max_results))
  /\ (forall k,
        hist_get (snd (classify_loop Product filter_by_rating priced [] [])) k 0
        = if String.eqb k "rating_too_low"
          then Z.of_nat (length (List.filter (fun i => cheap i && negb (well_rated i))
                                   (range max_results)))
          else 0%Z)
  /\ length (List.filter (fun i => cheap i && well_rated i) (range 5000)) = 20%nat.
Proof.
  cbv zeta.
  assert (Hpriced :
    List.filter (accepted filter_by_price) (retrieve_candidates keywords max_results)
    = map product_at (List.filter cheap (range max_results))).
  { unfold retrieve_candidates. rewrite filter_map_comm. f_equal.
    apply filter_agree. intros i Hi. apply price_filter_by_index.
    exact (range_nonneg max_results i Hi). }
  assert (Hnonneg : forall i, List.In i (List.filter cheap (range max_results)) ->
                              (0 <= i)%Z).
  { intros i Hi. apply List.filter_In in Hi as [Hi _].
    exact (range_nonneg max_results i Hi). }
  assert (Htwice : forall (f g : Z -> bool) (l : list Z),
             List.filter g (List.filter f l)
             = List.filter (fun i => f i && g i) l).
  { intros f g l. induction l as [| x l IH]; [reflexivity |].
    cbn [List.filter]. destruct (f x); cbn [List.filter andb];
      [destruct (g x) |]; rewrite IH; reflexivity. }
  rewrite Hpriced. split.
  - rewrite filter_map_comm. f_equal.
    rewrite (filter_agree _ well_rated)
      by (intros i Hi; apply rating_filter_by_index; exact (Hnonneg i Hi)).
    apply Htwice.
  - split.
    + intros k.
      rewrite (histogram_by_index filter_by_rating well_rated "rating_too_low"
                 _ k Hnonneg rating_reject_key).
      rewrite Htwice. reflexivity.
    + vm_compute. reflexivity.
Qed.

End SimulationProps.
